(** * datareplicator: the synthetic record generation engine

    A shallow embedding of [datareplicator/generation] (the value samplers of
    [utils/sampling.py], the generators of [generators/*.py] and the
    orchestrator of [generator_service.py]) together with the properties the
    specification states about them.

    Conventions of the embedding.
    - Python floats are rationals ([Q]); there is no NaN and no rounding
      error.  Python ints are [Z]; the 64-bit cast of numpy and its checks
      on seeds and ranges are written out where the code meets them.
    - The models of pydantic are records of the fields their classes
      declare; a constructor call or an attribute the class does not
      provide for raises as pydantic does.
    - The two global random generators ([random] and [numpy.random]) are one
      explicit stream of raw draws, [Rng], threaded through every sampling
      call.  Every statement quantifies over the stream.
    - Exceptions are values ([Raise e]) of a state-and-exception monad that
      keeps the state reached when the exception was raised, as Python does
      for mutated objects.
    - Wall-clock fields ([start_time], [end_time], [duration_seconds]) and
      logging are left out; memory is unbounded. *)

From Stdlib Require Import ZArith QArith Qround Qabs List String Ascii Bool.
From Stdlib Require Import DecimalString Lia Lqa.
From Stdlib Require DecimalPos Finite.
Import ListNotations.

Local Open Scope string_scope.
Local Open Scope Z_scope.

(** ** Python values and exceptions *)

Inductive value : Type :=
| VNone
| VInt (z : Z)
| VFloat (q : Q)
| VStr (s : string).

Inductive exn : Type :=
| ValueError (msg : string)
| TypeError (msg : string)
| ZeroDivisionError (msg : string)
| KeyError (msg : string)
| IndexError (msg : string)
| OverflowError (msg : string)
| AttributeError (msg : string)
| ValidationError (msg : string).

(** [str(e)] *)
Definition exn_str (e : exn) : string :=
  match e with
  | ValueError m | TypeError m | ZeroDivisionError m | KeyError m
  | IndexError m | OverflowError m | AttributeError m | ValidationError m => m
  end.

Inductive Exc (A : Type) : Type :=
| Ok (a : A)
| Raise (e : exn).
Arguments Ok {A} a.
Arguments Raise {A} e.

(** A computation over a mutable state [S] that may raise. *)
Definition St (S A : Type) : Type := S -> Exc A * S.

Definition ret {S A} (a : A) : St S A := fun s => (Ok a, s).
Definition raise {S A} (e : exn) : St S A := fun s => (Raise e, s).
Definition bind {S A B} (m : St S A) (k : A -> St S B) : St S B :=
  fun s => match m s with
           | (Ok a, s') => k a s'
           | (Raise e, s') => (Raise e, s')
           end.
Definition get {S} : St S S := fun s => (Ok s, s).
Definition modify {S} (f : S -> S) : St S unit := fun s => (Ok tt, f s).

Declare Scope st_scope.
Delimit Scope st_scope with st.
Notation "x <- m ;; k" := (bind m (fun x => k))
  (at level 61, m at next level, right associativity) : st_scope.
Notation "m ;;; k" := (bind m (fun _ => k))
  (at level 61, right associativity) : st_scope.
Local Open Scope st_scope.

(** [for x in xs: body x], stopping at the first exception. *)
Fixpoint for_each {S A} (xs : list A) (body : A -> St S unit) : St S unit :=
  match xs with
  | [] => ret tt
  | x :: xs' => body x ;;; for_each xs' body
  end.

(** [[f x for x in xs]] where [f] has effects. *)
Fixpoint map_m {S A B} (f : A -> St S B) (xs : list A) : St S (list B) :=
  match xs with
  | [] => ret []
  | x :: xs' => y <- f x ;; ys <- map_m f xs' ;; ret (y :: ys)
  end.

(** [[m for _ in range(n)]] *)
Fixpoint repeat_m {S A} (n : nat) (m : St S A) : St S (list A) :=
  match n with
  | O => ret []
  | Datatypes.S n' => y <- m ;; ys <- repeat_m n' m ;; ret (y :: ys)
  end.

(** ** Rational helpers *)

Definition Qltb (x y : Q) : bool := negb (Qle_bool y x).
Definition Qmax (x y : Q) : Q := if Qle_bool x y then y else x.
Definition Qmin (x y : Q) : Q := if Qle_bool x y then x else y.

(** Fractional part, in [0, 1). *)
Definition Qfrac (q : Q) : Q := q - inject_Z (Qfloor q).



(** The least magnitude that a float operation rounds to infinity. *)
Definition float_overflow : Q := inject_Z (2 ^ 1024 - 2 ^ 970).

(** Python's [int(x)] on a float: truncation toward zero. *)
Definition py_int (q : Q) : Z :=
  if Qle_bool 0 q then Qfloor q else Qceiling q.

Definition Qsum (l : list Q) : Q := fold_right Qplus 0%Q l.

(** ** The randomness source

    [stream] is the sequence of raw draws still to come and [cursor] the
    number already consumed.  [seeded s] is the sequence the generators
    produce after [seed(s)]. *)

Record Rng : Type := mkRng {
  seeded : Z -> nat -> Q;
  stream : nat -> Q;
  cursor : nat
}.

Definition Rand (A : Type) : Type := St Rng A.

(** [random.seed(s); np.random.seed(s)], for a seed both take: [random]
    takes any integer, numpy those between 0 and 2**32 - 1. *)
Definition rng_seed (s : Z) : Rand unit :=
  modify (fun r => mkRng (seeded r) (seeded r s) O).

Definition seed_if_given (seed : option Z) : Rand unit :=
  match seed with
  | Some s => rng_seed s
  | None => ret tt
  end.

(** [np.random.seed(s)] for any integer [s]. *)
Definition np_random_seed (s : Z) : Rand unit :=
  if andb (0 <=? s) (s <? 2 ^ 32) then rng_seed s
  else raise (ValueError "Seed must be between 0 and 2**32 - 1").

(** [if seed is not None: np.random.seed(seed)] *)
Definition np_seed_if_given (seed : option Z) : Rand unit :=
  match seed with
  | Some s => np_random_seed s
  | None => ret tt
  end.

(** The seeds numpy takes. *)
Definition np_seed_ok (seed : option Z) : Prop :=
  match seed with
  | Some s => 0 <= s < 2 ^ 32
  | None => True
  end.

(** One raw draw: any rational. *)
Definition draw : Rand Q :=
  fun r => (Ok (stream r (cursor r)), mkRng (seeded r) (stream r) (Datatypes.S (cursor r))).

(** [random.random()]: a draw in [0, 1). *)
Definition random_random : Rand Q := q <- draw ;; ret (Qfrac q).

(** An array shape of [count] elements; numpy refuses a negative one. *)
Definition np_size (count : Z) : Rand nat :=
  if count <? 0 then raise (ValueError "negative dimensions are not allowed")
  else ret (Z.to_nat count).

Definition np_draws (count : Z) (f : Q -> Q) : Rand (list Q) :=
  n <- np_size count ;; repeat_m n (q <- draw ;; ret (f q)).

(** [np.random.normal(mean, std, count)]: the raw draw is the standard
    normal deviate. *)
Definition np_random_normal (mean std : Q) (count : Z) : Rand (list Q) :=
  if Qltb std 0 then raise (ValueError "scale < 0")
  else np_draws count (fun z => mean + std * z)%Q.

(** [np.random.uniform(low, high, count)]: [low + (high - low) * u] with
    [u] in [0, 1); numpy does not compare [low] with [high], but refuses a
    range [high - low] that is not finite. *)
Definition np_random_uniform (low high : Q) (count : Z) : Rand (list Q) :=
  if Qle_bool float_overflow (Qabs (high - low))
  then raise (OverflowError "Range exceeds valid bounds")
  else np_draws count (fun z => low + (high - low) * Qfrac z)%Q.

(** [np.random.poisson(lam, count)]: a natural number. *)
Definition np_random_poisson (lam : Q) (count : Z) : Rand (list Q) :=
  if Qltb lam 0 then raise (ValueError "lam < 0")
  else np_draws count
         (fun z => if Qeq_bool lam 0 then 0%Q else inject_Z (Z.abs (Qfloor z))).

(** [np.random.exponential(scale, count)]: a non-negative real. *)
Definition np_random_exponential (scale : Q) (count : Z) : Rand (list Q) :=
  if Qltb scale 0 then raise (ValueError "scale < 0")
  else np_draws count (fun z => scale * Qabs z)%Q.




(** [np.random.binomial(n, p, count)]: an integer between 0 and [n]. *)
Definition np_random_binomial (n p : Q) (count : Z) : Rand (list Q) :=
  let n' := Qfloor n in
  if n' <? 0 then raise (ValueError "n < 0")
  else if Qltb p 0 then raise (ValueError "p < 0")
  else if Qltb 1 p then raise (ValueError "p > 1")
  else np_draws count
         (fun z => if Qeq_bool p 0 then 0%Q
                   else if Qeq_bool p 1 then inject_Z n'
                   else inject_Z (Z.abs (Qfloor z) mod (n' + 1))).

(** ** Dictionaries of numeric parameters: [params.get(key, default)] *)

Definition Params : Type := list (string * Q).

Fixpoint params_get (params : Params) (key : string) (default : Q) : Q :=
  match params with
  | [] => default
  | (k, v) :: rest => if String.eqb k key then v else params_get rest key default
  end.

(** ** utils/sampling.py *)

Definition or_else {A} (o : option A) (d : A) : A :=
  match o with Some a => a | None => d end.



(** A stream whose every draw is [q]. *)
Definition rng_const (q : Q) : Rng := mkRng (fun _ _ => q) (fun _ => q) O.

(** ** Strings *)

Definition lower_ascii (c : ascii) : ascii :=
  let n := nat_of_ascii c in
  if andb (Nat.leb 65 n) (Nat.leb n 90) then ascii_of_nat (n + 32) else c.

(** [s.lower()] *)
Fixpoint lower (s : string) : string :=
  match s with
  | EmptyString => EmptyString
  | String c s' => String (lower_ascii c) (lower s')
  end.

(** [str(n)] for an int *)
Definition str_int (z : Z) : string := NilZero.string_of_int (Z.to_int z).

Fixpoint zeros (n : nat) : string :=
  match n with
  | O => EmptyString
  | Datatypes.S n' => String "0" (zeros n')
  end.

(** [s.zfill(width)] for a string without sign *)
Definition zfill (width : nat) (s : string) : string :=
  zeros (width - String.length s) ++ s.

(** ** Values as pandas sees them *)

Definition isna (v : value) : bool :=
  match v with VNone => true | _ => false end.

(** Python's [==] on the values of a column. *)
Definition value_eqb (x y : value) : bool :=
  match x, y with
  | VNone, VNone => true
  | VInt a, VInt b => a =? b
  | VInt a, VFloat b => Qeq_bool (inject_Z a) b
  | VFloat a, VInt b => Qeq_bool a (inject_Z b)
  | VFloat a, VFloat b => Qeq_bool a b
  | VStr a, VStr b => String.eqb a b
  | _, _ => false
  end.

(** [v in l] *)
Definition value_in (v : value) (l : list value) : bool :=
  existsb (value_eqb v) l.

(** Distinct values in order of first appearance: [Series.unique()]. *)
Fixpoint unique_values (l : list value) : list value :=
  match l with
  | [] => []
  | v :: l' => v :: filter (fun w => negb (value_eqb v w)) (unique_values l')
  end.

Definition dropna (col : list value) : list value :=
  filter (fun v => negb (isna v)) col.

(** [Series.isna().sum()] *)
Definition missing_count_of (col : list value) : Z :=
  Z.of_nat (List.length (filter isna col)).

(** [Series.nunique()]: distinct values, missing ones not counted. *)
Definition nunique (col : list value) : Z :=
  Z.of_nat (List.length (unique_values (dropna col))).

(** The number a value stands for, if any. *)
Definition as_number (v : value) : option Q :=
  match v with
  | VInt z => Some (inject_Z z)
  | VFloat q => Some q
  | _ => None
  end.

(** [x < y] on two present values: numbers with numbers, strings with
    strings; Python raises [TypeError] otherwise. *)
Definition value_ltb (x y : value) : Exc bool :=
  match as_number x, as_number y with
  | Some a, Some b => Ok (Qltb a b)
  | _, _ =>
      match x, y with
      | VStr a, VStr b => Ok (String.ltb a b)
      | _, _ => Raise (TypeError "'<' not supported between instances")
      end
  end.

(** [(series < bound).sum()]; a missing entry compares false. *)
Fixpoint count_lt (col : list value) (bound : value) : Exc Z :=
  match col with
  | [] => Ok 0
  | v :: col' =>
      match count_lt col' bound with
      | Raise e => Raise e
      | Ok n =>
          if isna v then Ok n
          else match value_ltb v bound with
               | Raise e => Raise e
               | Ok b => Ok (if b then n + 1 else n)
               end
      end
  end.

(** [(series > bound).sum()] *)
Fixpoint count_gt (col : list value) (bound : value) : Exc Z :=
  match col with
  | [] => Ok 0
  | v :: col' =>
      match count_gt col' bound with
      | Raise e => Raise e
      | Ok n =>
          if isna v then Ok n
          else match value_ltb bound v with
               | Raise e => Raise e
               | Ok b => Ok (if b then n + 1 else n)
               end
      end
  end.

(** [Series.min()] and [Series.max()] of a column with a present value. *)
Fixpoint series_extreme (want_max : bool) (col : list value) : Exc value :=
  match col with
  | [] => Ok VNone
  | v :: col' =>
      match series_extreme want_max col' with
      | Raise e => Raise e
      | Ok m =>
          if isna v then Ok m
          else if isna m then Ok v
          else match (if want_max then value_ltb m v else value_ltb v m) with
               | Raise e => Raise e
               | Ok b => Ok (if b then v else m)
               end
      end
  end.

Fixpoint numbers_of (col : list value) : option (list Q) :=
  match col with
  | [] => Some []
  | v :: col' =>
      match as_number v, numbers_of col' with
      | Some q, Some qs => Some (q :: qs)
      | _, _ => None
      end
  end.

(** [Series.mean()]: the mean of the present values; pandas raises
    [TypeError] on a column of strings (its message, which goes on to quote
    the values, is cut short). *)
Definition series_mean (col : list value) : Exc Q :=
  match numbers_of (dropna col) with
  | Some qs => Ok (Qsum qs / inject_Z (Z.of_nat (List.length qs)))%Q
  | None => Raise (TypeError "Could not convert to numeric")
  end.

(** ** Dictionaries that keep insertion order *)

Fixpoint dict_get {V} (d : list (string * V)) (k : string) : option V :=
  match d with
  | [] => None
  | (k', v) :: d' => if String.eqb k' k then Some v else dict_get d' k
  end.

(** [d[k] = v] *)
Fixpoint dict_set {V} (d : list (string * V)) (k : string) (v : V)
  : list (string * V) :=
  match d with
  | [] => [(k, v)]
  | (k', v') :: d' =>
      if String.eqb k' k then (k, v) :: d' else (k', v') :: dict_set d' k v
  end.

Definition dict_mem {V} (d : list (string * V)) (k : string) : bool :=
  match dict_get d k with Some _ => true | None => false end.

Definition dict_values {V} (d : list (string * V)) : list V := map snd d.

(** ** Tables *)

(** A [pandas.DataFrame] with a default index: named columns of one
    length. *)
Definition DataFrame : Type := list (string * list value).

(** [len(df)] *)
Definition df_len (df : DataFrame) : Z :=
  match df with
  | [] => 0
  | (_, col) :: _ => Z.of_nat (List.length col)
  end.

(** [pd.DataFrame(data)] for a dictionary of lists. *)
Definition make_DataFrame (data : list (string * list value)) : Exc DataFrame :=
  match data with
  | [] => Ok []
  | (_, col) :: rest =>
      if forallb (fun kc => Nat.eqb (List.length (snd kc)) (List.length col)) rest
      then Ok data
      else Raise (ValueError "All arrays must be of the same length")
  end.

(** ** generation/models/config.py *)

Inductive GenerationMode : Type :=
| RANDOM | STATISTICAL | COPY | RELATIONAL | DERIVED.

Inductive DataDistribution : Type :=
| NORMAL | UNIFORM | BINOMIAL | EXPONENTIAL | POISSON | CATEGORICAL | CUSTOM.

Record ValueConstraint : Type := mkValueConstraint {
  min_value : option value;
  max_value : option value;
  allowed_values : option (list value);
  format_pattern : option string;
  unique : bool;
  nullable : bool;
  null_probability : Q
}.

(** [ValueConstraint()] *)
Definition default_constraint : ValueConstraint :=
  mkValueConstraint None None None None false false 0.

(** [distribution_params] holds the numeric entries of the dictionary and
    [param_probabilities] its one list-valued entry, ["probabilities"]. *)
Record VariableGenerationConfig : Type := mkVariable {
  variable_name : string;
  data_type : string;
  distribution : option DataDistribution;
  distribution_params : option Params;
  param_probabilities : option (list Q);
  constraints : option ValueConstraint
}.

Record DomainGenerationConfig : Type := mkDomainConfig {
  domain_name : string;
  domain_type : string;
  record_count : Z;
  subject_count : Z;
  mode : GenerationMode;
  variables : list VariableGenerationConfig
}.

(** ** generation/models/results.py *)

Inductive GenerationStatus : Type :=
| PENDING | IN_PROGRESS | COMPLETED | FAILED | CANCELLED.

Inductive DataQualityIssue : Type :=
| MISSING_VALUES | DUPLICATE_VALUES | OUT_OF_RANGE | INVALID_FORMAT
| RELATIONSHIP_VIOLATION | DISTRIBUTION_DEVIATION | PATTERN_VIOLATION
| CUSTOM_ISSUE.

(** The free-text [description] is left out. *)
Record DataQualityCheck : Type := mkCheck {
  check_name : string;
  check_type : DataQualityIssue;
  check_variable : option string;
  passed : bool;
  issue_count : Z
}.

(** What [distribution_stats] holds, by the type of the variable. *)
Inductive DistributionStats : Type :=
| NumericStats (mean : Q)
| TopValues (top : list (value * Q))
| YearCounts (years : list (Z * Z)).

Record VariableGenerationStats : Type := mkStats {
  stats_variable : string;
  stats_data_type : string;
  generated_count : Z;
  missing_count : Z;
  unique_count : option Z;
  stats_min : option value;
  stats_max : option value;
  distribution_stats : option DistributionStats;
  quality_checks : list DataQualityCheck
}.

Record DomainGenerationResult : Type := mkResult {
  result_domain : string;
  status : GenerationStatus;
  result_record_count : Z;
  result_subject_count : Z;
  variable_stats : list (string * VariableGenerationStats);
  error_message : option string;
  quality_score : option Q
}.

(** ** Calendar dates: [datetime.datetime] at day resolution *)

Record date : Type := mkDate { year : Z; month : Z; day : Z }.

Definition is_leap (y : Z) : bool :=
  andb (y mod 4 =? 0) (orb (negb (y mod 100 =? 0)) (y mod 400 =? 0)).

Definition days_in_month (y m : Z) : Z :=
  if m =? 2 then (if is_leap y then 29 else 28)
  else if orb (orb (m =? 4) (m =? 6)) (orb (m =? 9) (m =? 11)) then 30
  else 31.

Definition valid_date (y m d : Z) : bool :=
  andb (andb (1 <=? y) (y <=? 9999))
       (andb (andb (1 <=? m) (m <=? 12))
             (andb (1 <=? d) (d <=? days_in_month y m))).

(** [datetime(y, m, d)] *)
Definition datetime (y m d : Z) : Exc date :=
  if valid_date y m d then Ok (mkDate y m d)
  else Raise (ValueError "date value out of range").

(** Days since 1970-01-01 and back (proleptic Gregorian calendar). *)
Definition days_from_civil (dt : date) : Z :=
  let y := if month dt <=? 2 then year dt - 1 else year dt in
  let era := y / 400 in
  let yoe := y - era * 400 in
  let mp := (month dt + 9) mod 12 in
  let doy := (153 * mp + 2) / 5 + day dt - 1 in
  let doe := yoe * 365 + yoe / 4 - yoe / 100 + doy in
  era * 146097 + doe - 719468.

Definition civil_from_days (z : Z) : date :=
  let z := z + 719468 in
  let era := z / 146097 in
  let doe := z - era * 146097 in
  let yoe := (doe - doe / 1460 + doe / 36524 - doe / 146096) / 365 in
  let doy := doe - (365 * yoe + yoe / 4 - yoe / 100) in
  let mp := (5 * doy + 2) / 153 in
  let d := doy - (153 * mp + 2) / 5 + 1 in
  let m := if mp <? 10 then mp + 3 else mp - 9 in
  let y := yoe + era * 400 in
  mkDate (if m <=? 2 then y + 1 else y) m d.

(** [dt + timedelta(days=n)]; outside years 1..9999 Python raises
    [OverflowError]. *)
Definition add_days (dt : date) (n : Z) : Exc date :=
  let r := civil_from_days (days_from_civil dt + n) in
  if andb (1 <=? year r) (year r <=? 9999) then Ok r
  else Raise (OverflowError "date value out of range").

(** [dt.strftime("%Y-%m-%d")]; the year is written with four digits, as
    every platform does from year 1000 on. *)
Definition strftime (dt : date) : string :=
  zfill 4 (str_int (year dt)) ++ "-" ++ zfill 2 (str_int (month dt))
  ++ "-" ++ zfill 2 (str_int (day dt)).

Definition digit_of (c : ascii) : option Z :=
  let n := nat_of_ascii c in
  if andb (Nat.leb 48 n) (Nat.leb n 57) then Some (Z.of_nat (n - 48)) else None.

Fixpoint digits_value (acc : Z) (s : string) : option Z :=
  match s with
  | EmptyString => Some acc
  | String c s' =>
      match digit_of c with
      | Some d => digits_value (10 * acc + d) s'
      | None => None
      end
  end.

(** Splits at the first ["-"]. *)
Fixpoint split_dash (s : string) : string * option string :=
  match s with
  | EmptyString => (EmptyString, None)
  | String c s' =>
      if Ascii.eqb c "-" then (EmptyString, Some s')
      else let '(a, b) := split_dash s' in (String c a, b)
  end.

Definition parse_field (min_len max_len : nat) (s : string) : option Z :=
  let n := String.length s in
  if andb (Nat.leb min_len n) (Nat.leb n max_len) then digits_value 0 s else None.

(** [datetime.strptime(s, "%Y-%m-%d")]: four digits, one or two digits,
    one or two digits, and the date must exist. *)
Definition strptime (s : string) : Exc date :=
  let bad := Raise (ValueError "time data does not match format '%Y-%m-%d'") in
  match split_dash s with
  | (ys, Some rest) =>
      match split_dash rest with
      | (ms, Some ds) =>
          match parse_field 4 4 ys, parse_field 1 2 ms, parse_field 1 2 ds with
          | Some y, Some m, Some d =>
              if valid_date y m d then Ok (mkDate y m d) else bad
          | _, _, _ => bad
          end
      | _ => bad
      end
  | _ => bad
  end.

(** ** Frequency tables: [Series.value_counts()] *)

Definition count_of (v : value) (col : list value) : Z :=
  Z.of_nat (List.length (filter (value_eqb v) col)).

(** Insertion of a pair into a list sorted by decreasing count; equal
    counts keep the order of first appearance. *)
Fixpoint insert_by_count {A} (x : A * Z) (l : list (A * Z)) : list (A * Z) :=
  match l with
  | [] => [x]
  | y :: l' => if snd y <=? snd x then x :: y :: l' else y :: insert_by_count x l'
  end.

Definition sort_by_count {A} (l : list (A * Z)) : list (A * Z) :=
  fold_right insert_by_count [] l.

(** [value_counts(dropna=True)]: each distinct present value with the
    number of its occurrences, most frequent first. *)
Definition value_counts (col : list value) : list (value * Z) :=
  let present := dropna col in
  sort_by_count (map (fun v => (v, count_of v present)) (unique_values present)).

(** [value_counts(dropna=True, normalize=True)] *)
Definition value_counts_normalized (col : list value) : list (value * Q) :=
  let total := Z.of_nat (List.length (dropna col)) in
  map (fun vc => (fst vc, (inject_Z (snd vc) / inject_Z total)%Q)) (value_counts col).

(** ** generators/base.py: [BaseGenerator] *)

Module BaseGenerator.

(** The generator object is its configuration (read-only) and [self.result],
    the state of the computations below. *)
Definition Gen (A : Type) : Type := St DomainGenerationResult A.

Definition lift {A} (x : Exc A) : Gen A :=
  match x with Ok a => ret a | Raise e => raise e end.

Definition _initialize_result (config : DomainGenerationConfig)
  : DomainGenerationResult :=
  let empty := mkResult (domain_name config) PENDING 0 0 [] None None in
  fold_left
    (fun result variable =>
       mkResult (result_domain result) (status result)
         (result_record_count result) (result_subject_count result)
         (dict_set (variable_stats result) (variable_name variable)
            (mkStats (variable_name variable) (data_type variable)
                     0 0 None None None None []))
         (error_message result) (quality_score result))
    (variables config) empty.

Definition set_status (s : GenerationStatus) : Gen unit :=
  modify (fun r => mkResult (result_domain r) s (result_record_count r)
                     (result_subject_count r) (variable_stats r)
                     (error_message r) (quality_score r)).

Definition set_record_count (n : Z) : Gen unit :=
  modify (fun r => mkResult (result_domain r) (status r) n
                     (result_subject_count r) (variable_stats r)
                     (error_message r) (quality_score r)).

Definition set_subject_count (n : Z) : Gen unit :=
  modify (fun r => mkResult (result_domain r) (status r) (result_record_count r)
                     n (variable_stats r)
                     (error_message r) (quality_score r)).

Definition set_error_message (m : string) : Gen unit :=
  modify (fun r => mkResult (result_domain r) (status r) (result_record_count r)
                     (result_subject_count r) (variable_stats r)
                     (Some m) (quality_score r)).

Definition set_quality_score (q : Q) : Gen unit :=
  modify (fun r => mkResult (result_domain r) (status r) (result_record_count r)
                     (result_subject_count r) (variable_stats r)
                     (error_message r) (Some q)).

(** [self.result.variable_stats[var_name]], then a mutation of that
    object. *)
Definition update_stats (var_name : string)
    (f : VariableGenerationStats -> VariableGenerationStats) : Gen unit :=
  r <- get ;;
  match dict_get (variable_stats r) var_name with
  | None => raise (KeyError var_name)
  | Some st =>
      modify (fun r => mkResult (result_domain r) (status r)
                         (result_record_count r) (result_subject_count r)
                         (dict_set (variable_stats r) var_name (f st))
                         (error_message r) (quality_score r))
  end.

(** The date statistics, whose computation the source wraps in its own
    [try]: [None] stands for the branch that only logs a warning.  The
    dates are read as [pd.to_datetime] reads strings written [YYYY-MM-DD];
    it accepts other notations as well, which are not described. *)
Definition parse_dates (col : list value) : option (list date) :=
  fold_right
    (fun v acc =>
       match v, acc with
       | VStr s, Some ds =>
           match strptime s with Ok d => Some (d :: ds) | Raise _ => None end
       | _, _ => None
       end)
    (Some []) (dropna col).

Definition date_extreme (want_max : bool) (ds : list date) : option date :=
  fold_right
    (fun d acc =>
       match acc with
       | None => Some d
       | Some m =>
           let lt := days_from_civil m <? days_from_civil d in
           Some (if Bool.eqb lt want_max then d else m)
       end)
    None ds.

Definition update_generation_stats (config : DomainGenerationConfig)
    (data : DataFrame) : Gen unit :=
  set_record_count (df_len data) ;;;
  (* Get subject count if subject ID column exists *)
  match dict_get data "USUBJID" with
  | Some col => set_subject_count (nunique col)
  | None => ret tt
  end ;;;
  (* Update variable stats *)
  for_each (variables config) (fun variable =>
    let var_name := variable_name variable in
    match dict_get data var_name with
    | None => ret tt
    | Some col =>
        update_stats var_name (fun st =>
          mkStats (stats_variable st) (stats_data_type st)
            (df_len data) (missing_count_of col) (Some (nunique col))
            (stats_min st) (stats_max st) (distribution_stats st)
            (quality_checks st)) ;;;
        let nonempty := negb (Nat.eqb (List.length col) 0) in
        let some_present := negb (forallb isna col) in
        (* Type-specific stats *)
        if String.eqb (lower (data_type variable)) "numeric" then
          if andb nonempty some_present then
            lo <- lift (series_extreme false col) ;;
            update_stats var_name (fun st =>
              mkStats (stats_variable st) (stats_data_type st)
                (generated_count st) (missing_count st) (unique_count st)
                (Some lo) (stats_max st) (distribution_stats st)
                (quality_checks st)) ;;;
            hi <- lift (series_extreme true col) ;;
            update_stats var_name (fun st =>
              mkStats (stats_variable st) (stats_data_type st)
                (generated_count st) (missing_count st) (unique_count st)
                (stats_min st) (Some hi) (distribution_stats st)
                (quality_checks st)) ;;;
            (* "mean" is the first entry computed; "std" and "median",
               which need the same numeric column, are not represented *)
            mean <- lift (series_mean col) ;;
            update_stats var_name (fun st =>
              mkStats (stats_variable st) (stats_data_type st)
                (generated_count st) (missing_count st) (unique_count st)
                (stats_min st) (stats_max st) (Some (NumericStats mean))
                (quality_checks st))
          else ret tt
        else if String.eqb (lower (data_type variable)) "categorical" then
          if nonempty then
            update_stats var_name (fun st =>
              mkStats (stats_variable st) (stats_data_type st)
                (generated_count st) (missing_count st) (unique_count st)
                (stats_min st) (stats_max st)
                (Some (TopValues (firstn 10 (value_counts_normalized col))))
                (quality_checks st))
          else ret tt
        else if String.eqb (lower (data_type variable)) "date" then
          if andb nonempty some_present then
            match parse_dates col with
            | Some ds =>
                match date_extreme false ds, date_extreme true ds with
                | Some lo, Some hi =>
                    update_stats var_name (fun st =>
                      mkStats (stats_variable st) (stats_data_type st)
                        (generated_count st) (missing_count st) (unique_count st)
                        (Some (VStr (strftime lo))) (Some (VStr (strftime hi)))
                        (Some (YearCounts
                                 (map (fun vc => match fst vc with
                                                 | VInt y => (y, snd vc)
                                                 | _ => (0, snd vc)
                                                 end)
                                      (value_counts (map (fun d => VInt (year d)) ds)))))
                        (quality_checks st))
                | _, _ => ret tt
                end
            | None => ret tt
            end
          else ret tt
        else ret tt
    end).

(** The loop body of [perform_quality_checks], block by block. *)

(** Check for missing values.  [expected_missing] is
    [constraints and constraints.nullable]: [None] when the variable has no
    constraints, and then the check cannot be built, since its [passed] field
    must be a [bool]. *)
Definition missing_checks (record_count : Z) (variable : VariableGenerationConfig)
    (col : list value) : Exc (list DataQualityCheck) :=
  let var_name := variable_name variable in
  let missing_count := missing_count_of col in
  if 0 <? missing_count then
    let expected_missing :=
      match constraints variable with
      | Some c => Some (nullable c)
      | None => None
      end in
    if orb (negb (or_else expected_missing false))
           (Qltb (inject_Z record_count * (1 # 2)) (inject_Z missing_count))
    then match expected_missing with
         | Some p =>
             Ok [mkCheck (var_name ++ "_missing_values") MISSING_VALUES
                   (Some var_name) p missing_count]
         | None =>
             Raise (ValueError "DataQualityCheck: passed: none is not an allowed value")
         end
    else Ok []
  else Ok [].

(** Check for duplicates if uniqueness is required. *)
Definition duplicate_checks (data : DataFrame) (variable : VariableGenerationConfig)
    (col : list value) : list DataQualityCheck :=
  let var_name := variable_name variable in
  match constraints variable with
  | Some c =>
      let duplicate_count := df_len data - nunique col in
      if andb (unique c) (0 <? duplicate_count)
      then [mkCheck (var_name ++ "_duplicate_values") DUPLICATE_VALUES
              (Some var_name) false duplicate_count]
      else []
  | None => []
  end.

Definition range_check (name : string) (var_name : string) (count : Exc Z)
  : Exc (list DataQualityCheck) :=
  match count with
  | Raise e => Raise e
  | Ok n => Ok (if 0 <? n then [mkCheck name OUT_OF_RANGE (Some var_name) false n]
                else [])
  end.

(** Check value ranges for numeric variables. *)
Definition range_checks (variable : VariableGenerationConfig) (col : list value)
  : Exc (list DataQualityCheck) :=
  let var_name := variable_name variable in
  match constraints variable with
  | Some c =>
      if String.eqb (lower (data_type variable)) "numeric" then
        match
          (match min_value c with
           | Some lo => range_check (var_name ++ "_below_minimum") var_name
                                    (count_lt col lo)
           | None => Ok []
           end)
        with
        | Raise e => Raise e
        | Ok below =>
            match
              (match max_value c with
               | Some hi => range_check (var_name ++ "_above_maximum") var_name
                                        (count_gt col hi)
               | None => Ok []
               end)
            with
            | Raise e => Raise e
            | Ok above => Ok (below ++ above)%list
            end
        end
      else Ok []
  | None => Ok []
  end.

Definition variable_checks (record_count : Z) (data : DataFrame)
    (variable : VariableGenerationConfig) : Exc (list DataQualityCheck) :=
  match dict_get data (variable_name variable) with
  | None => Ok []
  | Some col =>
      match missing_checks record_count variable col with
      | Raise e => Raise e
      | Ok missing =>
          match range_checks variable col with
          | Raise e => Raise e
          | Ok ranges => Ok (missing ++ duplicate_checks data variable col ++ ranges)%list
          end
      end
  end.

Fixpoint perform_quality_checks_from (record_count : Z) (data : DataFrame)
    (vars : list VariableGenerationConfig) : Exc (list DataQualityCheck) :=
  match vars with
  | [] => Ok []
  | variable :: vars' =>
      match variable_checks record_count data variable with
      | Raise e => Raise e
      | Ok here =>
          match perform_quality_checks_from record_count data vars' with
          | Raise e => Raise e
          | Ok rest => Ok (here ++ rest)%list
          end
      end
  end.

Definition perform_quality_checks (config : DomainGenerationConfig)
    (data : DataFrame) : Exc (list DataQualityCheck) :=
  perform_quality_checks_from (record_count config) data (variables config).

(** The penalty one check subtracts from the score. *)
Definition penalty (total_records : Z) (check : DataQualityCheck) : Q :=
  if passed check then 0
  else
    let impact := (inject_Z (issue_count check) / inject_Z total_records)%Q in
    match check_type check with
    | MISSING_VALUES => 20 * impact
    | DUPLICATE_VALUES => 15 * impact
    | OUT_OF_RANGE => 10 * impact
    | INVALID_FORMAT => 5 * impact
    | _ => 5 * impact
    end%Q.

(** [calculate_quality_score(quality_checks)]; [total_records] is
    [self.result.record_count]. *)
Definition calculate_quality_score (total_records : Z)
    (quality_checks : list DataQualityCheck) : Q :=
  match quality_checks with
  | [] => 100 (* Perfect score if no issues *)
  | _ =>
      if total_records =? 0 then 0 (* No data generated *)
      else
        let score :=
          fold_left (fun score check => score - penalty total_records check)%Q
                    quality_checks 100%Q in
        Qmax 0 (Qmin 100 score)
  end.

Definition attach_check (check : DataQualityCheck) : Gen unit :=
  r <- get ;;
  match check_variable check with
  | Some name =>
      match dict_get (variable_stats r) name with
      | Some _ =>
          update_stats name (fun st =>
            mkStats (stats_variable st) (stats_data_type st)
              (generated_count st) (missing_count st) (unique_count st)
              (stats_min st) (stats_max st) (distribution_stats st)
              (quality_checks st ++ [check])%list)
      | None => ret tt
      end
  | None => ret tt
  end.

Definition finalize_result (config : DomainGenerationConfig) (data : DataFrame)
  : Gen DomainGenerationResult :=
  (* Update basic stats *)
  update_generation_stats config data ;;;
  (* Perform quality checks *)
  quality_checks <- lift (perform_quality_checks config data) ;;
  (* Update variable stats with quality checks *)
  for_each quality_checks attach_check ;;;
  (* Calculate quality score *)
  r <- get ;;
  let quality_score := calculate_quality_score (result_record_count r) quality_checks in
  (* Update result object *)
  set_status COMPLETED ;;;
  set_quality_score quality_score ;;;
  get.

End BaseGenerator.

(** The loop of [calculate_quality_score], from any starting score. *)
Definition subtract_penalties (total : Z) (checks : list DataQualityCheck)
    (start : Q) : Q :=
  fold_left (fun score check => score - BaseGenerator.penalty total check)%Q
            checks start.

(** Every column of a table has the length of the table. *)
Definition df_wf (df : DataFrame) : Prop :=
  forall name col, dict_get df name = Some col ->
                   Z.of_nat (List.length col) = df_len df.

(** A nullable numeric variable and a table in which three of its four
    values are missing. *)
Definition example_age_constraint : ValueConstraint :=
  mkValueConstraint (Some (VInt 0)) (Some (VInt 120)) None None false true (3 # 4).

Definition example_age_variable : VariableGenerationConfig :=
  mkVariable "AGE" "numeric" None None None (Some example_age_constraint).

Definition example_age_table : DataFrame :=
  [("AGE", [VNone; VNone; VNone; VFloat 30])].

(** ** More of the randomness source *)

Definition lift_exc {S A} (x : Exc A) : St S A :=
  match x with Ok a => ret a | Raise e => raise e end.

(** [random.randint(a, b)] *)
Definition random_randint (a b : Z) : Rand Z :=
  if b <? a then raise (ValueError "empty range for randrange()")
  else q <- draw ;; ret (a + Qfloor (Qfrac q * inject_Z (b - a + 1))).

(** [random.choice(seq)] *)
Definition random_choice {A} (seq : list A) (default : A) : Rand A :=
  match seq with
  | [] => raise (ValueError "Cannot choose from an empty sequence")
  | _ =>
      q <- draw ;;
      ret (nth (Z.to_nat (Qfloor (Qfrac q * inject_Z (Z.of_nat (List.length seq)))))
               seq default)
  end.

(** The first entry whose cumulative probability exceeds [u]. *)
Fixpoint pick_by_cdf {A} (u : Q) (items : list (A * Q)) (default : A) : A :=
  match items with
  | [] => default
  | [(a, _)] => a
  | (a, p) :: rest => if Qltb u p then a else pick_by_cdf (u - p) rest default
  end.

(** [np.random.choice(a, size=count, p=p)]; the entries drawn are those of
    [a] as numpy holds them in an array, which are the entries themselves
    when they are of one type (see [all_strings]). *)
Definition np_random_choice {A} (a : list A) (p : list Q) (count : Z) (default : A)
  : Rand (list A) :=
  match a with
  | [] => raise (ValueError "'a' cannot be empty unless no samples are taken")
  | _ =>
      if negb (Nat.eqb (List.length a) (List.length p))
      then raise (ValueError "'a' and 'p' must have same size")
      else if existsb (fun x => Qltb x 0) p
      then raise (ValueError "probabilities are not non-negative")
      else if negb (Qeq_bool (Qsum p) 1)
      then raise (ValueError "probabilities do not sum to 1")
      else
        n <- np_size count ;;
        repeat_m n (q <- draw ;; ret (pick_by_cdf (Qfrac q) (combine a p) default))
  end.

(** The tail shared by every sampler of a variable:
    [if constraints.nullable and constraints.null_probability > 0], each
    entry becomes [None] when [random() < null_probability]. *)
Definition apply_nulls (c : ValueConstraint) (result : list value) : Rand (list value) :=
  if andb (nullable c) (Qltb 0 (null_probability c)) then
    map_m (fun v => u <- random_random ;;
                    ret (if Qltb u (null_probability c) then VNone else v))
          result
  else ret result.

(** A bound of a numeric variable used in arithmetic. *)
Definition num_of (v : value) : Exc Q :=
  match as_number v with
  | Some q => Ok q
  | None => Raise (TypeError "unsupported operand type(s)")
  end.

(** [isinstance(v, int)] *)
Definition is_int (v : value) : bool :=
  match v with VInt _ => true | _ => false end.

(** [s[:k]] *)
Definition slice_to (s : string) (k : Z) : string :=
  if 0 <=? k then substring 0 (Z.to_nat k) s
  else substring 0 (String.length s - Z.to_nat (- k)) s.

(** [sep.join(words)] *)
Fixpoint join (sep : string) (words : list string) : string :=
  match words with
  | [] => EmptyString
  | [w] => w
  | w :: rest => w ++ sep ++ join sep rest
  end.

(** ** generators/random_generator.py *)

Module RandomGenerator.

(** [__init__]: the initial result, and the seeding of the generators. *)
Definition init (config : DomainGenerationConfig) (seed : option Z)
  : Rand DomainGenerationResult :=
  seed_if_given seed ;;; ret (BaseGenerator._initialize_result config).

Definition _generate_subject_ids (config : DomainGenerationConfig) : list string :=
  let needs_subjects :=
    existsb (fun var => String.eqb (variable_name var) "USUBJID") (variables config) in
  if negb needs_subjects then []
  else
    map (fun i => "SUBJ" ++ zfill 6 (str_int (Z.of_nat i + 1)))
        (seq 0 (Z.to_nat (subject_count config))).

Definition _generate_numeric_data (config : DomainGenerationConfig)
    (variable : VariableGenerationConfig) : Rand (list value) :=
  let distribution := or_else (distribution variable) NORMAL in
  let constraints := or_else (constraints variable) default_constraint in
  let params := or_else (distribution_params variable) [] in
  (* Set default min/max if not provided *)
  let min_value := or_else (min_value constraints) (VFloat 0) in
  let max_value := or_else (max_value constraints) (VFloat 100) in
  let n := record_count config in
  let floats := map VFloat in
  let ints := map (fun q => VInt (Qfloor q)) in
  result <-
    match distribution with
    | NORMAL =>
        lo <- lift_exc (num_of min_value) ;;
        hi <- lift_exc (num_of max_value) ;;
        let mean := params_get params "mean" ((lo + hi) / 2) in
        let std := params_get params "std" ((hi - lo) / 6) in
        values <- np_random_normal mean std n ;;
        (* Clip values to the constraints *)
        ret (floats (map (fun v => Qmin (Qmax v lo) hi) values))
    | POISSON =>
        values <- np_random_poisson (params_get params "lambda" 5) n ;;
        ret (ints values)
    | EXPONENTIAL =>
        values <- np_random_exponential (params_get params "scale" 1) n ;;
        ret (floats values)
    | BINOMIAL =>
        values <- np_random_binomial (params_get params "n" 10)
                                     (params_get params "p" (1 # 2)) n ;;
        ret (ints values)
    | _ =>
        (* UNIFORM, and the default for the other members *)
        lo <- lift_exc (num_of min_value) ;;
        hi <- lift_exc (num_of max_value) ;;
        values <- np_random_uniform lo hi n ;;
        ret (floats values)
    end ;;
  (* Round to integers if needed (check if all min/max are integers) *)
  let result :=
    if andb (andb (is_int min_value) (is_int max_value))
            (negb (Qeq_bool (params_get params "integer" 0) 0))
    then map (fun v => match as_number v with
                       | Some q => VInt (py_int q)
                       | None => v
                       end) result
    else result in
  (* Apply null values if allowed *)
  apply_nulls constraints result.

Definition default_categories : list value :=
  [VStr "Category A"; VStr "Category B"; VStr "Category C"; VStr "Category D"].

Definition _generate_categorical_data (config : DomainGenerationConfig)
    (variable : VariableGenerationConfig) : Rand (list value) :=
  let constraints := or_else (constraints variable) default_constraint in
  (* Determine allowed values *)
  let allowed_values :=
    match allowed_values constraints with
    | Some (v :: l) => v :: l
    | _ => default_categories
    end in
  let len := inject_Z (Z.of_nat (List.length allowed_values)) in
  let equal := map (fun _ => (1 / len)%Q) allowed_values in
  probabilities <-
    match param_probabilities variable with
    | Some (p :: ps) =>
        let probabilities := p :: ps in
        if Nat.eqb (List.length probabilities) (List.length allowed_values) then
          (* Ensure probabilities sum to 1 *)
          let total := Qsum probabilities in
          if Qeq_bool total 1 then ret probabilities
          else if Qeq_bool total 0
               then raise (ZeroDivisionError "float division by zero")
               else ret (map (fun p => (p / total)%Q) probabilities)
        else ret equal
    | _ => ret equal
    end ;;
  (* Generate values *)
  result <- np_random_choice allowed_values probabilities (record_count config) VNone ;;
  (* Apply null values if allowed *)
  apply_nulls constraints result.

Definition default_start : date := mkDate 2020 1 1.
Definition default_end : date := mkDate 2023 12 31.

(** A bound of a date variable: a string is parsed, anything else (a value
    that is no [datetime]) gives the default. *)
Definition date_bound (v : option value) (default : date) : date :=
  match v with
  | Some (VStr s) => match strptime s with Ok d => d | Raise _ => default end
  | _ => default
  end.

Definition _generate_date_data (config : DomainGenerationConfig)
    (variable : VariableGenerationConfig) : Rand (list value) :=
  let constraints := or_else (constraints variable) default_constraint in
  let min_date := date_bound (min_value constraints) default_start in
  let max_date := date_bound (max_value constraints) default_end in
  (* Calculate range in days *)
  let date_range := days_from_civil max_date - days_from_civil min_date in
  (* Generate random dates *)
  result <-
    repeat_m (Z.to_nat (record_count config))
      (random_days <- random_randint 0 date_range ;;
       date_value <- lift_exc (add_days min_date random_days) ;;
       ret (VStr (strftime date_value))) ;;
  (* Apply null values if allowed *)
  apply_nulls constraints result.

Definition letters : list ascii :=
  list_ascii_of_string "ABCDEFGHIJKLMNOPQRSTUVWXYZ".
Definition digits : list ascii := list_ascii_of_string "0123456789".

Definition words : list string :=
  ["lorem"; "ipsum"; "dolor"; "sit"; "amet"; "consectetur";
   "adipiscing"; "elit"; "sed"; "do"; "eiusmod"; "tempor";
   "incididunt"; "ut"; "labore"; "et"; "dolore"; "magna"; "aliqua"].

Definition _generate_text_data (config : DomainGenerationConfig)
    (variable : VariableGenerationConfig) : Rand (list value) :=
  let constraints := or_else (constraints variable) default_constraint in
  let params := or_else (distribution_params variable) [] in
  let n := Z.to_nat (record_count config) in
  result <-
    match format_pattern constraints with
    | Some (String c0 p0) =>
        (* Generate values according to pattern *)
        repeat_m n
          (chars <- map_m (fun char =>
                             if Ascii.eqb char "L" then random_choice letters char
                             else if Ascii.eqb char "D" then random_choice digits char
                             else ret char)
                          (list_ascii_of_string (String c0 p0)) ;;
           ret (VStr (string_of_list_ascii chars)))
    | _ =>
        (* Generate random text of varying length *)
        let min_length := Qfloor (params_get params "min_length" 5) in
        let max_length := Qfloor (params_get params "max_length" 20) in
        repeat_m n
          (length <- random_randint min_length max_length ;;
           chosen <- repeat_m (Z.to_nat length) (random_choice words EmptyString) ;;
           ret (VStr (slice_to (join " " chosen) max_length)))
    end ;;
  (* Apply null values if allowed *)
  apply_nulls constraints result.

Definition _generate_variable_data (config : DomainGenerationConfig)
    (variable : VariableGenerationConfig) (subject_ids : list string)
  : Rand (list value) :=
  let var_name := variable_name variable in
  let data_type := lower (data_type variable) in
  (* Special handling for subject ID *)
  if andb (String.eqb var_name "USUBJID")
          (negb (Nat.eqb (List.length subject_ids) 0)) then
    (* Repeat subject IDs as needed *)
    let len := Z.of_nat (List.length subject_ids) in
    let records_per_subject := Z.max 1 (record_count config / len) in
    let remaining := record_count config mod len in
    let values :=
      flat_map (fun subject_id => repeat (VStr subject_id)
                                         (Z.to_nat records_per_subject))
               subject_ids in
    (* Add remaining records for some subjects *)
    ret (if 0 <? remaining
         then values ++ map VStr (firstn (Z.to_nat remaining) subject_ids)
         else values)%list
  (* Generate appropriate data based on type *)
  else if String.eqb data_type "numeric" then _generate_numeric_data config variable
  else if String.eqb data_type "categorical" then _generate_categorical_data config variable
  else if String.eqb data_type "date" then _generate_date_data config variable
  else if String.eqb data_type "text" then _generate_text_data config variable
  else
    (* Default to text data for unknown types *)
    _generate_text_data config variable.

(** The body of the [try] of [generate] up to [df = pd.DataFrame(data)]:
    the table handed to [finalize_result]. *)
Fixpoint fill_columns (config : DomainGenerationConfig) (subject_ids : list string)
    (vars : list VariableGenerationConfig) (data : list (string * list value))
  : Rand (list (string * list value)) :=
  match vars with
  | [] => ret data
  | variable :: vars' =>
      col <- _generate_variable_data config variable subject_ids ;;
      fill_columns config subject_ids vars' (dict_set data (variable_name variable) col)
  end.

Definition generate_table (config : DomainGenerationConfig) : Rand DataFrame :=
  (* First, generate subject IDs if needed *)
  let subject_ids := _generate_subject_ids config in
  (* Generate data for each variable *)
  data <- fill_columns config subject_ids (variables config) [] ;;
  (* Convert to pandas DataFrame *)
  lift_exc (make_DataFrame data).

(** The [except] clause of [generate]. *)
Definition fail_with (e : exn) (result : DomainGenerationResult)
  : DomainGenerationResult :=
  mkResult (result_domain result) FAILED (result_record_count result)
    (result_subject_count result) (variable_stats result)
    (Some (exn_str e)) (quality_score result).

Definition in_progress (result : DomainGenerationResult) : DomainGenerationResult :=
  mkResult (result_domain result) IN_PROGRESS (result_record_count result)
    (result_subject_count result) (variable_stats result)
    (error_message result) (quality_score result).

(** [generate()] on a generator whose [self.result] is [result]. *)
Definition generate (config : DomainGenerationConfig)
    (result : DomainGenerationResult) (rng : Rng) : DomainGenerationResult * Rng :=
  (* Update status to in progress *)
  let result := in_progress result in
  match generate_table config rng with
  | (Ok df, rng') =>
      (* Finalize and return result *)
      match BaseGenerator.finalize_result config df result with
      | (Ok final, _) => (final, rng')
      | (Raise e, result') => (fail_with e result', rng')
      end
  | (Raise e, rng') => (fail_with e result, rng')
  end.

(** [RandomGenerator(config, seed).generate()] *)
Definition run (config : DomainGenerationConfig) (seed : option Z) (rng : Rng)
  : DomainGenerationResult * Rng :=
  match init config seed rng with
  | (Ok result, rng') => generate config result rng'
  | (Raise e, rng') => (fail_with e (BaseGenerator._initialize_result config), rng')
  end.

End RandomGenerator.

(** ** generators/statistical_generator.py *)

Module StatisticalGenerator.

(** An entry of [self.fitted_distributions].  Of the numeric summary only
    what sampling reads is kept: [fit_kde] tells whether the kernel density
    estimate exists (it needs two distinct values), and without it the
    standard deviation of the values is 0. *)
Inductive Fitted : Type :=
| FitNumeric (fit_mean fit_min fit_max : Q) (fit_kde : option (list Q))
| FitCategorical (fit_values : list value) (fit_probabilities : list Q)
| FitDate (years : list Z) (year_probs : list Q)
          (months : list Z) (month_probs : list Q)
          (days : list Z) (day_probs : list Q).

Definition Fits : Type := list (string * Fitted).

Definition Qlist_min (q : Q) (l : list Q) : Q := fold_left Qmin l q.
Definition Qlist_max (q : Q) (l : list Q) : Q := fold_left Qmax l q.

Definition _fit_numeric_distribution (source_data : DataFrame) (var_name : string)
    (fits : Fits) : Exc Fits :=
  (* Get data, removing missing values *)
  match numbers_of (dropna (or_else (dict_get source_data var_name) [])) with
  | None => Raise (TypeError "cannot perform reduce with flexible type")
  | Some [] => Ok fits
  | Some (v :: values) =>
      let all := v :: values in
      let mean := (Qsum all / inject_Z (Z.of_nat (List.length all)))%Q in
      let distinct := existsb (fun w => negb (Qeq_bool v w)) values in
      Ok (dict_set fits var_name
            (FitNumeric mean (Qlist_min v values) (Qlist_max v values)
                        (if distinct then Some all else None)))
  end.

Definition _fit_categorical_distribution (source_data : DataFrame)
    (var_name : string) (fits : Fits) : Fits :=
  (* Get value counts as probabilities *)
  let value_counts :=
    value_counts_normalized (or_else (dict_get source_data var_name) []) in
  dict_set fits var_name
    (FitCategorical (map fst value_counts) (map snd value_counts)).

Definition int_counts (l : list Z) : list (Z * Q) :=
  map (fun vq => match fst vq with VInt z => (z, snd vq) | _ => (0, snd vq) end)
      (value_counts_normalized (map VInt l)).

Definition _fit_date_distribution (source_data : DataFrame) (var_name : string)
    (fits : Fits) : Fits :=
  (* Convert to datetime and extract components *)
  match BaseGenerator.parse_dates (or_else (dict_get source_data var_name) []) with
  | None => fits (* the [except] branch: a warning *)
  | Some [] => fits
  | Some dates =>
      let year_counts := int_counts (map year dates) in
      let month_counts := int_counts (map month dates) in
      let day_counts := int_counts (map day dates) in
      dict_set fits var_name
        (FitDate (map fst year_counts) (map snd year_counts)
                 (map fst month_counts) (map snd month_counts)
                 (map fst day_counts) (map snd day_counts))
  end.

Fixpoint _fit_distributions (source_data : DataFrame)
    (vars : list VariableGenerationConfig) (fits : Fits) : Exc Fits :=
  match vars with
  | [] => Ok fits
  | variable :: vars' =>
      let var_name := variable_name variable in
      let data_type := lower (data_type variable) in
      match
        (if dict_mem source_data var_name then
           if String.eqb data_type "numeric"
           then _fit_numeric_distribution source_data var_name fits
           else if String.eqb data_type "categorical"
           then Ok (_fit_categorical_distribution source_data var_name fits)
           else if String.eqb data_type "date"
           then Ok (_fit_date_distribution source_data var_name fits)
           else Ok fits
         else Ok fits)
      with
      | Raise e => Raise e
      | Ok fits' => _fit_distributions source_data vars' fits'
      end
  end.

(** [dist["kde"].resample(count)[0]]: a value of the data set moved by
    the kernel's noise, which can be any real. *)
Definition kde_resample (dataset : list Q) (count : Z) : Rand (list Q) :=
  np_draws count (fun z => z).

Definition _generate_numeric_from_distribution (config : DomainGenerationConfig)
    (dist : Fitted) (constraints : option ValueConstraint) : Rand (list value) :=
  match dist with
  | FitNumeric mean dmin dmax kde =>
      values <-
        match kde with
        | Some dataset =>
            (* If we have a KDE, use it for sampling *)
            kde_resample dataset (record_count config)
        | None =>
            (* Otherwise use normal distribution with fitted parameters *)
            np_random_normal mean 0 (record_count config)
        end ;;
      (* Apply min/max constraints *)
      min_val <-
        match constraints with
        | Some c => match min_value c with
                    | Some v => lift_exc (num_of v)
                    | None => ret dmin
                    end
        | None => ret dmin
        end ;;
      max_val <-
        match constraints with
        | Some c => match max_value c with
                    | Some v => lift_exc (num_of v)
                    | None => ret dmax
                    end
        | None => ret dmax
        end ;;
      let values := map (fun v => VFloat (Qmin (Qmax v min_val) max_val)) values in
      (* Apply nullability if specified *)
      match constraints with
      | Some c =>
          if andb (nullable c) (Qltb 0 (null_probability c)) then
            mask <- np_draws (record_count config) Qfrac ;;
            ret (map (fun vm => if Qltb (snd vm) (null_probability c)
                                then VNone else fst vm)
                     (combine values mask))
          else ret values
      | None => ret values
      end
  | _ => raise (KeyError "mean")
  end.

Fixpoint lookup_all {A} (l : list A) (indices : list nat) : Exc (list A) :=
  match indices with
  | [] => Ok []
  | i :: rest =>
      match nth_error l i, lookup_all l rest with
      | Some x, Ok xs => Ok (x :: xs)
      | None, _ => Raise (IndexError "list index out of range")
      | _, Raise e => Raise e
      end
  end.

(** The table the categorical draw uses: the fitted one, or its
    restriction to the allowed values when some fitted value is allowed. *)
Definition restricted_table (values : list value) (probabilities : list Q)
    (constraints : option ValueConstraint) : Exc (list value * list Q) :=
  match constraints with
  | Some c =>
      match allowed_values c with
      | Some (a :: al) =>
          (* Filter to only allowed values and renormalize probabilities *)
          let allowed_indices :=
            filter (fun i => value_in (nth i values VNone) (a :: al))
                   (seq 0 (List.length values)) in
          match allowed_indices with
          | [] => Ok (values, probabilities)
          | _ =>
              let values := map (fun i => nth i values VNone) allowed_indices in
              match lookup_all probabilities allowed_indices with
              | Raise e => Raise e
              | Ok probabilities =>
                  let total := Qsum probabilities in
                  if Qeq_bool total 0
                  then Raise (ZeroDivisionError "float division by zero")
                  else Ok (values, map (fun p => (p / total)%Q) probabilities)
              end
          end
      | _ => Ok (values, probabilities)
      end
  | None => Ok (values, probabilities)
  end.

Definition _generate_categorical_from_distribution (config : DomainGenerationConfig)
    (dist : Fitted) (constraints : option ValueConstraint) : Rand (list value) :=
  match dist with
  | FitCategorical values probabilities =>
      (* Apply constraints on allowed values if specified *)
      table <- lift_exc (restricted_table values probabilities constraints) ;;
      (* Generate values based on the distribution *)
      result <- np_random_choice (fst table) (snd table) (record_count config) VNone ;;
      (* Apply nullability if specified *)
      match constraints with
      | Some c => apply_nulls c result
      | None => ret result
      end
  | _ => raise (KeyError "values")
  end.

(** The body of the loop of [_generate_date_from_distribution]: the date
    string for one sampled year, month and day. *)
Definition make_date_string (year month day : Z) : Exc string :=
  match datetime year month day with
  | Ok date => Ok (strftime date)
  | Raise _ =>
      (* If invalid, use a valid day for that month *)
      let day :=
        if month =? 2 then
          (* Handle February leap years *)
          if andb (year mod 4 =? 0)
                  (orb (negb (year mod 100 =? 0)) (year mod 400 =? 0))
          then Z.min day 29
          else Z.min day 28
        else if orb (orb (month =? 4) (month =? 6)) (orb (month =? 9) (month =? 11))
        then Z.min day 30
        else Z.min day 31 in
      match datetime year month day with
      | Ok date => Ok (strftime date)
      | Raise _ =>
          (* Fallback to middle of the month *)
          match datetime year month 15 with
          | Ok date => Ok (strftime date)
          | Raise e => Raise e
          end
      end
  end.

Fixpoint zip3 {A B C} (a : list A) (b : list B) (c : list C) : list (A * B * C) :=
  match a, b, c with
  | x :: a', y :: b', z :: c' => (x, y, z) :: zip3 a' b' c'
  | _, _, _ => []
  end.

Fixpoint date_strings (draws : list (Z * Z * Z)) : Exc (list value) :=
  match draws with
  | [] => Ok []
  | (y, m, d) :: rest =>
      match make_date_string y m d with
      | Raise e => Raise e
      | Ok s => match date_strings rest with
                | Raise e => Raise e
                | Ok l => Ok (VStr s :: l)
                end
      end
  end.

Definition _generate_date_from_distribution (config : DomainGenerationConfig)
    (dist : Fitted) (constraints : option ValueConstraint) : Rand (list value) :=
  match dist with
  | FitDate years year_probs months month_probs days day_probs =>
      (* Generate dates by sampling year, month, day components *)
      ys <- np_random_choice years year_probs (record_count config) 0 ;;
      ms <- np_random_choice months month_probs (record_count config) 0 ;;
      ds <- np_random_choice days day_probs (record_count config) 0 ;;
      (* Create date strings, handling invalid dates *)
      result <- lift_exc (date_strings (zip3 ys ms ds)) ;;
      (* Apply nullability if specified *)
      match constraints with
      | Some c => apply_nulls c result
      | None => ret result
      end
  | _ => raise (KeyError "years")
  end.

(** [RandomGenerator(self.config, seed=self.seed)._generate_variable_data(variable, [])] *)
Definition random_fallback (config : DomainGenerationConfig) (seed : option Z)
    (variable : VariableGenerationConfig) : Rand (list value) :=
  RandomGenerator.init config seed ;;;
  RandomGenerator._generate_variable_data config variable [].

Definition _generate_variable_data (config : DomainGenerationConfig)
    (seed : option Z) (fits : Fits) (variable : VariableGenerationConfig)
  : Rand (list value) :=
  let var_name := variable_name variable in
  let data_type := lower (data_type variable) in
  let constraints := constraints variable in
  match dict_get fits var_name with
  | None =>
      (* If distribution not fitted, fall back to random generation *)
      random_fallback config seed variable
  | Some dist =>
      (* Generate based on data type *)
      if String.eqb data_type "numeric"
      then _generate_numeric_from_distribution config dist constraints
      else if String.eqb data_type "categorical"
      then _generate_categorical_from_distribution config dist constraints
      else if String.eqb data_type "date"
      then _generate_date_from_distribution config dist constraints
      else
        (* Fall back to random generation *)
        random_fallback config seed variable
  end.

Fixpoint fill_columns (config : DomainGenerationConfig) (seed : option Z)
    (fits : Fits) (vars : list VariableGenerationConfig)
    (data : list (string * list value)) : Rand (list (string * list value)) :=
  match vars with
  | [] => ret data
  | variable :: vars' =>
      col <- _generate_variable_data config seed fits variable ;;
      fill_columns config seed fits vars' (dict_set data (variable_name variable) col)
  end.

(** [df.empty] *)
Definition df_empty (df : DataFrame) : bool :=
  match df with
  | [] => true
  | (_, col) :: _ => Nat.eqb (List.length col) 0
  end.

Definition no_source_message : string :=
  "Source data is required for statistical generation but was not provided".

(** The body of the [try] of [generate] after the check for source data,
    up to [df = pd.DataFrame(data)]. *)
Definition generate_table (config : DomainGenerationConfig) (seed : option Z)
    (source_data : DataFrame) : Rand DataFrame :=
  (* First, fit distributions to source data *)
  fits <- lift_exc (_fit_distributions source_data (variables config) []) ;;
  (* Generate data for each variable *)
  data <- fill_columns config seed fits (variables config) [] ;;
  (* Convert to pandas DataFrame *)
  lift_exc (make_DataFrame data).

Definition init (config : DomainGenerationConfig) (seed : option Z)
  : Rand DomainGenerationResult :=
  seed_if_given seed ;;; ret (BaseGenerator._initialize_result config).

(** [generate()] on a generator whose [self.result] is [result]. *)
Definition generate (config : DomainGenerationConfig) (seed : option Z)
    (source_data : option DataFrame) (result : DomainGenerationResult) (rng : Rng)
  : DomainGenerationResult * Rng :=
  (* Update status to in progress *)
  let result := RandomGenerator.in_progress result in
  let no_source :=
    (mkResult (result_domain result) FAILED (result_record_count result)
       (result_subject_count result) (variable_stats result)
       (Some no_source_message) (quality_score result), rng) in
  (* Check for source data *)
  match source_data with
  | None => no_source
  | Some source =>
      if df_empty source then no_source
      else
        match generate_table config seed source rng with
        | (Ok df, rng') =>
            (* Finalize and return result *)
            match BaseGenerator.finalize_result config df result with
            | (Ok final, _) => (final, rng')
            | (Raise e, result') => (RandomGenerator.fail_with e result', rng')
            end
        | (Raise e, rng') => (RandomGenerator.fail_with e result, rng')
        end
  end.

(** [StatisticalGenerator(config, source_data, seed).generate()] *)
Definition run (config : DomainGenerationConfig) (seed : option Z)
    (source_data : option DataFrame) (rng : Rng) : DomainGenerationResult * Rng :=
  match init config seed rng with
  | (Ok result, rng') => generate config seed source_data result rng'
  | (Raise e, rng') =>
      (RandomGenerator.fail_with e (BaseGenerator._initialize_result config), rng')
  end.

End StatisticalGenerator.

(** The date the specification asks [make_date_string] to settle on: the
    drawn day clamped to the last day of the month, or the 15th when the
    drawn day is below 1 and clamping cannot help. *)
Definition repaired_date (y m d : Z) : date :=
  mkDate y m (if 1 <=? d then Z.min d (days_in_month y m) else 15).

(** A categorical variable fitted on the column A, A, A, B. *)
Definition example_sex_source : DataFrame :=
  [("SEX", [VStr "A"; VStr "A"; VStr "A"; VStr "B"])].




(** The counts of a result still have their initial value. *)
Definition counts_zero (r : DomainGenerationResult) : Prop :=
  result_record_count r = 0
  /\ result_subject_count r = 0
  /\ Forall (fun kv => generated_count (snd kv) = 0) (variable_stats r).

(** A domain whose only variable is the subject identifier. *)
Definition example_usubjid (data_type : string) : VariableGenerationConfig :=
  mkVariable "USUBJID" data_type None None None None.

Definition example_subject_config (record_count subject_count : Z)
    (vars : list VariableGenerationConfig) : DomainGenerationConfig :=
  mkDomainConfig "DM" "DM" record_count subject_count RANDOM vars.

(** ** generator_service.py *)

Module GeneratorService.

(** *** Objects of pydantic and members of enumerations

    The records of [models/] are pydantic models: an object has the fields
    its class declares and no other.  Reading an attribute the class does
    not declare raises [AttributeError], and so does naming a member an
    [Enum] does not have; a constructor call that leaves out a field
    declared without a default raises [ValidationError] (pydantic's message
    goes on to list the fields; its first line is kept here); assigning to
    an undeclared field raises [ValueError]. *)

Definition no_attribute {A} (cls name : string) : Exc A :=
  Raise (AttributeError
           ("'" ++ cls ++ "' object has no attribute '" ++ name ++ "'")).

(** The text is that of Python 3.12; earlier versions give the name of the
    member alone. *)
Definition no_member {A} (cls name : string) : Exc A :=
  Raise (AttributeError
           ("type object '" ++ cls ++ "' has no attribute '" ++ name ++ "'")).

(** The double quote of pydantic's message. *)
Definition dquote : string := String (Ascii.ascii_of_nat 34) EmptyString.

Definition no_field {A} (cls name : string) : Exc A :=
  Raise (ValueError (dquote ++ cls ++ dquote ++ " object has no field "
                     ++ dquote ++ name ++ dquote)).

Definition is_some {A} (o : option A) : bool :=
  match o with Some _ => true | None => false end.

(** [given] tells, for each required field, whether the call passes it. *)
Definition missing_fields (cls : string) (given : list bool) : exn :=
  let n := List.length (filter negb given) in
  ValidationError (str_int (Z.of_nat n) ++ " validation error"
                   ++ (if Nat.eqb n 1 then "" else "s") ++ " for " ++ cls).

(** *** analysis/relationships/models.py

    [DERIVED] and [CUSTOM] are written [DERIVED_FROM] and
    [CUSTOM_RELATION], the short names being members of [GenerationMode]
    and [DataDistribution]. *)

Inductive RelationshipType : Type :=
| SUBJECT | VISIT | TIME | PARENT_CHILD | DERIVED_FROM | CUSTOM_RELATION.

Record DomainRelationship : Type := mkRelationship {
  source_domain : string;
  target_domain : string;
  relationship_type : RelationshipType;
  join_variables : list string
}.

Record RelationshipGraph : Type := mkGraph {
  graph_domains : list string;
  relationships : list DomainRelationship
}.

(** *** models/config.py and models/results.py *)

Record GenerationConfig : Type := mkGenerationConfig {
  project_name : string;
  domains : list DomainGenerationConfig;
  seed : option Z
}.

Record GenerationJobResult : Type := mkJob {
  job_id : string;
  job_project_name : string;
  job_status : GenerationStatus;
  domain_results : list (string * DomainGenerationResult);
  job_error_message : option string
}.

(** [GenerationJobResult(job_id=..., project_name=..., status=...,
    start_time=..., domain_results=...)]; an argument is [None] when the
    call does not pass that keyword. *)
Definition new_GenerationJobResult (job_id project_name : option string)
    (status : option GenerationStatus) (start_time : option unit)
    (domain_results : list (string * DomainGenerationResult))
  : Exc GenerationJobResult :=
  match job_id, project_name, status, start_time with
  | Some j, Some p, Some s, Some _ => Ok (mkJob j p s domain_results None)
  | _, _, _, _ =>
      Raise (missing_fields "GenerationJobResult"
               [is_some job_id; is_some project_name; is_some status;
                is_some start_time])
  end.

(** [DomainGenerationResult(domain_name=..., domain_type=..., config=...,
    status=..., record_count=..., subject_count=..., start_time=...,
    error_message=...)], likewise. *)
Definition new_DomainGenerationResult (domain_name domain_type : option string)
    (config : option DomainGenerationConfig) (status : option GenerationStatus)
    (record_count subject_count : option Z) (start_time : option unit)
    (error_message : option string) : Exc DomainGenerationResult :=
  match domain_name, domain_type, config, status,
        record_count, subject_count, start_time with
  | Some n, Some _, Some _, Some s, Some rc, Some sc, Some _ =>
      Ok (mkResult n s rc sc [] error_message None)
  | _, _, _, _, _, _, _ =>
      Raise (missing_fields "DomainGenerationResult"
               [is_some domain_name; is_some domain_type; is_some config;
                is_some status; is_some record_count; is_some subject_count;
                is_some start_time])
  end.

(** *** The service

    [active_jobs] is [self.active_jobs]; a job object is shared between the
    method that runs it and this dictionary, so the methods below name a
    job by its key and update it there.  [registry] is
    [domain_registry.domains] with the table [get_domain_data] loads for
    each name; [generators] stands for the module-level generators. *)

Record Service : Type := mkService {
  active_jobs : list (string * GenerationJobResult);
  registry : list (string * option DataFrame);
  generators : Rng
}.

Definition Svc (A : Type) : Type := St Service A.

Definition with_generators {A} (m : Rand A) : Svc A :=
  fun s => let '(x, rng') := m (generators s) in
           (x, mkService (active_jobs s) (registry s) rng').

(** [try: body except Exception as e: handler e] *)
Definition try_except {S A} (body : St S A) (handler : exn -> St S A) : St S A :=
  fun s => match body s with
           | (Ok a, s') => (Ok a, s')
           | (Raise e, s') => handler e s'
           end.

Definition store_job (job_result : GenerationJobResult) (s : Service) : Service :=
  mkService (dict_set (active_jobs s) (job_id job_result) job_result)
            (registry s) (generators s).

Definition the_job (job : string) : Svc GenerationJobResult :=
  s <- get ;;
  match dict_get (active_jobs s) job with
  | Some job_result => ret job_result
  | None => raise (KeyError job)
  end.

Definition update_job (job : string)
    (f : GenerationJobResult -> GenerationJobResult) : Svc unit :=
  job_result <- the_job job ;; modify (store_job (f job_result)).

Definition set_domain_result (domain_name : string) (r : DomainGenerationResult)
    (j : GenerationJobResult) : GenerationJobResult :=
  mkJob (job_id j) (job_project_name j) (job_status j)
        (dict_set (domain_results j) domain_name r) (job_error_message j).

Definition set_job_status (st : GenerationStatus) (j : GenerationJobResult)
  : GenerationJobResult :=
  mkJob (job_id j) (job_project_name j) st (domain_results j)
        (job_error_message j).

Definition set_job_error (m : string) (j : GenerationJobResult)
  : GenerationJobResult :=
  mkJob (job_id j) (job_project_name j) (job_status j) (domain_results j)
        (Some m).

Definition is_completed (r : DomainGenerationResult) : bool :=
  match status r with COMPLETED => true | _ => false end.

(** A generator object: its class, the arguments of its constructor and
    [self.result]. *)
Inductive Generator : Type :=
| ARandomGenerator (config : DomainGenerationConfig) (seed : option Z)
    (result : DomainGenerationResult)
| AStatisticalGenerator (config : DomainGenerationConfig) (seed : option Z)
    (source_data : option DataFrame) (result : DomainGenerationResult).

(** [generator.generate()] *)
Definition generate (generator : Generator) : Rand DomainGenerationResult :=
  fun rng =>
    match generator with
    | ARandomGenerator config _ result =>
        let '(r, rng') := RandomGenerator.generate config result rng in
        (Ok r, rng')
    | AStatisticalGenerator config seed source_data result =>
        let '(r, rng') :=
          StatisticalGenerator.generate config seed source_data result rng in
        (Ok r, rng')
    end.

(** [create_generator(domain_config, source_data, seed)].  Its first
    statement reads [domain_config.generation_mode]; the field of
    [DomainGenerationConfig] is [mode].  The statistical branch passes the
    keyword [stats_service], which [StatisticalGenerator.__init__] does not
    take. *)
Definition create_generator (domain_config : DomainGenerationConfig)
    (source_data : option DataFrame) (seed : option Z) : Svc Generator :=
  generation_mode <-
    lift_exc (no_attribute "DomainGenerationConfig" "generation_mode") ;;
  match generation_mode with
  | RANDOM =>
      result <- with_generators (RandomGenerator.init domain_config seed) ;;
      ret (ARandomGenerator domain_config seed result)
  | STATISTICAL =>
      s <- get ;;
      let source_data :=
        match source_data with
        | None =>
            (* Try to get source data from registry *)
            match dict_get (registry s) (domain_name domain_config) with
            | Some loaded => loaded
            | None => None
            end
        | Some df => Some df
        end in
      raise (TypeError
               ("StatisticalGenerator.__init__() got an unexpected keyword "
                ++ "argument 'stats_service'"))
  | _ =>
      (* falling back to random *)
      result <- with_generators (RandomGenerator.init domain_config seed) ;;
      ret (ARandomGenerator domain_config seed result)
  end.

(** [generate_domain_data(domain_config, source_data, seed)].  The
    registration branch calls [Domain(name=..., description=...,
    variables=...)], which [Domain.__init__] refuses; the [except] clause
    builds a [DomainGenerationResult] from four keywords. *)
Definition generate_domain_data (domain_config : DomainGenerationConfig)
    (source_data : option DataFrame) (seed : option Z)
  : Svc DomainGenerationResult :=
  try_except
    ((* Create appropriate generator *)
     generator <- create_generator domain_config source_data seed ;;
     (* Generate data *)
     result <- with_generators (generate generator) ;;
     (* Register generated domain if requested *)
     register_domain <-
       lift_exc (no_attribute "DomainGenerationConfig" "register_domain") ;;
     (if andb register_domain (is_completed result)
      then raise (TypeError
                    ("Domain.__init__() missing 4 required positional "
                     ++ "arguments: 'file_path', 'record_count', "
                     ++ "'variable_count', and 'sample_data'"))
      else ret tt) ;;;
     ret result)
    (fun e =>
       lift_exc (new_DomainGenerationResult
                   (Some (domain_name domain_config)) None None (Some FAILED)
                   (Some 0) None None (Some (exn_str e)))).

(** The loop over [enumerate(config.domain_configs)], from index [i], on
    the job stored under [job].  The worker pool of the parallel branch is
    run as this loop too: one domain after the other, in the order of
    submission. *)
Fixpoint run_domains (job : string) (seed : option Z) (i : Z)
    (configs : list DomainGenerationConfig) : Svc unit :=
  match configs with
  | [] => ret tt
  | domain_config :: rest =>
      let domain_name := domain_name domain_config in
      try_except
        ((* Use domain-specific seed if master seed provided *)
         let domain_seed := match seed with
                            | Some s => Some (s + i)
                            | None => None
                            end in
         (* Generate data for this domain *)
         domain_result <- generate_domain_data domain_config None domain_seed ;;
         update_job job (set_domain_result domain_name domain_result))
        (fun e =>
           failed <- lift_exc (new_DomainGenerationResult
                                 (Some domain_name) None None (Some FAILED)
                                 (Some 0) None None (Some (exn_str e))) ;;
           update_job job (set_domain_result domain_name failed)) ;;;
      run_domains job seed (i + 1) rest
  end.

(** The first loop of [_apply_domain_relationships]: the tables of the
    completed results.  [result.data] is read for a completed result only
    ([and] does not evaluate its second operand otherwise);
    [DomainGenerationResult] declares no such field. *)
Fixpoint generated_tables (results : list (string * DomainGenerationResult))
  : Svc (list (string * DataFrame)) :=
  match results with
  | [] => ret []
  | (domain_name, result) :: rest =>
      if is_completed result then
        data <- lift_exc (no_attribute "DomainGenerationResult" "data") ;;
        domain_dataframes <- generated_tables rest ;;
        ret (match data with
             | Some df => (domain_name, df) :: domain_dataframes
             | None => domain_dataframes
             end)
      else generated_tables rest
  end.

Definition is_key_relationship (t : RelationshipType) : bool :=
  match t with SUBJECT | VISIT => true | _ => false end.

(** [source_values[i % len(source_values)]] for the rows [i] of the target *)
Definition cycle_values (source_values : list value) (rows : nat) : list value :=
  map (fun i => nth (i mod List.length source_values) source_values VNone)
      (seq 0 rows).

(** One iteration of the loop over the relationships, on the dictionary of
    the generated tables.  [rel.source_variable] and [rel.target_variable]
    are not fields of [DomainRelationship], and a result has no field
    [data] to assign to. *)
Definition apply_relationship (domain_dataframes : list (string * DataFrame))
    (rel : DomainRelationship) : Svc (list (string * DataFrame)) :=
  match dict_get domain_dataframes (source_domain rel),
        dict_get domain_dataframes (target_domain rel) with
  | Some source_df, Some target_df =>
      (* Handle subject and visit relationships *)
      if is_key_relationship (relationship_type rel) then
        source_key <- lift_exc (no_attribute "DomainRelationship" "source_variable") ;;
        target_key <- lift_exc (no_attribute "DomainRelationship" "target_variable") ;;
        (* Ensure both dataframes have the key columns *)
        match dict_get source_df source_key, dict_get target_df target_key with
        | Some source_col, Some target_col =>
            (* Get unique values from source *)
            let source_values := unique_values source_col in
            (* Update target values to match source if possible *)
            if (0 <? List.length source_values)%nat then
              let target_df :=
                dict_set target_df target_key
                  (cycle_values source_values (List.length target_col)) in
              (* Update the result data *)
              lift_exc (A := unit) (no_field "DomainGenerationResult" "data") ;;;
              ret (dict_set domain_dataframes (target_domain rel) target_df)
            else ret domain_dataframes
        | _, _ => ret domain_dataframes
        end
      else ret domain_dataframes
  | _, _ =>
      (* Skip if either domain is not in our generated data *)
      ret domain_dataframes
  end.

Fixpoint apply_relationships (domain_dataframes : list (string * DataFrame))
    (rels : list DomainRelationship) : Svc unit :=
  match rels with
  | [] => ret tt
  | rel :: rest =>
      domain_dataframes <- apply_relationship domain_dataframes rel ;;
      apply_relationships domain_dataframes rest
  end.

(** The body of the [try] of [_apply_domain_relationships], on the job
    stored under [job].  [relationship_service] is a
    [RelationshipAnalysisService], which has no method
    [get_relationship_graph]. *)
Definition apply_domain_relationships_body (job : string) : Svc unit :=
  job_result <- the_job job ;;
  (* Build dictionary of generated dataframes *)
  domain_dataframes <- generated_tables (domain_results job_result) ;;
  if (List.length domain_dataframes <=? 1)%nat then ret tt
  else
    (* Get relationship graph if available *)
    relationship_graph <-
      lift_exc (no_attribute "RelationshipAnalysisService"
                             "get_relationship_graph") ;;
    match relationship_graph with
    | Some graph =>
        match relationships graph with
        | [] => ret tt (* No relationships found in relationship graph *)
        | rels => apply_relationships domain_dataframes rels
        end
    | None => ret tt
    end.

(** [_apply_domain_relationships(job_result, config)]: the [except] clause
    logs the error and the method returns. *)
Definition _apply_domain_relationships (job : string) (config : GenerationConfig)
  : Svc unit :=
  try_except (apply_domain_relationships_body job) (fun e => ret tt).

(** [generate_data] from its [try] on, for the job stored under [job].
    [config.parallel_execution], [config.domain_configs] and
    [config.preserve_relationships] are not fields of [GenerationConfig]
    (the domains are in [config.domains]), and [GenerationStatus] has no
    member [PARTIAL]. *)
Definition run_job (config : GenerationConfig) (job : string)
  : Svc GenerationJobResult :=
  try_except
    ((* Get master seed for job *)
     let seed := seed config in
     (* Process domains sequentially or in parallel *)
     parallel_execution <-
       lift_exc (A := bool) (no_attribute "GenerationConfig" "parallel_execution") ;;
     domain_configs <-
       lift_exc (no_attribute "GenerationConfig" "domain_configs") ;;
     run_domains job seed 0 domain_configs ;;;
     (* Update relationships between generated domains if needed *)
     preserve_relationships <-
       lift_exc (no_attribute "GenerationConfig" "preserve_relationships") ;;
     job_result <- the_job job ;;
     (if andb preserve_relationships
              (1 <? List.length (domain_results job_result))%nat
      then _apply_domain_relationships job config
      else ret tt) ;;;
     (* Update job status *)
     job_result <- the_job job ;;
     let all_completed :=
       forallb is_completed (dict_values (domain_results job_result)) in
     st <- (if all_completed then ret COMPLETED
            else lift_exc (no_member "GenerationStatus" "PARTIAL")) ;;
     update_job job (set_job_status st) ;;;
     the_job job)
    (fun e =>
       update_job job (fun j => set_job_error (exn_str e) (set_job_status FAILED j)) ;;;
       the_job job).

(** [generate_data(config, job_id)].  The job result is built without
    [project_name], a required field of [GenerationJobResult], before the
    [try] is entered. *)
Definition generate_data (config : GenerationConfig) (job_id : option string)
  : Svc GenerationJobResult :=
  s <- get ;;
  (* Create a job result to track progress *)
  let id := match job_id with
            | Some (String c r) => String c r
            | _ => "job_" ++ str_int (Z.of_nat (List.length (active_jobs s)) + 1)
            end in
  job_result <- lift_exc (new_GenerationJobResult
                            (Some id) None (Some IN_PROGRESS) (Some tt) []) ;;
  (* Store in active jobs *)
  modify (store_job job_result) ;;;
  run_job config (GeneratorService.job_id job_result).

End GeneratorService.

(** A job of two completed domains, DM and AE, that share a subject
    column in the tables that were generated for them. *)
Definition example_completed (name : string) (rows : Z) : string * DomainGenerationResult :=
  (name, mkResult name COMPLETED rows rows [] None (Some 100%Q)).

Definition example_job : GeneratorService.GenerationJobResult :=
  GeneratorService.mkJob "job_1" "study" IN_PROGRESS
    [example_completed "DM" 2; example_completed "AE" 3] None.

Definition example_service (jobs : list GeneratorService.GenerationJobResult)
  : GeneratorService.Service :=
  fold_left (fun s j => GeneratorService.store_job j s) jobs
    (GeneratorService.mkService [] [] (rng_const 0)).

(** A job configuration with one domain, generated at random. *)
Definition example_job_config : GeneratorService.GenerationConfig :=
  GeneratorService.mkGenerationConfig "study"
    [example_subject_config 2 2 [example_usubjid "text"]] (Some 7).

(** A partial-correctness triple for computations over a state: when [m]
    starts in a state satisfying [P] and returns normally, the state it
    leaves satisfies [Q]. *)
Definition hoare {S A} (P : S -> Prop) (m : St S A) (Q : S -> Prop) : Prop :=
  forall s a s', P s -> m s = (Ok a, s') -> Q s'.

(** Every name of [names] has statistics whose [generated_count] is [n]. *)
Definition counted (n : Z) (names : list string) (r : DomainGenerationResult) : Prop :=
  result_record_count r = n
  /\ forall name, In name names ->
       exists st, dict_get (variable_stats r) name = Some st /\ generated_count st = n.

(** The names of the variables that have a column in the table. *)
Definition present_names (data : DataFrame) (vars : list VariableGenerationConfig)
  : list string :=
  map variable_name (filter (fun v => dict_mem data (variable_name v)) vars).

(** What a character [p] of a format pattern lets through: a capital
    letter for ["L"], a digit for ["D"], the character itself otherwise. *)
Definition pattern_char (p c : ascii) : Prop :=
  if Ascii.eqb p "L" then In c RandomGenerator.letters
  else if Ascii.eqb p "D" then In c RandomGenerator.digits
  else c = p.

(** A text variable with the pattern ["LD-"]. *)
Definition example_code_variable : VariableGenerationConfig :=
  mkVariable "CODE" "text" None None None
    (Some (mkValueConstraint None None None (Some "LD-") false false 0)).

(** [f] holds of the [n] integers from [start] on. *)
Fixpoint all_from (f : Z -> bool) (start : Z) (n : nat) : bool :=
  match n with
  | O => true
  | Datatypes.S n' => andb (f start) (all_from f (start + 1) n')
  end.

(** The day number [z] names an existing day of a month and is the day
    number of the date it names. *)
Definition civil_day_ok (z : Z) : bool :=
  let c := civil_from_days z in
  andb (days_from_civil c =? z)
       (andb (andb (1 <=? month c) (month c <=? 12))
             (andb (1 <=? day c) (day c <=? days_in_month (year c) (month c)))).

(** A date variable bounded by two days of 2021. *)
Definition example_visit_variable : VariableGenerationConfig :=
  mkVariable "VISITDT" "date" None None None
    (Some (mkValueConstraint (Some (VStr "2021-02-27")) (Some (VStr "2021-03-02"))
             None None false false 0)).

(** ** utils/sampling.py, continued *)

(** [apply_missing_values(data, probability, seed)]; only [random] is
    seeded here, which on the single stream of this development is
    [seed_if_given]. *)
Definition apply_missing_values (data : list value) (probability : Q)
    (seed : option Z) : Rand (list value) :=
  seed_if_given seed ;;;
  map_m (fun v => u <- random_random ;;
                  ret (if Qltb u probability then VNone else v))
        data.

(** [np.random.randint(low, high, count)]: integers of [[low, high)]. *)
Definition np_random_randint (low high count : Z) : Rand (list Z) :=
  if high <=? low then raise (ValueError "low >= high")
  else
    n <- np_size count ;;
    repeat_m n (q <- draw ;;
                ret (low + Qfloor (Qfrac q * inject_Z (high - low)))).

(** [sample_from_distribution(data, count, seed)]; there is no NaN among
    the values of this development, so the clean data are the entries that
    are not [None].  The samples are returned as [np.array] holds them when
    they are of one type; numpy converts a mixed list to a common type. *)
Definition sample_from_distribution (data : list value) (count : Z)
    (seed : option Z) : Rand (list value) :=
  np_seed_if_given seed ;;;
  (* Remove any None/NaN values *)
  let clean_data := filter (fun x => negb (isna x)) data in
  if Nat.eqb (List.length clean_data) 0
  then raise (ValueError "No valid data points to sample from")
  else
    (* Simple random sampling with replacement *)
    indices <- np_random_randint 0 (Z.of_nat (List.length clean_data)) count ;;
    ret (map (fun i => nth (Z.to_nat i) clean_data VNone) indices).

(** [s.zfill(width)] for any string: the zeros go after a leading sign. *)
Definition py_zfill (width : Z) (s : string) : string :=
  let fill := zeros (Z.to_nat width - String.length s) in
  match s with
  | String c rest =>
      if orb (Ascii.eqb c "+") (Ascii.eqb c "-") then String c (fill ++ rest)
      else fill ++ s
  | EmptyString => fill
  end.

Definition hex_digits : list ascii := list_ascii_of_string "0123456789ABCDEF".

(** [generate_id_values(count, prefix, suffix, pattern, start_num, width,
    seed)] *)
Definition generate_id_values (count : Z) (prefix suffix : string)
    (pattern : option string) (start_num width : Z) (seed : option Z)
  : Rand (list string) :=
  seed_if_given seed ;;;
  match pattern with
  | Some (String c0 p0) =>
      (* Generate IDs according to pattern *)
      repeat_m (Z.to_nat count)
        (chars <- map_m (fun char =>
                           if Ascii.eqb char "D"
                           then random_choice RandomGenerator.digits char
                           else if Ascii.eqb char "L"
                           then random_choice RandomGenerator.letters char
                           else if Ascii.eqb char "H"
                           then random_choice hex_digits char
                           else ret char)
                        (list_ascii_of_string (String c0 p0)) ;;
         ret (string_of_list_ascii chars))
  | _ =>
      (* Generate sequential IDs *)
      ret (map (fun i => prefix ++ py_zfill width (str_int (start_num + Z.of_nat i))
                                ++ suffix)
               (seq 0 (Z.to_nat count)))
  end.

(** The dates of the scenario: 10 February 2024, twice, and 30 January
    2024. *)
Definition example_dates_source : DataFrame :=
  [("VISITDT", [VStr "2024-02-10"; VStr "2024-02-10"; VStr "2024-01-30"])].

(** A stream whose third draw is 3/4 and whose other draws are 0. *)
Definition example_dates_rng : Rng :=
  mkRng (fun _ _ => 0%Q) (fun n => if Nat.eqb n 2 then (3 # 4)%Q else 0%Q) O.


(** * Properties *)

(** ** Rationals *)

Lemma Qle_bool_false_lt (x y : Q) : Qle_bool x y = false -> (y < x)%Q.
Proof.
  intros H. apply Qnot_le_lt. intros L. apply Qle_bool_iff in L. congruence.
Qed.

Lemma Qmax_spec (x y : Q) : (x <= Qmax x y /\ y <= Qmax x y)%Q.
Proof.
  unfold Qmax. destruct (Qle_bool x y) eqn:E.
  - apply Qle_bool_iff in E. split; [exact E | apply Qle_refl].
  - apply Qle_bool_false_lt in E. split; [apply Qle_refl | apply Qlt_le_weak, E].
Qed.

Lemma Qmin_spec (x y : Q) : (Qmin x y <= x /\ Qmin x y <= y)%Q.
Proof.
  unfold Qmin. destruct (Qle_bool x y) eqn:E.
  - apply Qle_bool_iff in E. split; [apply Qle_refl | exact E].
  - apply Qle_bool_false_lt in E. split; [apply Qlt_le_weak, E | apply Qle_refl].
Qed.

Lemma Qmin_glb (x y z : Q) : (z <= x -> z <= y -> z <= Qmin x y)%Q.
Proof. unfold Qmin. destruct (Qle_bool x y); auto. Qed.

Lemma Qfrac_range (q : Q) : (0 <= Qfrac q < 1)%Q.
Proof.
  unfold Qfrac. pose proof (Qfloor_le q) as L. pose proof (Qlt_floor q) as U.
  rewrite inject_Z_plus in U.
  generalize dependent (inject_Z (Qfloor q)). intros f L U.
  change (inject_Z 1) with (1 # 1)%Q in U. split; lra.
Qed.





(** ** The monad *)

Lemma bind_Ok {S A B} (m : St S A) (k : A -> St S B) s b s' :
  bind m k s = (Ok b, s') ->
  exists a s0, m s = (Ok a, s0) /\ k a s0 = (Ok b, s').
Proof.
  unfold bind. destruct (m s) as [[a | e] s0]; intros H.
  - eauto.
  - discriminate.
Qed.

Ltac bind_inv H :=
  let a := fresh "a" in let s := fresh "s" in
  let H1 := fresh "Hm" in let H2 := fresh "Hk" in
  apply bind_Ok in H; destruct H as (a & s & H1 & H2).

Lemma ret_Ok {S A} (a b : A) (s s' : S) : ret a s = (Ok b, s') -> a = b /\ s = s'.
Proof. unfold ret. intros H. inversion H. auto. Qed.

Lemma repeat_m_length {S A} (m : St S A) n s l s' :
  repeat_m n m s = (Ok l, s') -> List.length l = n.
Proof.
  revert s l s'. induction n as [| n IH]; simpl; intros s l s' H.
  - apply ret_Ok in H. destruct H as [<- _]. reflexivity.
  - bind_inv H. bind_inv Hk. apply ret_Ok in Hk0. destruct Hk0 as [<- _].
    simpl. f_equal. eapply IH. eassumption.
Qed.

Lemma repeat_m_Forall {S A} (P : A -> Prop) (m : St S A) :
  (forall s a s', m s = (Ok a, s') -> P a) ->
  forall n s l s', repeat_m n m s = (Ok l, s') -> Forall P l.
Proof.
  intros Hm. induction n as [| n IH]; simpl; intros s l s' H.
  - apply ret_Ok in H. destruct H as [<- _]. constructor.
  - bind_inv H. bind_inv Hk. apply ret_Ok in Hk0. destruct Hk0 as [<- _].
    constructor; eauto.
Qed.


Lemma np_draws_length count f r l r' :
  np_draws count f r = (Ok l, r') -> 0 <= count /\ List.length l = Z.to_nat count.
Proof.
  unfold np_draws, np_size. intros H. bind_inv H.
  destruct (count <? 0) eqn:E; [discriminate|].
  apply ret_Ok in Hm. destruct Hm as [<- <-].
  apply Z.ltb_ge in E. split; [exact E|]. eapply repeat_m_length; eassumption.
Qed.



(** ** The numeric sampler *)


Lemma clip_in_range (a b v : Q) :
  (a <= b)%Q -> (a <= Qmin (Qmax v a) b <= b)%Q.
Proof.
  intros L. split.
  - apply Qmin_glb; [apply Qmax_spec | exact L].
  - apply Qmin_spec.
Qed.






Lemma np_seed_if_given_Ok seed rng :
  np_seed_ok seed ->
  np_seed_if_given seed rng = (Ok tt, snd (seed_if_given seed rng)).
Proof.
  destruct seed as [s |]; simpl; [| reflexivity]. intros [L U].
  unfold np_random_seed.
  replace (0 <=? s) with true by (symmetry; apply Z.leb_le; exact L).
  replace (s <? 2 ^ 32) with true by (symmetry; apply Z.ltb_lt; exact U).
  reflexivity.
Qed.






(** ** The quality score *)

Import BaseGenerator.

Lemma Qmax_lub (x y z : Q) : (x <= z -> y <= z -> Qmax x y <= z)%Q.
Proof. unfold Qmax. destruct (Qle_bool x y); auto. Qed.

Lemma Qminus_0_r_eq (q : Q) : (q - 0)%Q = q.
Proof.
  destruct q as [n d]. unfold Qminus, Qplus, Qopp. simpl.
  rewrite Z.mul_1_r, Z.add_0_r, Pos.mul_1_r. reflexivity.
Qed.

Lemma penalty_passed total check : passed check = true -> penalty total check = 0%Q.
Proof. unfold penalty. intros ->. reflexivity. Qed.

Lemma subtract_penalties_all_passed total checks start :
  Forall (fun c => passed c = true) checks ->
  subtract_penalties total checks start = start.
Proof.
  unfold subtract_penalties. intros F. revert start.
  induction F as [| c l Hc _ IH]; intros start; simpl.
  - reflexivity.
  - rewrite (penalty_passed _ _ Hc), Qminus_0_r_eq. apply IH.
Qed.

Lemma subtract_penalties_skip total before check after start :
  passed check = true ->
  subtract_penalties total (before ++ check :: after) start
  = subtract_penalties total (before ++ after) start.
Proof.
  intros P. unfold subtract_penalties. rewrite !fold_left_app. simpl.
  rewrite (penalty_passed _ _ P), Qminus_0_r_eq. reflexivity.
Qed.

Lemma calculate_quality_score_nonempty total checks :
  checks <> [] -> total <> 0 ->
  calculate_quality_score total checks
  = Qmax 0 (Qmin 100 (subtract_penalties total checks 100)).
Proof.
  intros N T. unfold calculate_quality_score.
  destruct checks as [| c l]; [contradiction|].
  apply Z.eqb_neq in T. rewrite T. reflexivity.
Qed.

(** C4, as the code has it: the score lies in [[0, 100]]; an empty list of
    checks scores 100 whatever the number of rows; a non-empty list scores 0
    when the result has zero rows; and with at least one row a list without
    a failed check scores exactly 100. *)
Theorem calculate_quality_score_bounds :
  forall (total_records : Z) (quality_checks : list DataQualityCheck),
    (0 <= calculate_quality_score total_records quality_checks <= 100)%Q
    /\ (quality_checks = [] ->
        calculate_quality_score total_records quality_checks = 100%Q)
    /\ (quality_checks <> [] -> total_records = 0 ->
        calculate_quality_score total_records quality_checks = 0%Q)
    /\ (total_records <> 0 ->
        Forall (fun c => passed c = true) quality_checks ->
        calculate_quality_score total_records quality_checks = 100%Q).
Proof.
  intros total checks. repeat split.
  - unfold calculate_quality_score. destruct checks; [lra|].
    destruct (total =? 0); [lra|]. apply Qmax_spec.
  - unfold calculate_quality_score. destruct checks; [lra|].
    destruct (total =? 0); [lra|].
    apply Qmax_lub; [lra|]. apply Qmin_spec.
  - intros ->. reflexivity.
  - intros N ->. destruct checks; [contradiction | reflexivity].
  - intros T F. destruct checks as [| c l]; [reflexivity|].
    rewrite calculate_quality_score_nonempty by (congruence || assumption).
    rewrite subtract_penalties_all_passed by assumption. reflexivity.
Qed.

Lemma calculate_quality_score_bounds_witness :
  calculate_quality_score 4 [mkCheck "AGE_missing_values" MISSING_VALUES (Some "AGE") true 3]
  = 100%Q
  /\ calculate_quality_score 0 [mkCheck "AGE_missing_values" MISSING_VALUES (Some "AGE") true 3]
     = 0%Q.
Proof.
  split.
  - refine (proj2 (proj2 (proj2 (calculate_quality_score_bounds 4 _))) _ _).
    + lia.
    + repeat constructor.
  - refine (proj1 (proj2 (proj2 (calculate_quality_score_bounds 0 _))) _ _).
    + discriminate.
    + reflexivity.
Defined.

(** C4 as stated fails: with zero rows and an empty list of checks the
    score is 100, not 0; and with zero rows a list holding only a passed
    check scores 0, not 100. *)
Lemma calculate_quality_score_zero_rows :
  calculate_quality_score 0 [] = 100%Q
  /\ ~ (100 == 0)%Q
  /\ calculate_quality_score 0
       [mkCheck "AGE_missing_values" MISSING_VALUES (Some "AGE") true 0] = 0%Q.
Proof.
  split; [reflexivity|]. split; [| reflexivity]. intros H. discriminate H.
Qed.

(** ** Quality checks of a nullable variable *)

Lemma dict_get_In {V} (d : list (string * V)) k v :
  dict_get d k = Some v -> exists k', In (k', v) d.
Proof.
  induction d as [| [k0 v0] d IH]; simpl; [discriminate|].
  destruct (String.eqb k0 k).
  - intros E. inversion E. subst. exists k0. left. reflexivity.
  - intros E. destruct (IH E) as (k' & I). exists k'. right. exact I.
Qed.

Lemma make_DataFrame_wf d df : make_DataFrame d = Ok df -> df_wf df.
Proof.
  unfold make_DataFrame. destruct d as [| [k col] rest]; intros H.
  - inversion H. intros name c E. discriminate.
  - destruct (forallb _ rest) eqn:F; [| discriminate]. inversion H. subst df.
    intros name c E. simpl in E |- *. destruct (String.eqb k name).
    + inversion E. reflexivity.
    + rewrite forallb_forall in F. apply dict_get_In in E. destruct E as (k' & I).
      specialize (F _ I). simpl in F. apply Nat.eqb_eq in F. rewrite F. reflexivity.
Qed.

Lemma missing_count_le_length col : missing_count_of col <= Z.of_nat (List.length col).
Proof.
  unfold missing_count_of. apply inj_le. induction col as [| v col IH]; simpl.
  - lia.
  - destruct (isna v); simpl; lia.
Qed.

Lemma range_check_type name var_name count checks :
  range_check name var_name count = Ok checks ->
  Forall (fun c => check_type c = OUT_OF_RANGE) checks.
Proof.
  unfold range_check. destruct count as [n | e]; [| discriminate].
  intros H. inversion H. destruct (0 <? n); repeat constructor.
Qed.

Lemma range_checks_type variable col checks :
  range_checks variable col = Ok checks ->
  Forall (fun c => check_type c = OUT_OF_RANGE) checks.
Proof.
  unfold range_checks. destruct (constraints variable) as [c |].
  2:{ intros H. inversion H. constructor. }
  destruct (String.eqb _ _).
  2:{ intros H. inversion H. constructor. }
  destruct (min_value c) as [lo |], (max_value c) as [hi |]; intros H;
    repeat match type of H with
           | match ?x with Ok _ => _ | Raise _ => _ end = Ok _ =>
               let E := fresh "E" in destruct x eqn:E; [| discriminate H]
           end;
    injection H as <-; cbn [app]; rewrite ?app_nil_r;
    try (apply Forall_app; split);
    try (eapply range_check_type; eassumption); constructor.
Qed.

Lemma duplicate_checks_type data variable col :
  Forall (fun c => check_type c = DUPLICATE_VALUES) (duplicate_checks data variable col).
Proof.
  unfold duplicate_checks. destruct (constraints variable) as [c |]; [| constructor].
  destruct (andb _ _); repeat constructor.
Qed.

(** The missing-values block of a nullable variable. *)
Lemma missing_checks_nullable record_count variable c col :
  constraints variable = Some c -> nullable c = true ->
  exists checks,
    missing_checks record_count variable col = Ok checks
    /\ Forall (fun check => passed check = true /\ 0 < missing_count_of col) checks.
Proof.
  intros Hc Hn. unfold missing_checks. rewrite Hc, Hn. cbn [or_else negb orb].
  destruct (0 <? missing_count_of col) eqn:Z0.
  - apply Z.ltb_lt in Z0. destruct (Qltb _ _); eexists; split; try reflexivity;
      repeat constructor; assumption.
  - eexists. split; [reflexivity | constructor].
Qed.

(** C10: a missing-values check registered for a nullable variable has
    [passed = True], and leaving it out of the list does not change the
    quality score of the table it was computed for. *)
Theorem nullable_missing_check_passes :
  forall record_count (data : DataFrame) variable c checks,
    constraints variable = Some c ->
    nullable c = true ->
    df_wf data ->
    variable_checks record_count data variable = Ok checks ->
    forall check,
      In check checks -> check_type check = MISSING_VALUES ->
      passed check = true
      /\ forall before after,
          calculate_quality_score (df_len data) (before ++ check :: after)
          = calculate_quality_score (df_len data) (before ++ after).
Proof.
  intros rc data variable c checks Hc Hn W H check I T.
  unfold variable_checks in H.
  destruct (dict_get data (variable_name variable)) as [col |] eqn:D.
  2:{ inversion H. subst checks. contradiction. }
  destruct (missing_checks_nullable rc variable c col Hc Hn) as (ms & Em & Fm).
  rewrite Em in H.
  destruct (range_checks variable col) as [rs | e] eqn:Er; [| discriminate].
  inversion H. subst checks. clear H.
  assert (M : passed check = true /\ 0 < missing_count_of col).
  { apply in_app_or in I. destruct I as [I | I].
    - rewrite Forall_forall in Fm. apply Fm. exact I.
    - exfalso. apply in_app_or in I. destruct I as [I | I].
      + pose proof (duplicate_checks_type data variable col) as F.
        rewrite Forall_forall in F. specialize (F _ I). congruence.
      + pose proof (range_checks_type _ _ _ Er) as F.
        rewrite Forall_forall in F. specialize (F _ I). congruence. }
  destruct M as [P M]. split; [exact P|].
  intros before after.
  assert (L : df_len data <> 0).
  { pose proof (W _ _ D) as E. pose proof (missing_count_le_length col). lia. }
  destruct (before ++ after)%list as [| x l] eqn:BA.
  - apply app_eq_nil in BA. destruct BA as [-> ->]. simpl.
    apply Z.eqb_neq in L. rewrite L. unfold penalty. rewrite P. reflexivity.
  - rewrite <- BA.
    rewrite !calculate_quality_score_nonempty; try assumption.
    + rewrite subtract_penalties_skip by exact P. reflexivity.
    + rewrite BA. discriminate.
    + destruct before; discriminate.
Qed.

Lemma nullable_missing_check_passes_witness :
  variable_checks 4 example_age_table example_age_variable
  = Ok [mkCheck "AGE_missing_values" MISSING_VALUES (Some "AGE") true 3]
  /\ forall before after,
      calculate_quality_score 4
        (before ++ mkCheck "AGE_missing_values" MISSING_VALUES (Some "AGE") true 3
                :: after)
      = calculate_quality_score 4 (before ++ after).
Proof.
  split; [reflexivity|].
  exact (proj2 (nullable_missing_check_passes 4 example_age_table
                  example_age_variable example_age_constraint _
                  eq_refl eq_refl
                  (make_DataFrame_wf example_age_table _ eq_refl)
                  eq_refl _ (or_introl eq_refl) eq_refl)).
Defined.

(** ** Repair of sampled dates *)

Import StatisticalGenerator.

Lemma days_in_month_range y m : 28 <= days_in_month y m <= 31.
Proof.
  unfold days_in_month. destruct (m =? 2); [destruct (is_leap y); lia|].
  destruct (orb _ _); lia.
Qed.

Lemma valid_date_iff y m d :
  valid_date y m d = true
  <-> (1 <= y <= 9999) /\ (1 <= m <= 12) /\ (1 <= d <= days_in_month y m).
Proof.
  unfold valid_date. rewrite !andb_true_iff, !Z.leb_le. tauto.
Qed.

(** The day the second attempt of the source uses. *)
Lemma repaired_day y m d :
  (if m =? 2 then
     if andb (y mod 4 =? 0) (orb (negb (y mod 100 =? 0)) (y mod 400 =? 0))
     then Z.min d 29 else Z.min d 28
   else if orb (orb (m =? 4) (m =? 6)) (orb (m =? 9) (m =? 11))
        then Z.min d 30 else Z.min d 31)
  = Z.min d (days_in_month y m).
Proof.
  unfold days_in_month, is_leap. destruct (m =? 2).
  - destruct (andb _ _); reflexivity.
  - destruct (orb _ _); reflexivity.
Qed.

Lemma make_date_string_repaired y m d :
  1 <= y <= 9999 -> 1 <= m <= 12 ->
  make_date_string y m d = Ok (strftime (repaired_date y m d)).
Proof.
  intros Hy Hm. unfold make_date_string, repaired_date. rewrite repaired_day.
  pose proof (days_in_month_range y m) as R.
  unfold datetime.
  destruct (valid_date y m d) eqn:V1.
  - apply valid_date_iff in V1. destruct V1 as (_ & _ & Hd).
    replace (1 <=? d) with true by (symmetry; apply Z.leb_le; lia).
    rewrite Z.min_l by lia. reflexivity.
  - destruct (valid_date y m (Z.min d (days_in_month y m))) eqn:V2.
    + apply valid_date_iff in V2. destruct V2 as (_ & _ & Hd).
      replace (1 <=? d) with true by (symmetry; apply Z.leb_le; lia).
      reflexivity.
    + assert (D : d < 1).
      { destruct (Z_lt_le_dec d 1) as [L | L]; [exact L|]. exfalso.
        assert (V : valid_date y m (Z.min d (days_in_month y m)) = true)
          by (apply valid_date_iff; lia).
        congruence. }
      replace (1 <=? d) with false by (symmetry; apply Z.leb_gt; lia).
      assert (V : valid_date y m 15 = true) by (apply valid_date_iff; lia).
      rewrite V. reflexivity.
Qed.

(** ** Categorical draws from a fitted table *)

Lemma map_m_Forall2 {S A B} (P : A -> B -> Prop) (f : A -> St S B) :
  (forall x s y s', f x s = (Ok y, s') -> P x y) ->
  forall xs s ys s', map_m f xs s = (Ok ys, s') -> Forall2 P xs ys.
Proof.
  intros Hf. induction xs as [| x xs IH]; simpl; intros s ys s' H.
  - apply ret_Ok in H. destruct H as [<- _]. constructor.
  - bind_inv H. bind_inv Hk. apply ret_Ok in Hk0. destruct Hk0 as [<- _].
    constructor; eauto.
Qed.

Lemma pick_by_cdf_In {A} (u : Q) (items : list (A * Q)) (default : A) :
  items <> [] -> In (pick_by_cdf u items default) (map fst items).
Proof.
  revert u. induction items as [| [a p] rest IH]; intros u N; [contradiction|].
  simpl. destruct rest as [| y rest'].
  - left. reflexivity.
  - destruct (Qltb u p).
    + left. reflexivity.
    + right. apply IH. discriminate.
Qed.

Lemma map_fst_combine {A B} (a : list A) (b : list B) :
  List.length a = List.length b -> map fst (combine a b) = a.
Proof.
  revert b. induction a as [| x a IH]; intros [| y b] L; simpl in *;
    try discriminate; [reflexivity|]. f_equal. apply IH. lia.
Qed.

(** What a successful [np.random.choice] guarantees. *)
Lemma np_random_choice_Ok {A} (a : list A) (p : list Q) count default rng result rng' :
  np_random_choice a p count default rng = (Ok result, rng') ->
  Forall (fun x => In x a) result
  /\ List.length result = Z.to_nat count /\ 0 <= count
  /\ List.length a = List.length p /\ (Qsum p == 1)%Q.
Proof.
  unfold np_random_choice. destruct a as [| x a']; [discriminate|].
  destruct (Nat.eqb _ _) eqn:L; simpl negb; cbv iota; [| discriminate].
  destruct (existsb _ p); [discriminate|].
  destruct (Qeq_bool (Qsum p) 1) eqn:S1; simpl negb; cbv iota; [| discriminate].
  apply Nat.eqb_eq in L. apply Qeq_bool_iff in S1.
  intros H. bind_inv H. unfold np_size in Hm.
  destruct (count <? 0) eqn:C; [discriminate|]. apply ret_Ok in Hm.
  destruct Hm as [<- <-]. apply Z.ltb_ge in C.
  split; [| split; [| split; [| split]]]; try assumption.
  - eapply repeat_m_Forall; [| eassumption].
    intros s0 v s1 D. unfold draw, bind, ret in D. inversion D.
    pose proof (pick_by_cdf_In (Qfrac (stream s0 (cursor s0)))
                  (combine (x :: a') p) default) as I.
    rewrite (map_fst_combine (x :: a') p L) in I. apply I.
    destruct p; [discriminate L | discriminate].
  - eapply repeat_m_length. eassumption.
Qed.

Lemma apply_nulls_Ok c input result rng rng' :
  apply_nulls c input rng = (Ok result, rng') ->
  Forall2 (fun v w => w = VNone \/ w = v) input result.
Proof.
  unfold apply_nulls. destruct (andb _ _).
  - apply map_m_Forall2. intros x s y s' H. bind_inv H.
    apply ret_Ok in Hk. destruct Hk as [<- _].
    destruct (Qltb _ _); auto.
  - intros H. apply ret_Ok in H. destruct H as [<- _].
    induction input; constructor; auto.
Qed.

Lemma Forall2_length_eq {A B} (P : A -> B -> Prop) l l' :
  Forall2 P l l' -> List.length l = List.length l'.
Proof. induction 1; simpl; congruence. Qed.



(** ** Failure semantics of [generate] *)



Lemma fail_with_spec e r :
  status (RandomGenerator.fail_with e r) = FAILED
  /\ error_message (RandomGenerator.fail_with e r) = Some (exn_str e)
  /\ (counts_zero r -> counts_zero (RandomGenerator.fail_with e r)).
Proof.
  split; [reflexivity | split; [reflexivity |]]. intros H. exact H.
Qed.

Lemma in_progress_counts_zero r :
  counts_zero r -> counts_zero (RandomGenerator.in_progress r).
Proof. intros H. exact H. Qed.

Lemma finalize_result_completed config df r final r' :
  finalize_result config df r = (Ok final, r') -> status final = COMPLETED.
Proof.
  unfold finalize_result. intros H.
  bind_inv H. bind_inv Hk. bind_inv Hk0. bind_inv Hk. bind_inv Hk0. bind_inv Hk.
  unfold get, set_quality_score, set_status, modify in *.
  inversion Hk0. inversion Hm4. inversion Hm3. subst. reflexivity.
Qed.

Lemma seed_if_given_Ok seed rng :
  seed_if_given seed rng = (Ok tt, snd (seed_if_given seed rng)).
Proof. destruct seed; reflexivity. Qed.

Lemma random_run_unfold config seed rng :
  RandomGenerator.run config seed rng
  = RandomGenerator.generate config (_initialize_result config)
      (snd (seed_if_given seed rng)).
Proof.
  unfold RandomGenerator.run, RandomGenerator.init, bind.
  rewrite seed_if_given_Ok. reflexivity.
Qed.




(** ** Row counts *)

(** C1 fails on the code: with [record_count = 2], [subject_count = 3]
    and the subject identifier as only variable, every subject gets
    [max(1, 2 // 3) = 1] row and [2 % 3 = 2] more rows are added: the table
    has 5 rows, the result is COMPLETED, and [record_count] and
    [generated_count] are 5, whatever the random draws. *)
Theorem usubjid_rows_exceed_record_count :
  forall seed rng,
    let config := example_subject_config 2 3 [example_usubjid "text"] in
    let final := fst (RandomGenerator.run config seed rng) in
    fst (RandomGenerator.generate_table config (snd (seed_if_given seed rng)))
    = Ok [("USUBJID", [VStr "SUBJ000001"; VStr "SUBJ000002"; VStr "SUBJ000003";
                       VStr "SUBJ000001"; VStr "SUBJ000002"])]
    /\ status final = COMPLETED
    /\ result_record_count final = 5
    /\ option_map generated_count (dict_get (variable_stats final) "USUBJID") = Some 5
    /\ record_count config = 2.
Proof.
  intros seed rng. cbv zeta. rewrite random_run_unfold.
  generalize (snd (seed_if_given seed rng)). intros r.
  repeat split; vm_compute; reflexivity.
Qed.

(** ** Ordered dictionaries *)

Lemma dict_get_set_same {V} (d : list (string * V)) k v :
  dict_get (dict_set d k v) k = Some v.
Proof.
  induction d as [| [k' v'] d IH]; simpl.
  - rewrite String.eqb_refl. reflexivity.
  - destruct (String.eqb k' k) eqn:E; simpl.
    + rewrite String.eqb_refl. reflexivity.
    + rewrite E. exact IH.
Qed.

Lemma dict_get_set_other {V} (d : list (string * V)) k k' v :
  k <> k' -> dict_get (dict_set d k v) k' = dict_get d k'.
Proof.
  intros N. induction d as [| [k0 v0] d IH]; simpl.
  - destruct (String.eqb k k') eqn:E; [apply String.eqb_eq in E; contradiction|].
    reflexivity.
  - destruct (String.eqb k0 k) eqn:E; simpl.
    + apply String.eqb_eq in E. subst k0.
      destruct (String.eqb k k') eqn:E'; [apply String.eqb_eq in E'; contradiction|].
      reflexivity.
    + destruct (String.eqb k0 k'); [reflexivity | exact IH].
Qed.

Lemma dict_set_keys {V} (d : list (string * V)) k v x :
  dict_get d k = Some x -> map fst (dict_set d k v) = map fst d.
Proof.
  induction d as [| [k0 v0] d IH]; simpl; [discriminate|].
  destruct (String.eqb k0 k) eqn:E; simpl.
  - apply String.eqb_eq in E. subst k0. reflexivity.
  - intros H. f_equal. apply IH. exact H.
Qed.

Lemma dict_get_NoDup {V} (d : list (string * V)) k v :
  NoDup (map fst d) -> In (k, v) d -> dict_get d k = Some v.
Proof.
  induction d as [| [k0 v0] d IH]; simpl; [contradiction|].
  intros N [E | I].
  - inversion E. subst. rewrite String.eqb_refl. reflexivity.
  - inversion N as [| ? ? Nin N']. subst.
    destruct (String.eqb k0 k) eqn:E.
    + apply String.eqb_eq in E. subst k0. exfalso. apply Nin.
      apply in_map_iff. exists (k, v). auto.
    + apply IH; assumption.
Qed.

(** ** Relationship reconciliation *)

Import GeneratorService.

Lemma unique_values_incl l v : In v (unique_values l) -> In v l.
Proof.
  revert v. induction l as [| x l IH]; simpl; intros v H; [contradiction|].
  destruct H as [-> | H]; [left; reflexivity|].
  apply filter_In in H. right. apply IH. apply H.
Qed.

Lemma unique_values_nonempty l : l <> [] -> unique_values l <> [].
Proof. destruct l; [contradiction | discriminate]. Qed.

Lemma generated_tables_nothing results s :
  generated_tables results s
  = if existsb (fun kr => is_completed (snd kr)) results
    then (Raise (AttributeError
                   "'DomainGenerationResult' object has no attribute 'data'"), s)
    else (Ok [], s).
Proof.
  induction results as [| [name r] rest IH]; simpl.
  - reflexivity.
  - destruct (is_completed r); simpl; [reflexivity | exact IH].
Qed.

Lemma apply_domain_relationships_body_nothing job s :
  apply_domain_relationships_body job s = (Ok tt, s)
  \/ exists e, apply_domain_relationships_body job s = (Raise e, s).
Proof.
  unfold apply_domain_relationships_body, the_job, bind, get.
  destruct (dict_get (active_jobs s) job) as [j |]; simpl.
  - rewrite generated_tables_nothing. destruct (existsb _ _); simpl;
      [right; eexists | left]; reflexivity.
  - right. eexists. reflexivity.
Qed.

(** C3: on the code, reconciliation rewrites nothing.  Whatever the job and
    the configuration, [_apply_domain_relationships] returns and leaves the
    service, hence every domain result of every job, as it found it.  The
    loop that collects the tables raises [AttributeError] at [result.data]
    as soon as one result is completed, which the [except] clause swallows,
    and collects no table otherwise, so that the method returns before it
    looks at any relationship.  So it is on the job of the two completed
    domains DM and AE. *)
Theorem reconciliation_changes_nothing :
  (forall job config s, _apply_domain_relationships job config s = (Ok tt, s))
  /\ (forall results s,
        generated_tables results s
        = if existsb (fun kr => is_completed (snd kr)) results
          then (Raise (AttributeError
                         "'DomainGenerationResult' object has no attribute 'data'"), s)
          else (Ok [], s))
  /\ apply_domain_relationships_body "job_1" (example_service [example_job])
     = (Raise (AttributeError
                 "'DomainGenerationResult' object has no attribute 'data'"),
        example_service [example_job])
  /\ dict_get (active_jobs
                 (snd (_apply_domain_relationships "job_1" example_job_config
                         (example_service [example_job])))) "job_1"
     = Some example_job.
Proof.
  split; [| split; [| split]].
  - intros job config s. unfold _apply_domain_relationships, try_except.
    destruct (apply_domain_relationships_body_nothing job s) as [E | [e E]];
      rewrite E; reflexivity.
  - apply generated_tables_nothing.
  - vm_compute. reflexivity.
  - vm_compute. reflexivity.
Qed.

(** ** Status of a job *)

(** C6: on the code, [generate_data] gives no job a status.  The job result
    is built without its required [project_name], so every call raises
    [ValidationError] before a domain is attempted, and the service is left
    as it was.  Were a job stored, the [try] that follows would stop at
    [config.parallel_execution], a field [GenerationConfig] does not have:
    the job ends FAILED with that message and the domain results it had.
    And no status is PARTIAL: [GenerationStatus] has five members. *)
Theorem generate_data_rejects_every_job :
  (forall config job_id s,
     exists msg, generate_data config job_id s = (Raise (ValidationError msg), s))
  /\ (forall config j s,
        let failed :=
          set_job_error
            "'GenerationConfig' object has no attribute 'parallel_execution'"
            (set_job_status FAILED j) in
        run_job config (job_id j) (store_job j s)
        = (Ok failed, store_job failed (store_job j s))
        /\ job_status failed = FAILED
        /\ domain_results failed = domain_results j)
  /\ (forall st : GenerationStatus,
        In st [PENDING; IN_PROGRESS; COMPLETED; FAILED; CANCELLED]).
Proof.
  split; [| split].
  - intros config job_id s. eexists. unfold generate_data, bind, get. simpl.
    reflexivity.
  - intros config j s. cbv zeta. split; [| split; reflexivity].
    unfold run_job, try_except. simpl.
    unfold update_job, the_job, bind, get, modify, ret. simpl.
    rewrite dict_get_set_same. simpl. rewrite dict_get_set_same. reflexivity.
  - intros st. destruct st; simpl; auto 6.
Qed.

(** * Further properties of the code *)

(** ** Statistics after finalization *)

Lemma hoare_bind {S A B} (P R Q : S -> Prop) (m : St S A) (k : A -> St S B) :
  hoare P m R -> (forall a, hoare R (k a) Q) -> hoare P (bind m k) Q.
Proof.
  intros Hm Hk s b s' Ps H. bind_inv H. eapply Hk; [| eassumption]. eapply Hm; eassumption.
Qed.

Lemma hoare_ret {S A} (P : S -> Prop) (a : A) : hoare P (ret a) P.
Proof. intros s b s' Ps H. apply ret_Ok in H. destruct H as [_ <-]. exact Ps. Qed.

Lemma hoare_lift {A} (P : DomainGenerationResult -> Prop) (x : Exc A) :
  hoare P (lift x) P.
Proof.
  destruct x; simpl; [apply hoare_ret|]. intros s b s' _ H. discriminate H.
Qed.

Lemma hoare_for_each {S A} (P : S -> Prop) (xs : list A) (body : A -> St S unit) :
  (forall x, In x xs -> hoare P (body x) P) -> hoare P (for_each xs body) P.
Proof.
  induction xs as [| x xs IH]; intros Hb; simpl.
  - apply hoare_ret.
  - eapply hoare_bind; [apply Hb; left; reflexivity|].
    intros _. apply IH. intros y I. apply Hb. right. exact I.
Qed.

(** A mutation of the statistics of one variable that sets
    [generated_count] to [n] or leaves it alone. *)
Lemma hoare_update_stats n names name f :
  (forall st, generated_count (f st) = n \/ generated_count (f st) = generated_count st) ->
  hoare (counted n names) (update_stats name f) (counted n names).
Proof.
  intros Hf r a r' [Rc Pn] H. unfold update_stats, bind, get in H.
  destruct (dict_get (variable_stats r) name) as [st |] eqn:G; [| discriminate].
  unfold modify in H. injection H as _ <-. split; [exact Rc|]. simpl.
  intros nm I. destruct (string_dec name nm) as [-> | N].
  - rewrite dict_get_set_same. eexists. split; [reflexivity|].
    destruct (Hf st) as [E | E]; [exact E|]. rewrite E.
    destruct (Pn nm I) as (st' & G' & C). congruence.
  - rewrite dict_get_set_other by exact N. apply Pn, I.
Qed.

Lemma hoare_update_stats_set n names name f :
  (forall st, generated_count (f st) = n) ->
  hoare (counted n names) (update_stats name f) (counted n (name :: names)).
Proof.
  intros Hf r a r' [Rc Pn] H. unfold update_stats, bind, get in H.
  destruct (dict_get (variable_stats r) name) as [st |] eqn:G; [| discriminate].
  unfold modify in H. injection H as _ <-. split; [exact Rc|]. simpl.
  intros nm I. destruct (string_dec name nm) as [-> | N].
  - rewrite dict_get_set_same. eexists. split; [reflexivity | apply Hf].
  - rewrite dict_get_set_other by exact N. destruct I as [I | I]; [contradiction|].
    apply Pn, I.
Qed.

Lemma counted_weaken n names names' r :
  incl names' names -> counted n names r -> counted n names' r.
Proof. intros I [Rc Pn]. split; [exact Rc|]. intros nm H. apply Pn, I, H. Qed.

Ltac hoare_auto :=
  first
    [ apply hoare_ret
    | apply hoare_lift
    | apply hoare_update_stats; intros ?; right; reflexivity
    | eapply hoare_bind; [solve [hoare_auto] | intros; hoare_auto]
    | match goal with
      | |- hoare _ (if ?b then _ else _) _ => destruct b; hoare_auto
      | |- hoare _ (match ?x with _ => _ end) _ => destruct x; hoare_auto
      end ].

Lemma hoare_stats_loop n data :
  forall vars names,
    hoare (counted n names)
      (for_each vars (fun variable =>
         let var_name := variable_name variable in
         match dict_get data var_name with
         | None => ret tt
         | Some col =>
             update_stats var_name (fun st =>
               mkStats (stats_variable st) (stats_data_type st)
                 n (missing_count_of col) (Some (nunique col))
                 (stats_min st) (stats_max st) (distribution_stats st)
                 (quality_checks st)) ;;;
             let nonempty := negb (Nat.eqb (List.length col) 0) in
             let some_present := negb (forallb isna col) in
             if String.eqb (lower (data_type variable)) "numeric" then
               if andb nonempty some_present then
                 lo <- lift (series_extreme false col) ;;
                 update_stats var_name (fun st =>
                   mkStats (stats_variable st) (stats_data_type st)
                     (generated_count st) (missing_count st) (unique_count st)
                     (Some lo) (stats_max st) (distribution_stats st)
                     (quality_checks st)) ;;;
                 hi <- lift (series_extreme true col) ;;
                 update_stats var_name (fun st =>
                   mkStats (stats_variable st) (stats_data_type st)
                     (generated_count st) (missing_count st) (unique_count st)
                     (stats_min st) (Some hi) (distribution_stats st)
                     (quality_checks st)) ;;;
                 mean <- lift (series_mean col) ;;
                 update_stats var_name (fun st =>
                   mkStats (stats_variable st) (stats_data_type st)
                     (generated_count st) (missing_count st) (unique_count st)
                     (stats_min st) (stats_max st) (Some (NumericStats mean))
                     (quality_checks st))
               else ret tt
             else if String.eqb (lower (data_type variable)) "categorical" then
               if nonempty then
                 update_stats var_name (fun st =>
                   mkStats (stats_variable st) (stats_data_type st)
                     (generated_count st) (missing_count st) (unique_count st)
                     (stats_min st) (stats_max st)
                     (Some (TopValues (firstn 10 (value_counts_normalized col))))
                     (quality_checks st))
               else ret tt
             else if String.eqb (lower (data_type variable)) "date" then
               if andb nonempty some_present then
                 match parse_dates col with
                 | Some ds =>
                     match date_extreme false ds, date_extreme true ds with
                     | Some lo, Some hi =>
                         update_stats var_name (fun st =>
                           mkStats (stats_variable st) (stats_data_type st)
                             (generated_count st) (missing_count st) (unique_count st)
                             (Some (VStr (strftime lo))) (Some (VStr (strftime hi)))
                             (Some (YearCounts
                                      (map (fun vc => match fst vc with
                                                      | VInt y => (y, snd vc)
                                                      | _ => (0, snd vc)
                                                      end)
                                           (value_counts (map (fun d => VInt (year d)) ds)))))
                             (quality_checks st))
                     | _, _ => ret tt
                     end
                 | None => ret tt
                 end
               else ret tt
             else ret tt
         end))
      (counted n (rev (present_names data vars) ++ names)).
Proof.
  induction vars as [| v vars IH]; intros names.
  - simpl. apply hoare_ret.
  - cbn [for_each]. unfold present_names. cbn [filter]. unfold dict_mem.
    destruct (dict_get data (variable_name v)) as [col |] eqn:D.
    + cbn [map rev]. rewrite <- app_assoc. cbn [app].
      eapply hoare_bind; [| intros _; apply IH].
      cbv zeta.
      eapply hoare_bind;
        [apply hoare_update_stats_set; intros st; reflexivity | intros _].
      hoare_auto.
    + eapply hoare_bind; [apply hoare_ret | intros _; apply IH].
Qed.

Lemma hoare_update_generation_stats config data :
  hoare (fun _ => True) (update_generation_stats config data)
        (counted (df_len data) (present_names data (variables config))).
Proof.
  unfold update_generation_stats.
  eapply hoare_bind with (R := counted (df_len data) []).
  - intros r a r' _ H. unfold set_record_count, modify in H. injection H as _ <-.
    split; [reflexivity|]. intros nm [].
  - intros _. eapply hoare_bind with (R := counted (df_len data) []).
    + destruct (dict_get data "USUBJID"); [| apply hoare_ret].
      intros r a r' [Rc Pn] H. unfold set_subject_count, modify in H.
      injection H as _ <-. split; [exact Rc|]. intros nm [].
    + intros _. intros r a r' P H.
      pose proof (hoare_stats_loop (df_len data) data (variables config) [] r a r' P H)
        as C.
      eapply counted_weaken; [| exact C]. rewrite app_nil_r.
      intros x I. apply in_rev. rewrite rev_involutive. exact I.
Qed.

Lemma hoare_attach_check n names check :
  hoare (counted n names) (attach_check check) (counted n names).
Proof.
  intros r a r' P H. unfold attach_check, bind at 1, get at 1 in H.
  destruct (check_variable check) as [name |].
  - destruct (dict_get (variable_stats r) name).
    + eapply hoare_update_stats; [| exact P | exact H]. intros st. right. reflexivity.
    + apply ret_Ok in H. destruct H as [_ <-]. exact P.
  - apply ret_Ok in H. destruct H as [_ <-]. exact P.
Qed.

(** X8: when [finalize_result] returns, the result is COMPLETED, its
    [record_count] is the number of rows of the table, every configured
    variable that has a column in the table has statistics whose
    [generated_count] is that number of rows, and the quality score is set
    and lies between 0 and 100. *)
Theorem finalize_result_counts :
  forall config data r final r',
    finalize_result config data r = (Ok final, r') ->
    final = r'
    /\ status final = COMPLETED
    /\ result_record_count final = df_len data
    /\ (forall v, In v (variables config) ->
          dict_mem data (variable_name v) = true ->
          exists st, dict_get (variable_stats final) (variable_name v) = Some st
                     /\ generated_count st = df_len data)
    /\ exists q, quality_score final = Some q /\ (0 <= q <= 100)%Q.
Proof.
  intros config data r final r' H.
  pose proof (finalize_result_completed _ _ _ _ _ H) as St.
  unfold finalize_result in H.
  bind_inv H. bind_inv Hk. bind_inv Hk0. bind_inv Hk. bind_inv Hk0. bind_inv Hk.
  pose proof (hoare_update_generation_stats config data r a s I Hm) as C0.
  assert (C1 : counted (df_len data) (present_names data (variables config)) s0).
  { eapply hoare_lift; eassumption. }
  assert (C2 : counted (df_len data) (present_names data (variables config)) s1).
  { eapply hoare_for_each; [| exact C1 | exact Hm1].
    intros c _. apply hoare_attach_check. }
  unfold get in Hm2, Hk0. injection Hm2 as <- <-. injection Hk0 as <- <-.
  unfold set_status, modify in Hm3. injection Hm3 as _ <-.
  unfold set_quality_score, modify in Hm4. injection Hm4 as _ <-.
  destruct C2 as [Rc Pn]. simpl.
  split; [reflexivity|]. split; [reflexivity|]. split; [exact Rc|]. split.
  - intros v Iv M. apply Pn. unfold present_names. apply in_map.
    apply filter_In. auto.
  - eexists. split; [reflexivity|].
    apply (proj1 (calculate_quality_score_bounds _ _)).
Qed.

Lemma finalize_result_counts_witness :
  exists st,
    dict_get (variable_stats
                (fst (RandomGenerator.run
                        (example_subject_config 3 2 [example_usubjid "text"])
                        None (rng_const 0)))) "USUBJID" = Some st
    /\ generated_count st = 3.
Proof.
  refine (proj1 (proj2 (proj2 (proj2 (finalize_result_counts
            (example_subject_config 3 2 [example_usubjid "text"])
            [("USUBJID", [VStr "SUBJ000001"; VStr "SUBJ000002"; VStr "SUBJ000001"])]
            (RandomGenerator.in_progress
               (_initialize_result (example_subject_config 3 2 [example_usubjid "text"])))
            _ _ eq_refl))))
            (example_usubjid "text") (or_introl eq_refl) eq_refl).
Defined.

(** ** Which checks are registered *)

Lemma count_of_filter_zero col : missing_count_of col = 0 -> filter isna col = [].
Proof.
  unfold missing_count_of. destruct (filter isna col); [reflexivity|].
  simpl. lia.
Qed.

(** X9: for a configuration none of whose variables has constraints, a
    table without missing values gets no quality check at all, and its score
    is exactly 100. *)
Theorem unconstrained_table_scores_100 :
  forall config (data : DataFrame) total,
    Forall (fun v => constraints v = None) (variables config) ->
    (forall name col, dict_get data name = Some col -> missing_count_of col = 0) ->
    perform_quality_checks config data = Ok []
    /\ calculate_quality_score total [] = 100%Q.
Proof.
  intros config data total F M. split; [| reflexivity].
  unfold perform_quality_checks. generalize (record_count config). intros rc.
  induction F as [| v vars Hv _ IH]; simpl; [reflexivity|].
  unfold variable_checks.
  destruct (dict_get data (variable_name v)) as [col |] eqn:D.
  - unfold missing_checks, duplicate_checks, range_checks.
    rewrite Hv, (M _ _ D). simpl. rewrite IH. reflexivity.
  - rewrite IH. reflexivity.
Qed.

Lemma unconstrained_table_scores_100_witness :
  perform_quality_checks (example_subject_config 3 2 [example_usubjid "text"])
    [("USUBJID", [VStr "SUBJ000001"; VStr "SUBJ000002"; VStr "SUBJ000001"])]
  = Ok [].
Proof.
  refine (proj1 (unconstrained_table_scores_100
                   (example_subject_config 3 2 [example_usubjid "text"])
                   [("USUBJID", [VStr "SUBJ000001"; VStr "SUBJ000002"; VStr "SUBJ000001"])]
                   3 _ _)).
  - repeat constructor.
  - intros name col H. cbn [dict_get] in H.
    destruct (String.eqb "USUBJID" name); [| discriminate].
    injection H as <-. reflexivity.
Defined.

(** ** The score never rewards a defect *)

Lemma penalty_nonneg total check :
  0 < total -> 0 <= issue_count check -> (0 <= penalty total check)%Q.
Proof.
  intros T I. unfold penalty. destruct (passed check); [lra|].
  assert (P : (0 <= inject_Z (issue_count check) / inject_Z total)%Q).
  { apply Qle_shift_div_l.
    - change 0%Q with (inject_Z 0). rewrite <- Zlt_Qlt. exact T.
    - rewrite Qmult_0_l. change 0%Q with (inject_Z 0). rewrite <- Zle_Qle. exact I. }
  destruct (check_type check); lra.
Qed.

Lemma clamp_mono (x y : Q) :
  (x <= y)%Q -> (Qmax 0 (Qmin 100 x) <= Qmax 0 (Qmin 100 y))%Q.
Proof.
  intros L.
  assert (M : (Qmin 100 x <= Qmin 100 y)%Q).
  { apply Qmin_glb; [apply Qmin_spec|].
    eapply Qle_trans; [apply Qmin_spec | exact L]. }
  apply Qmax_lub; [apply Qmax_spec|].
  eapply Qle_trans; [exact M | apply Qmax_spec].
Qed.

(** X11: appending a check to the list never raises the score of a table
    (with a non-negative row count and a non-negative issue count): a defect
    can only lower the score or leave it as it is. *)
Theorem added_check_never_raises_score :
  forall total checks check,
    0 <= total -> 0 <= issue_count check ->
    (calculate_quality_score total (checks ++ [check])
     <= calculate_quality_score total checks)%Q.
Proof.
  intros total checks check T I.
  destruct (Z.eq_dec total 0) as [-> | N].
  - destruct checks; simpl; lra.
  - destruct checks as [| c l].
    + change (@nil DataQualityCheck ++ [check])%list with [check].
      rewrite calculate_quality_score_nonempty by (discriminate || assumption).
      change (calculate_quality_score total []) with 100%Q.
      apply Qmax_lub; [lra | apply Qmin_spec].
    + rewrite !calculate_quality_score_nonempty by (discriminate || assumption).
      apply clamp_mono. unfold subtract_penalties. rewrite fold_left_app. simpl.
      pose proof (penalty_nonneg total check ltac:(lia) I). lra.
Qed.

Lemma added_check_never_raises_score_witness :
  (calculate_quality_score 4
     ([] ++ [mkCheck "AGE_below_minimum" OUT_OF_RANGE (Some "AGE") false 2])
   <= calculate_quality_score 4 [])%Q.
Proof.
  apply added_check_never_raises_score; [lia | simpl; lia].
Defined.

(** ** The columns of the random generator *)

Lemma flat_map_repeat_length {A B} (f : A -> B) (k : nat) (l : list A) :
  List.length (flat_map (fun x => repeat (f x) k) l) = (List.length l * k)%nat.
Proof.
  induction l as [| x l IH]; simpl; [reflexivity |].
  rewrite length_app, repeat_length, IH. reflexivity.
Qed.

Lemma flat_map_repeat_In {A B} (f : A -> B) (k : nat) (l : list A) (y : B) :
  (0 < k)%nat ->
  In y (flat_map (fun x => repeat (f x) k) l) <-> exists x, In x l /\ y = f x.
Proof.
  intros K. rewrite in_flat_map. split.
  - intros (x & I & R). exists x. split; [exact I |].
    apply repeat_spec in R. exact R.
  - intros (x & I & ->). exists x. split; [exact I |].
    destruct k; [lia | simpl; auto].
Qed.

Lemma In_firstn {A} (x : A) (n : nat) (l : list A) :
  In x (firstn n l) -> In x l.
Proof.
  intros I. rewrite <- (firstn_skipn n l). apply in_or_app. left. exact I.
Qed.

(** X12: when the number of subject identifiers is between 1 and
    [record_count], the [USUBJID] column has exactly [record_count] entries,
    consumes no randomness, and its entries are exactly the subject
    identifiers: every identifier occurs and nothing else does. *)
Theorem usubjid_column_rows config variable subject_ids rng :
  variable_name variable = "USUBJID" ->
  1 <= Z.of_nat (List.length subject_ids) <= record_count config ->
  exists col,
    RandomGenerator._generate_variable_data config variable subject_ids rng
    = (Ok col, rng)
    /\ Z.of_nat (List.length col) = record_count config
    /\ (forall v, In v col <-> exists s, In s subject_ids /\ v = VStr s).
Proof.
  intros Hname [H1 H2].
  unfold RandomGenerator._generate_variable_data. rewrite Hname.
  cbn [String.eqb Ascii.eqb Bool.eqb andb].
  replace (String.eqb "USUBJID" "USUBJID") with true by reflexivity.
  destruct (Nat.eqb (List.length subject_ids) 0) eqn:E;
    [apply Nat.eqb_eq in E; lia |].
  cbn [negb andb]. unfold ret.
  set (len := Z.of_nat (List.length subject_ids)) in *.
  set (n := record_count config) in *.
  assert (Hq : 1 <= n / len) by (apply Z.div_le_lower_bound; lia).
  assert (Hmax : Z.max 1 (n / len) = n / len) by lia.
  rewrite Hmax.
  pose proof (Z.mod_pos_bound n len ltac:(lia)) as Hmod.
  pose proof (Z.div_mod n len ltac:(lia)) as Hdm.
  eexists. split; [reflexivity |]. split.
  - destruct (0 <? n mod len) eqn:R.
    + rewrite length_app, flat_map_repeat_length, length_map, length_firstn.
      rewrite Nat.min_l by (unfold len in *; lia).
      unfold len in *. nia.
    + apply Z.ltb_ge in R. rewrite flat_map_repeat_length. unfold len in *. nia.
  - intros v.
    assert (K : (0 < Z.to_nat (n / len))%nat) by lia.
    destruct (0 <? n mod len) eqn:R.
    + rewrite in_app_iff, (flat_map_repeat_In VStr _ _ _ K), in_map_iff. split.
      * intros [I | (s & <- & I)]; [exact I |].
        exists s. split; [eapply In_firstn; exact I | reflexivity].
      * intros I. left. exact I.
    + apply (flat_map_repeat_In VStr _ _ _ K).
Qed.

Lemma usubjid_column_rows_witness :
  exists col,
    RandomGenerator._generate_variable_data
      (example_subject_config 5 2 [example_usubjid "text"])
      (example_usubjid "text") ["SUBJ000001"; "SUBJ000002"] (rng_const 0)
    = (Ok col, rng_const 0)
    /\ Z.of_nat (List.length col) = 5
    /\ (forall v, In v col <->
                  exists s, In s ["SUBJ000001"; "SUBJ000002"] /\ v = VStr s).
Proof.
  apply (usubjid_column_rows (example_subject_config 5 2 [example_usubjid "text"])
           (example_usubjid "text") ["SUBJ000001"; "SUBJ000002"] (rng_const 0));
    [reflexivity | simpl; lia].
Defined.

(** ** Lengths of the sampled columns *)

Lemma raise_not_Ok {S A} (e : exn) (s s' : S) (a : A) :
  raise e s = (Ok a, s') -> False.
Proof. unfold raise. discriminate. Qed.

Lemma apply_nulls_length c input result rng rng' :
  apply_nulls c input rng = (Ok result, rng') ->
  List.length result = List.length input.
Proof.
  intros H. apply apply_nulls_Ok in H. symmetry.
  eapply Forall2_length_eq. exact H.
Qed.

Ltac sampler_length H :=
  repeat match type of H with
         | (if ?c then _ else _) _ = _ => destruct c
         end;
  try (apply raise_not_Ok in H; contradiction);
  apply np_draws_length in H; destruct H as [_ H]; exact H.

Lemma np_random_normal_length mean std count r l r' :
  np_random_normal mean std count r = (Ok l, r') ->
  List.length l = Z.to_nat count.
Proof. unfold np_random_normal. intros H. sampler_length H. Qed.

Lemma np_random_uniform_length low high count r l r' :
  np_random_uniform low high count r = (Ok l, r') ->
  List.length l = Z.to_nat count.
Proof. unfold np_random_uniform. intros H. sampler_length H. Qed.

Lemma np_random_poisson_length lam count r l r' :
  np_random_poisson lam count r = (Ok l, r') ->
  List.length l = Z.to_nat count.
Proof. unfold np_random_poisson. intros H. sampler_length H. Qed.

Lemma np_random_exponential_length scale count r l r' :
  np_random_exponential scale count r = (Ok l, r') ->
  List.length l = Z.to_nat count.
Proof. unfold np_random_exponential. intros H. sampler_length H. Qed.

Lemma np_random_binomial_length n p count r l r' :
  np_random_binomial n p count r = (Ok l, r') ->
  List.length l = Z.to_nat count.
Proof. unfold np_random_binomial. intros H. cbv zeta in H. sampler_length H. Qed.

Lemma lift_exc_Ok {S A} (x : Exc A) (s s' : S) (a : A) :
  lift_exc x s = (Ok a, s') -> x = Ok a /\ s = s'.
Proof.
  destruct x; simpl; intros H.
  - apply ret_Ok in H. destruct H as [-> ->]. auto.
  - apply raise_not_Ok in H. contradiction.
Qed.

Ltac binds :=
  repeat match goal with
  | H : bind _ _ _ = (Ok _, _) |- _ =>
      let H1 := fresh "Hm" in
      apply bind_Ok in H; destruct H as (? & ? & H1 & H)
  | H : ret _ _ = (Ok _, _) |- _ =>
      apply ret_Ok in H; destruct H as [? ?]; subst
  | H : lift_exc _ _ = (Ok _, _) |- _ =>
      apply lift_exc_Ok in H; destruct H as [? ?]; subst
  | H : raise _ _ = (Ok _, _) |- _ =>
      apply raise_not_Ok in H; contradiction
  end.

Lemma numeric_data_length config variable rng col rng' :
  RandomGenerator._generate_numeric_data config variable rng = (Ok col, rng') ->
  List.length col = Z.to_nat (record_count config).
Proof.
  unfold RandomGenerator._generate_numeric_data. intros H. bind_inv H.
  apply apply_nulls_length in Hk. rewrite Hk.
  assert (L : List.length a = Z.to_nat (record_count config)).
  { clear Hk.
    destruct (or_else (distribution variable) NORMAL); binds;
      rewrite !length_map;
      first [ eapply np_random_normal_length; eassumption
            | eapply np_random_uniform_length; eassumption
            | eapply np_random_binomial_length; eassumption
            | eapply np_random_exponential_length; eassumption
            | eapply np_random_poisson_length; eassumption ]. }
  destruct (_ && _)%bool; rewrite ?length_map; exact L.
Qed.

Lemma categorical_data_length config variable rng col rng' :
  RandomGenerator._generate_categorical_data config variable rng = (Ok col, rng') ->
  List.length col = Z.to_nat (record_count config).
Proof.
  unfold RandomGenerator._generate_categorical_data. intros H.
  bind_inv H. bind_inv Hk.
  apply apply_nulls_length in Hk0. rewrite Hk0.
  apply np_random_choice_Ok in Hm0. tauto.
Qed.

Lemma date_data_length config variable rng col rng' :
  RandomGenerator._generate_date_data config variable rng = (Ok col, rng') ->
  List.length col = Z.to_nat (record_count config).
Proof.
  unfold RandomGenerator._generate_date_data. intros H. bind_inv H.
  apply apply_nulls_length in Hk. rewrite Hk.
  eapply repeat_m_length. exact Hm.
Qed.

Lemma text_data_length config variable rng col rng' :
  RandomGenerator._generate_text_data config variable rng = (Ok col, rng') ->
  List.length col = Z.to_nat (record_count config).
Proof.
  unfold RandomGenerator._generate_text_data. intros H. bind_inv H.
  apply apply_nulls_length in Hk. rewrite Hk.
  destruct (format_pattern _) as [[| c0 p0] |];
    eapply repeat_m_length; exact Hm.
Qed.

(** X13: outside the subject branch, every column the random generator
    returns has exactly [record_count] entries (none when [record_count] is
    negative), whatever the type, distribution and constraints of the
    variable. *)
Theorem random_column_length config variable subject_ids rng col rng' :
  variable_name variable <> "USUBJID" \/ subject_ids = [] ->
  RandomGenerator._generate_variable_data config variable subject_ids rng
  = (Ok col, rng') ->
  List.length col = Z.to_nat (record_count config).
Proof.
  intros Hbranch. unfold RandomGenerator._generate_variable_data.
  assert (E : andb (String.eqb (variable_name variable) "USUBJID")
                   (negb (Nat.eqb (List.length subject_ids) 0)) = false).
  { destruct Hbranch as [N | ->].
    - apply String.eqb_neq in N. rewrite N. reflexivity.
    - simpl. apply andb_false_r. }
  rewrite E.
  repeat match goal with
         | |- (if ?c then _ else _) _ = _ -> _ => destruct c
         end;
    first [ apply numeric_data_length | apply categorical_data_length
          | apply date_data_length | apply text_data_length ].
Qed.

Lemma random_column_length_witness :
  List.length [VStr "A0"; VStr "A0"; VStr "A0"] = Z.to_nat 3.
Proof.
  apply (random_column_length
           (example_subject_config 3 1 [])
           (mkVariable "CODE" "text" None None None
              (Some (mkValueConstraint None None None (Some "LD") false false 0)))
           [] (rng_const 0) _
           (snd (RandomGenerator._generate_variable_data
                   (example_subject_config 3 1 [])
                   (mkVariable "CODE" "text" None None None
                      (Some (mkValueConstraint None None None (Some "LD")
                               false false 0)))
                   [] (rng_const 0))));
    [right; reflexivity | vm_compute; reflexivity].
Defined.

Lemma Forall2_Forall_r {A B} (P : A -> B -> Prop) (Q : A -> Prop) (R : B -> Prop)
      (l : list A) (l' : list B) :
  (forall x y, Q x -> P x y -> R y) ->
  Forall2 P l l' -> Forall Q l -> Forall R l'.
Proof.
  intros HPQ F2. induction F2 as [| x y l l' Hxy F2 IH]; intros F.
  - constructor.
  - inversion F; subst. constructor; eauto.
Qed.

Lemma apply_nulls_Forall (P : value -> Prop) c input result rng rng' :
  apply_nulls c input rng = (Ok result, rng') ->
  Forall P input -> Forall (fun v => v = VNone \/ P v) result.
Proof.
  intros H F. apply apply_nulls_Ok in H.
  eapply Forall2_Forall_r; [| exact H | exact F].
  intros x y Px [-> | ->]; auto.
Qed.




(** ** Numeric columns of the random generator *)

Lemma py_int_between (a b : Z) (q : Q) :
  (inject_Z a <= q <= inject_Z b)%Q ->
  (inject_Z a <= inject_Z (py_int q) <= inject_Z b)%Q.
Proof.
  intros [La Lb]. unfold py_int. destruct (Qle_bool 0 q).
  - split; rewrite <- Zle_Qle.
    + rewrite <- (Qfloor_Z a). apply Qfloor_resp_le. exact La.
    + rewrite Zle_Qle. eapply Qle_trans; [apply Qfloor_le | exact Lb].
  - split; rewrite <- Zle_Qle.
    + rewrite Zle_Qle. eapply Qle_trans; [exact La | apply Qle_ceiling].
    + rewrite <- (Qceiling_Z b). apply Qceiling_resp_le. exact Lb.
Qed.






(** X15: with the normal distribution (the default) and bounds
    [lo <= hi] (the defaults are 0 and 100), every value of a numeric
    column of the random generator is [None] or a number between the bounds;
    this also holds after the conversion to integers, which the generator
    only makes when both bounds are integers. *)
Theorem random_normal_within_bounds config variable lo hi rng col rng' :
  or_else (distribution variable) NORMAL = NORMAL ->
  as_number (or_else (min_value (or_else (constraints variable) default_constraint))
                     (VFloat 0)) = Some lo ->
  as_number (or_else (max_value (or_else (constraints variable) default_constraint))
                     (VFloat 100)) = Some hi ->
  (lo <= hi)%Q ->
  RandomGenerator._generate_numeric_data config variable rng = (Ok col, rng') ->
  Forall (fun v => v = VNone \/
                   exists q, as_number v = Some q /\ (lo <= q <= hi)%Q) col.
Proof.
  intros Hd Hlo Hhi Hle. unfold RandomGenerator._generate_numeric_data.
  rewrite Hd. unfold num_of. rewrite Hlo, Hhi. cbn [lift_exc].
  intros H. bind_inv H.
  eapply apply_nulls_Forall; [exact Hk |]. clear Hk.
  binds.
  set (mn := or_else (min_value _) _) in *.
  set (mx := or_else (max_value _) _) in *.
  destruct (is_int mn && is_int mx && _)%bool eqn:Eint.
  - apply andb_true_iff in Eint. destruct Eint as [Eint _].
    apply andb_true_iff in Eint. destruct Eint as [Imn Imx].
    destruct mn as [| za | |]; try discriminate.
    destruct mx as [| zb | |]; try discriminate.
    simpl in Hlo, Hhi. injection Hlo as <-. injection Hhi as <-.
    rewrite !map_map. apply Forall_map. apply Forall_forall. intros v _.
    cbn [as_number]. eexists. split; [reflexivity |].
    apply py_int_between. apply clip_in_range. exact Hle.
  - rewrite map_map. apply Forall_map. apply Forall_forall. intros v _.
    eexists. split; [reflexivity |].
    apply clip_in_range. exact Hle.
Qed.

Lemma random_normal_within_bounds_witness :
  Forall (fun v => v = VNone \/
                   exists q, as_number v = Some q
                             /\ (inject_Z 0 <= q <= inject_Z 120)%Q)
         [VFloat (inject_Z 120); VFloat (inject_Z 120)].
Proof.
  apply (random_normal_within_bounds
           (example_subject_config 2 1 [])
           (mkVariable "AGE" "numeric" None None None
              (Some (mkValueConstraint (Some (VInt 0)) (Some (VInt 120))
                       None None false false 0)))
           (inject_Z 0) (inject_Z 120) (rng_const 7) _
           (snd (RandomGenerator._generate_numeric_data
                   (example_subject_config 2 1 [])
                   (mkVariable "AGE" "numeric" None None None
                      (Some (mkValueConstraint (Some (VInt 0)) (Some (VInt 120))
                               None None false false 0)))
                   (rng_const 7))));
    [reflexivity | reflexivity | reflexivity | unfold Qle; simpl; lia
    | vm_compute; reflexivity].
Defined.

(** ** Text columns of the random generator *)

Lemma map_m_total {S A B} (f : A -> St S B) :
  (forall x s, exists y s', f x s = (Ok y, s')) ->
  forall xs s, exists ys s', map_m f xs s = (Ok ys, s').
Proof.
  intros T xs. induction xs as [| x xs IH]; intros s; simpl.
  - eexists _, _. reflexivity.
  - unfold bind. destruct (T x s) as (y & s1 & ->).
    destruct (IH s1) as (ys & s2 & ->). eexists _, _. reflexivity.
Qed.

Lemma repeat_m_total {S A} (m : St S A) :
  (forall s, exists y s', m s = (Ok y, s')) ->
  forall n s, exists ys s', repeat_m n m s = (Ok ys, s').
Proof.
  intros T n. induction n as [| n IH]; intros s; simpl.
  - eexists _, _. reflexivity.
  - unfold bind. destruct (T s) as (y & s1 & ->).
    destruct (IH s1) as (ys & s2 & ->). eexists _, _. reflexivity.
Qed.

Lemma apply_nulls_total c input rng :
  exists result rng', apply_nulls c input rng = (Ok result, rng').
Proof.
  unfold apply_nulls. destruct (_ && _)%bool.
  - apply map_m_total. intros v s. eexists _, _. reflexivity.
  - eexists _, _. reflexivity.
Qed.

(** The index [random.choice] computes lies inside the sequence. *)
Lemma scaled_index_range (u : Q) (n : Z) :
  (0 <= u < 1)%Q -> 0 < n -> 0 <= Qfloor (u * inject_Z n) < n.
Proof.
  intros [U0 U1] N.
  assert (Npos : (inject_Z 0 < inject_Z n)%Q) by (rewrite <- Zlt_Qlt; exact N).
  change (inject_Z 0) with 0%Q in Npos.
  split.
  - change 0 with (Qfloor 0). apply Qfloor_resp_le.
    apply Qmult_le_0_compat; [exact U0 | apply Qlt_le_weak, Npos].
  - destruct (Z_lt_le_dec (Qfloor (u * inject_Z n)) n) as [L | G]; [exact L |].
    exfalso. rewrite Zle_Qle in G.
    pose proof (Qfloor_le (u * inject_Z n)) as F.
    assert (C : (u * inject_Z n < 1 * inject_Z n)%Q)
      by (apply Qmult_lt_compat_r; assumption).
    rewrite Qmult_1_l in C.
    apply (Qlt_irrefl (inject_Z n)).
    eapply Qle_lt_trans; [| exact C].
    eapply Qle_trans; [exact G | exact F].
Qed.

Lemma random_choice_total {A} (seq : list A) (default : A) rng :
  seq <> [] ->
  exists x rng', random_choice seq default rng = (Ok x, rng') /\ In x seq.
Proof.
  intros Hne. unfold random_choice. destruct seq as [| a seq]; [congruence |].
  unfold bind, draw, ret. eexists _, _. split; [reflexivity |].
  apply nth_In.
  pose proof (scaled_index_range (Qfrac (stream rng (cursor rng)))
                (Z.of_nat (List.length (a :: seq))) (Qfrac_range _)) as R.
  assert (P : 0 < Z.of_nat (List.length (a :: seq))) by (simpl; lia).
  specialize (R P). lia.
Qed.

Lemma random_choice_In {A} (seq : list A) (default : A) rng x rng' :
  random_choice seq default rng = (Ok x, rng') -> In x seq.
Proof.
  intros H. destruct seq as [| a seq].
  - apply raise_not_Ok in H. contradiction.
  - destruct (random_choice_total (a :: seq) default rng ltac:(discriminate))
      as (y & r & E & I).
    rewrite E in H. injection H as <- _. exact I.
Qed.

Lemma list_ascii_length (s : string) :
  List.length (list_ascii_of_string s) = String.length s.
Proof. induction s as [| c s IH]; simpl; congruence. Qed.

Lemma string_of_list_length (l : list ascii) :
  String.length (string_of_list_ascii l) = List.length l.
Proof. induction l as [| c l IH]; simpl; congruence. Qed.

Lemma pattern_chars_total (pattern : list ascii) rng :
  exists chars rng',
    map_m (fun char =>
             if Ascii.eqb char "L" then random_choice RandomGenerator.letters char
             else if Ascii.eqb char "D" then random_choice RandomGenerator.digits char
             else ret char) pattern rng = (Ok chars, rng').
Proof.
  apply map_m_total. intros ch s.
  destruct (Ascii.eqb ch "L").
  - destruct (random_choice_total RandomGenerator.letters ch s ltac:(discriminate))
      as (y & r & E & _). eauto.
  - destruct (Ascii.eqb ch "D").
    + destruct (random_choice_total RandomGenerator.digits ch s ltac:(discriminate))
        as (y & r & E & _). eauto.
    + eexists _, _. reflexivity.
Qed.

Lemma pattern_chars_spec (pattern : list ascii) rng chars rng' :
  map_m (fun char =>
           if Ascii.eqb char "L" then random_choice RandomGenerator.letters char
           else if Ascii.eqb char "D" then random_choice RandomGenerator.digits char
           else ret char) pattern rng = (Ok chars, rng') ->
  Forall2 pattern_char pattern chars.
Proof.
  apply map_m_Forall2. intros ch s y s' H. unfold pattern_char.
  destruct (Ascii.eqb ch "L"); [eapply random_choice_In; exact H |].
  destruct (Ascii.eqb ch "D"); [eapply random_choice_In; exact H |].
  apply ret_Ok in H. destruct H as [<- _]. reflexivity.
Qed.

(** X16: with a non-empty format pattern the text sampler always returns:
    it gives [record_count] entries, and each of them is [None] or a string
    that follows the pattern character by character (a capital letter for
    each ["L"], a digit for each ["D"], every other character copied), so
    it has the length of the pattern. *)
Theorem pattern_text_shape config variable c pattern rng :
  constraints variable = Some c ->
  format_pattern c = Some pattern ->
  pattern <> "" ->
  exists col rng',
    RandomGenerator._generate_text_data config variable rng = (Ok col, rng')
    /\ List.length col = Z.to_nat (record_count config)
    /\ Forall (fun v => v = VNone \/
                 exists s, v = VStr s
                   /\ Forall2 pattern_char (list_ascii_of_string pattern)
                                           (list_ascii_of_string s)
                   /\ String.length s = String.length pattern) col.
Proof.
  intros Hc Hp Hne.
  destruct (RandomGenerator._generate_text_data config variable rng)
    as [[col | e] rng'] eqn:E.
  - exists col, rng'. split; [reflexivity |].
    split; [eapply text_data_length; exact E |].
    revert E. unfold RandomGenerator._generate_text_data.
    rewrite Hc. cbn [or_else]. rewrite Hp.
    destruct pattern as [| c0 p0]; [congruence |].
    intros H. bind_inv H.
    eapply apply_nulls_Forall; [exact Hk |].
    eapply repeat_m_Forall; [| exact Hm].
    intros s0 v s1 Hv. bind_inv Hv.
    apply ret_Ok in Hk0. destruct Hk0 as [<- _].
    apply pattern_chars_spec in Hm0.
    eexists. split; [reflexivity |].
    rewrite list_ascii_of_string_of_list_ascii. split; [exact Hm0 |].
    apply Forall2_length_eq in Hm0.
    rewrite string_of_list_length, <- Hm0.
    apply list_ascii_length.
  - exfalso. revert E. unfold RandomGenerator._generate_text_data.
    rewrite Hc. cbn [or_else]. rewrite Hp.
    destruct pattern as [| c0 p0]; [congruence |].
    unfold bind.
    match goal with
    | |- context [repeat_m ?k ?m rng] =>
        assert (T : forall s, exists y s', m s = (Ok y, s'));
          [| destruct (repeat_m_total m T k rng) as (ys & r1 & ->)]
    end.
    + intros s. unfold bind.
      destruct (pattern_chars_total (list_ascii_of_string (String c0 p0)) s)
        as (chars & r & ->).
      eexists _, _. reflexivity.
    + destruct (apply_nulls_total c ys r1) as (res & r2 & ->). discriminate.
Qed.

Lemma pattern_text_shape_witness :
  exists col rng',
    RandomGenerator._generate_text_data (example_subject_config 2 1 [])
      example_code_variable (rng_const 0) = (Ok col, rng')
    /\ List.length col = Z.to_nat 2
    /\ Forall (fun v => v = VNone \/
                 exists s, v = VStr s
                   /\ Forall2 pattern_char (list_ascii_of_string "LD-")
                                           (list_ascii_of_string s)
                   /\ String.length s = String.length "LD-") col.
Proof.
  apply (pattern_text_shape (example_subject_config 2 1 []) example_code_variable
           (mkValueConstraint None None None (Some "LD-") false false 0)
           "LD-" (rng_const 0));
    [reflexivity | reflexivity | discriminate].
Defined.

Lemma substring_length_le (n : nat) (s : string) :
  (String.length (substring 0 n s) <= n)%nat.
Proof.
  revert s. induction n as [| n IH]; intros [| c s]; simpl; try lia.
  specialize (IH s). lia.
Qed.

Lemma slice_to_length (s : string) (k : Z) :
  0 <= k -> Z.of_nat (String.length (slice_to s k)) <= k.
Proof.
  intros K. unfold slice_to.
  destruct (0 <=? k) eqn:E; [| apply Z.leb_gt in E; lia].
  pose proof (substring_length_le (Z.to_nat k) s). lia.
Qed.

(** X17: without a format pattern (none, or the empty one) the text
    sampler cuts every text at [max_length] characters: when [max_length]
    (20 unless configured) is not negative, each entry is [None] or a string
    of at most [max_length] characters. *)
Theorem free_text_truncated config variable rng col rng' :
  let pattern := format_pattern (or_else (constraints variable) default_constraint) in
  let max_length :=
    Qfloor (params_get (or_else (distribution_params variable) []) "max_length" 20) in
  pattern = None \/ pattern = Some "" ->
  0 <= max_length ->
  RandomGenerator._generate_text_data config variable rng = (Ok col, rng') ->
  Forall (fun v => v = VNone \/
                   exists s, v = VStr s /\ Z.of_nat (String.length s) <= max_length)
         col.
Proof.
  intros pattern max_length Hp Hmax.
  unfold RandomGenerator._generate_text_data. fold pattern.
  intros H. bind_inv H.
  eapply apply_nulls_Forall; [exact Hk |]. clear Hk.
  assert (Hm' : repeat_m (Z.to_nat (record_count config))
                  (length <- random_randint
                               (Qfloor (params_get (or_else (distribution_params variable) [])
                                          "min_length" 5)) max_length ;;
                   chosen <- repeat_m (Z.to_nat length)
                               (random_choice RandomGenerator.words EmptyString) ;;
                   ret (VStr (slice_to (join " " chosen) max_length))) rng
                = (Ok a, s)).
  { destruct Hp as [E | E]; rewrite E in Hm; exact Hm. }
  clear Hm.
  eapply repeat_m_Forall; [| exact Hm'].
  intros s0 v s1 Hv. bind_inv Hv. bind_inv Hk.
  apply ret_Ok in Hk0. destruct Hk0 as [<- _].
  eexists. split; [reflexivity |].
  apply slice_to_length. exact Hmax.
Qed.

Lemma free_text_truncated_witness :
  Forall (fun v => v = VNone \/
                   exists s, v = VStr s /\ Z.of_nat (String.length s) <= 20)
         [VStr "lorem lorem lorem lo"].
Proof.
  apply (free_text_truncated
           (example_subject_config 1 1 [])
           (mkVariable "NOTE" "text" None None None None)
           (rng_const 0) _
           (snd (RandomGenerator._generate_text_data
                   (example_subject_config 1 1 [])
                   (mkVariable "NOTE" "text" None None None None)
                   (rng_const 0))));
    [left; reflexivity | vm_compute; discriminate | vm_compute; reflexivity].
Defined.

(** ** Decimal numerals *)

Lemma digits_value_uint_acc (d : Decimal.uint) (acc : positive) :
  digits_value (Z.pos acc) (NilEmpty.string_of_uint d)
  = Some (Z.pos (Pos.of_uint_acc d acc)).
Proof.
  revert acc.
  induction d as [| d IH | d IH | d IH | d IH | d IH | d IH | d IH | d IH | d IH | d IH];
    intros acc; cbn [NilEmpty.string_of_uint digits_value Pos.of_uint_acc];
    [reflexivity | ..];
    match goal with
    | |- context [digit_of ?c] =>
        let v := eval vm_compute in (digit_of c) in change (digit_of c) with v
    end;
    cbv iota; rewrite <- IH; f_equal; lia.
Qed.

Lemma digits_value_uint (d : Decimal.uint) :
  digits_value 0 (NilEmpty.string_of_uint d) = Some (Z.of_N (Pos.of_uint d)).
Proof.
  induction d as [| d IH | d IH | d IH | d IH | d IH | d IH | d IH | d IH | d IH | d IH];
    cbn [NilEmpty.string_of_uint digits_value Pos.of_uint];
    [reflexivity | exact IH | ..];
    match goal with
    | |- context [digit_of ?c] =>
        let v := eval vm_compute in (digit_of c) in change (digit_of c) with v
    end;
    cbv iota; cbn [Z.mul Z.add]; apply digits_value_uint_acc.
Qed.

(** [int(str(z)) = z] for a natural number. *)
Lemma digits_value_str_int (z : Z) :
  0 <= z -> digits_value 0 (str_int z) = Some z.
Proof.
  intros Hz. unfold str_int. destruct z as [| p | p]; [reflexivity | | lia].
  cbn [Z.to_int NilZero.string_of_int]. unfold NilZero.string_of_uint.
  pose proof (DecimalPos.Unsigned.to_uint_nonnil p) as N.
  pose proof (DecimalPos.Unsigned.of_to p) as R.
  destruct (Pos.to_uint p) eqn:E; try congruence;
    rewrite digits_value_uint, R; reflexivity.
Qed.

Lemma digits_value_zeros (k : nat) (s : string) :
  digits_value 0 (zeros k ++ s) = digits_value 0 s.
Proof. induction k as [| k IH]; [reflexivity | exact IH]. Qed.

Lemma digits_value_zfill (width : nat) (z : Z) :
  0 <= z -> digits_value 0 (zfill width (str_int z)) = Some z.
Proof.
  intros Hz. unfold zfill. rewrite digits_value_zeros.
  apply digits_value_str_int. exact Hz.
Qed.

Lemma existsb_variable_name (name : string) (vars : list VariableGenerationConfig) :
  existsb (fun var => String.eqb (variable_name var) name) vars = true
  <-> In name (map variable_name vars).
Proof.
  rewrite existsb_exists, in_map_iff. split.
  - intros (v & I & E). apply String.eqb_eq in E. eauto.
  - intros (v & E & I). exists v. split; [exact I | apply String.eqb_eq; exact E].
Qed.

(** X18: the subject identifiers are pairwise distinct, whatever their
    number (the zero padding to six digits does not merge two numbers);
    there are [subject_count] of them when a variable is named [USUBJID] and
    none otherwise; and the number of the [i]-th identifier can be read back
    from its digits. *)
Theorem subject_ids_distinct config :
  let ids := RandomGenerator._generate_subject_ids config in
  NoDup ids
  /\ (In "USUBJID" (map variable_name (variables config)) ->
      List.length ids = Z.to_nat (subject_count config)
      /\ forall i, (i < Z.to_nat (subject_count config))%nat ->
           exists digits, nth i ids "" = "SUBJ" ++ digits
                          /\ digits_value 0 digits = Some (Z.of_nat i + 1))
  /\ (~ In "USUBJID" (map variable_name (variables config)) -> ids = []).
Proof.
  intros ids. unfold ids, RandomGenerator._generate_subject_ids.
  pose proof (existsb_variable_name "USUBJID" (variables config)) as Ex.
  destruct (existsb _ (variables config)); cbn [negb].
  - split; [| split].
    + apply Finite.Injective_map_NoDup; [| apply seq_NoDup].
      intros i j E. injection E as E.
      assert (D : digits_value 0 (zfill 6 (str_int (Z.of_nat i + 1)))
                  = digits_value 0 (zfill 6 (str_int (Z.of_nat j + 1))))
        by (rewrite E; reflexivity).
      rewrite !digits_value_zfill in D by lia. injection D as D. lia.
    + intros _. split; [rewrite length_map, length_seq; reflexivity |].
      intros i Hi.
      exists (zfill 6 (str_int (Z.of_nat i + 1))). split.
      * rewrite (nth_indep _ "" ("SUBJ" ++ zfill 6 (str_int (Z.of_nat 0 + 1))))
          by (rewrite length_map, length_seq; exact Hi).
        rewrite (map_nth (fun i => "SUBJ" ++ zfill 6 (str_int (Z.of_nat i + 1)))).
        rewrite seq_nth by exact Hi. reflexivity.
      * apply digits_value_zfill. lia.
    + intros N. exfalso. apply N. apply Ex. reflexivity.
  - split; [constructor | split].
    + intros I. apply Ex in I. discriminate.
    + reflexivity.
Qed.

Lemma subject_ids_distinct_witness :
  NoDup (RandomGenerator._generate_subject_ids
           (example_subject_config 5 3 [example_usubjid "text"])).
Proof.
  exact (proj1 (subject_ids_distinct
                  (example_subject_config 5 3 [example_usubjid "text"]))).
Defined.

(** ** Date strings *)

Lemma append_length (a b : string) :
  String.length (a ++ b) = (String.length a + String.length b)%nat.
Proof. induction a as [| c a IH]; simpl; congruence. Qed.

Lemma zeros_length (k : nat) : String.length (zeros k) = k.
Proof. induction k as [| k IH]; simpl; congruence. Qed.

Lemma zfill_length (width : nat) (s : string) :
  String.length (zfill width s) = Nat.max width (String.length s).
Proof. unfold zfill. rewrite append_length, zeros_length. lia. Qed.

(** A run of digits ends at the first dash. *)
Lemma split_dash_digits (a rest : string) (acc v : Z) :
  digits_value acc a = Some v ->
  split_dash (a ++ String "-" rest) = (a, Some rest).
Proof.
  revert acc. induction a as [| c a IH]; intros acc H.
  - reflexivity.
  - cbn [digits_value] in H. destruct (digit_of c) as [d |] eqn:D; [| discriminate].
    cbn [append split_dash]. destruct (Ascii.eqb c "-") eqn:E.
    + apply Ascii.eqb_eq in E. subst c. vm_compute in D. discriminate.
    + rewrite (IH _ H). reflexivity.
Qed.

Lemma all_from_spec (f : Z -> bool) (n : nat) :
  forall start, all_from f start n = true ->
  forall z, start <= z < start + Z.of_nat n -> f z = true.
Proof.
  induction n as [| n IH]; intros start H z Hz; [lia |].
  cbn [all_from] in H. apply andb_true_iff in H. destruct H as [H0 H1].
  destruct (Z.eq_dec z start) as [-> | N]; [exact H0 |].
  apply (IH (start + 1) H1). lia.
Qed.

Lemma str_int_length_year (y : Z) :
  0 <= y <= 9999 -> (String.length (str_int y) <= 4)%nat.
Proof.
  intros Hy.
  assert (A : all_from (fun z => Nat.leb (String.length (str_int z)) 4) 0
                       (Z.to_nat 10000) = true) by (vm_compute; reflexivity).
  apply Nat.leb_le. apply (all_from_spec _ _ _ A). lia.
Qed.

Lemma str_int_length_field (z : Z) :
  0 <= z <= 99 -> (String.length (str_int z) <= 2)%nat.
Proof.
  intros Hz.
  assert (A : all_from (fun z => Nat.leb (String.length (str_int z)) 2) 0
                       (Z.to_nat 100) = true) by (vm_compute; reflexivity).
  apply Nat.leb_le. apply (all_from_spec _ _ _ A). lia.
Qed.

Lemma parse_field_year (y : Z) :
  0 <= y <= 9999 -> parse_field 4 4 (zfill 4 (str_int y)) = Some y.
Proof.
  intros Hy. unfold parse_field. rewrite zfill_length.
  pose proof (str_int_length_year y Hy) as L.
  rewrite Nat.max_l by exact L. cbn [Nat.leb andb].
  apply digits_value_zfill. lia.
Qed.

Lemma parse_field_two (z : Z) :
  0 <= z <= 99 -> parse_field 1 2 (zfill 2 (str_int z)) = Some z.
Proof.
  intros Hz. unfold parse_field. rewrite zfill_length.
  pose proof (str_int_length_field z Hz) as L.
  rewrite Nat.max_l by exact L. cbn [Nat.leb andb].
  apply digits_value_zfill. lia.
Qed.

Lemma days_in_month_le (y m : Z) : days_in_month y m <= 31.
Proof.
  unfold days_in_month.
  destruct (m =? 2); [destruct (is_leap y); lia |].
  destruct (_ || _)%bool; lia.
Qed.

(** X19: a date written with [strftime("%Y-%m-%d")] is read back by
    [strptime] with the same format: for every existing date from year 1000
    on, parsing the written string gives the date again. *)
Theorem strptime_strftime_round_trip y m d :
  valid_date y m d = true ->
  1000 <= y ->
  strptime (strftime (mkDate y m d)) = Ok (mkDate y m d).
Proof.
  intros V Hy. pose proof V as V'. apply valid_date_iff in V'.
  destruct V' as (Y & M & D). pose proof (days_in_month_le y m) as D31.
  unfold strptime, strftime. cbn [year month day].
  change ("-" ++ ?x) with (String "-" x).
  cbn [append].
  rewrite (split_dash_digits _ _ 0 y) by (apply digits_value_zfill; lia).
  rewrite (split_dash_digits _ _ 0 m) by (apply digits_value_zfill; lia).
  rewrite parse_field_year by lia.
  rewrite !parse_field_two by lia.
  rewrite V. reflexivity.
Qed.

Lemma strptime_strftime_round_trip_witness :
  strptime (strftime (mkDate 2024 2 29)) = Ok (mkDate 2024 2 29).
Proof.
  apply strptime_strftime_round_trip; [reflexivity | lia].
Defined.

(** ** Day numbers *)

Lemma civil_day_ok_era0 (z : Z) :
  - 719468 <= z < - 719468 + 146097 -> civil_day_ok z = true.
Proof.
  assert (A : all_from civil_day_ok (- 719468) (Z.to_nat 146097) = true)
    by (vm_compute; reflexivity).
  intros Hz. apply (all_from_spec _ _ _ A). lia.
Qed.

Lemma civil_from_days_shift (z e : Z) :
  civil_from_days (z + 146097 * e)
  = mkDate (year (civil_from_days z) + 400 * e)
           (month (civil_from_days z)) (day (civil_from_days z)).
Proof.
  unfold civil_from_days. cbv zeta. cbn [year month day].
  replace (z + 146097 * e + 719468) with (z + 719468 + e * 146097) by lia.
  rewrite Z.div_add by lia.
  set (q := (z + 719468) / 146097).
  replace (z + 719468 + e * 146097 - (q + e) * 146097)
    with (z + 719468 - q * 146097) by lia.
  set (doe := z + 719468 - q * 146097).
  set (yoe := (doe - doe / 1460 + doe / 36524 - doe / 146096) / 365).
  set (doy := doe - (365 * yoe + yoe / 4 - yoe / 100)).
  set (mp := (5 * doy + 2) / 153).
  destruct ((if mp <? 10 then mp + 3 else mp - 9) <=? 2); f_equal; lia.
Qed.

Lemma days_from_civil_shift (y m d e : Z) :
  days_from_civil (mkDate (y + 400 * e) m d)
  = days_from_civil (mkDate y m d) + 146097 * e.
Proof.
  unfold days_from_civil. cbv zeta. cbn [year month day].
  assert (S : forall t, (t + 400 * e) / 400 = t / 400 + e).
  { intros t. replace (t + 400 * e) with (t + e * 400) by lia.
    apply Z.div_add. lia. }
  destruct (m <=? 2).
  - replace (y + 400 * e - 1) with (y - 1 + 400 * e) by lia.
    rewrite S.
    replace (y - 1 + 400 * e - ((y - 1) / 400 + e) * 400)
      with (y - 1 - (y - 1) / 400 * 400) by lia.
    lia.
  - rewrite S.
    replace (y + 400 * e - (y / 400 + e) * 400) with (y - y / 400 * 400) by lia.
    lia.
Qed.

Lemma is_leap_shift (y e : Z) : is_leap (y + 400 * e) = is_leap y.
Proof.
  unfold is_leap.
  replace (y + 400 * e) with (y + (100 * e) * 4) at 1 by lia.
  replace (y + 400 * e) with (y + (4 * e) * 100) at 1 by lia.
  replace (y + 400 * e) with (y + e * 400) by lia.
  rewrite !Z.mod_add by lia. reflexivity.
Qed.

Lemma civil_day_ok_all (z : Z) : civil_day_ok z = true.
Proof.
  set (e := (z + 719468) / 146097).
  set (z0 := z - 146097 * e).
  assert (R : - 719468 <= z0 < - 719468 + 146097).
  { pose proof (Z.div_mod (z + 719468) 146097 ltac:(lia)) as DM.
    pose proof (Z.mod_pos_bound (z + 719468) 146097 ltac:(lia)) as B.
    unfold z0, e. lia. }
  pose proof (civil_day_ok_era0 z0 R) as H0.
  replace z with (z0 + 146097 * e) by (unfold z0; lia).
  unfold civil_day_ok in *. cbv zeta in *.
  rewrite civil_from_days_shift.
  destruct (civil_from_days z0) as [y m d]. cbn [year month day] in *.
  rewrite days_from_civil_shift.
  unfold days_in_month in *. rewrite is_leap_shift.
  apply andb_true_iff in H0. destruct H0 as [H1 H2].
  apply Z.eqb_eq in H1. rewrite H2, andb_true_r.
  apply Z.eqb_eq. lia.
Qed.

(** Day numbers and dates: going to the calendar and back is the
    identity, and the calendar date exists. *)
Lemma civil_day_ok_parts (z : Z) (c : date) :
  (let c := c in
   andb (days_from_civil c =? z)
        (andb (andb (1 <=? month c) (month c <=? 12))
              (andb (1 <=? day c) (day c <=? days_in_month (year c) (month c)))))
  = true ->
  days_from_civil c = z
  /\ (1 <= month c <= 12) /\ (1 <= day c <= days_in_month (year c) (month c)).
Proof.
  cbv zeta. rewrite !andb_true_iff, Z.eqb_eq, !Z.leb_le. tauto.
Qed.

Lemma civil_from_days_spec (z : Z) :
  days_from_civil (civil_from_days z) = z
  /\ (1 <= month (civil_from_days z) <= 12)
  /\ (1 <= day (civil_from_days z)
      <= days_in_month (year (civil_from_days z)) (month (civil_from_days z))).
Proof.
  apply civil_day_ok_parts. exact (civil_day_ok_all z).
Qed.

Lemma add_days_result (dt : date) (n : Z) (r : date) :
  add_days dt n = Ok r ->
  r = civil_from_days (days_from_civil dt + n) /\ 1 <= year r <= 9999.
Proof.
  unfold add_days.
  generalize (civil_from_days (days_from_civil dt + n)). intros c. cbv zeta.
  destruct (andb _ _) eqn:E; [| discriminate].
  intros H. injection H as <-. split; [reflexivity |].
  apply andb_true_iff in E. rewrite !Z.leb_le in E. exact E.
Qed.

Lemma add_days_Ok (dt : date) (n : Z) (r : date) :
  add_days dt n = Ok r ->
  days_from_civil r = days_from_civil dt + n
  /\ valid_date (year r) (month r) (day r) = true.
Proof.
  intros H. apply add_days_result in H. destruct H as [R Y].
  pose proof (civil_from_days_spec (days_from_civil dt + n)) as (S1 & S2 & S3).
  rewrite <- R in S1, S2, S3. split; [exact S1 |].
  apply valid_date_iff. split; [exact Y | split; assumption].
Qed.

Lemma random_randint_range (a b : Z) rng k rng' :
  random_randint a b rng = (Ok k, rng') -> a <= k <= b.
Proof.
  unfold random_randint. destruct (b <? a) eqn:E.
  - intros H. apply raise_not_Ok in H. contradiction.
  - apply Z.ltb_ge in E. intros H. bind_inv H.
    apply ret_Ok in Hk. destruct Hk as [<- _].
    pose proof (scaled_index_range (Qfrac a0) (b - a + 1) (Qfrac_range _)
                  ltac:(lia)). lia.
Qed.

(** X20: every entry of a date column of the random generator is [None]
    or the [%Y-%m-%d] form of an existing date that lies between the lower
    and the upper bound (2020-01-01 and 2023-12-31 unless the constraints
    give dates that parse), both included. *)
Theorem random_dates_within_bounds config variable rng col rng' :
  let c := or_else (constraints variable) default_constraint in
  let min_date := RandomGenerator.date_bound (min_value c) RandomGenerator.default_start in
  let max_date := RandomGenerator.date_bound (max_value c) RandomGenerator.default_end in
  RandomGenerator._generate_date_data config variable rng = (Ok col, rng') ->
  Forall (fun v => v = VNone \/
            exists d, v = VStr (strftime d)
              /\ valid_date (year d) (month d) (day d) = true
              /\ days_from_civil min_date <= days_from_civil d
                 <= days_from_civil max_date) col.
Proof.
  intros c min_date max_date.
  unfold RandomGenerator._generate_date_data. fold c. fold min_date. fold max_date.
  intros H. bind_inv H.
  eapply apply_nulls_Forall; [exact Hk |]. clear Hk.
  eapply repeat_m_Forall; [| exact Hm].
  intros s0 v s1 Hv. bind_inv Hv. bind_inv Hk.
  apply lift_exc_Ok in Hm1. destruct Hm1 as [A _].
  apply ret_Ok in Hk0. destruct Hk0 as [<- _].
  apply random_randint_range in Hm0.
  apply add_days_Ok in A. destruct A as [A V].
  exists a1. split; [reflexivity |]. split; [exact V |]. lia.
Qed.

Lemma random_dates_within_bounds_witness :
  Forall (fun v => v = VNone \/
            exists d, v = VStr (strftime d)
              /\ valid_date (year d) (month d) (day d) = true
              /\ days_from_civil (mkDate 2021 2 27) <= days_from_civil d
                 <= days_from_civil (mkDate 2021 3 2))
         [VStr "2021-03-01"; VStr "2021-03-01"].
Proof.
  apply (random_dates_within_bounds (example_subject_config 2 1 [])
           example_visit_variable (rng_const (1 # 2)) _
           (snd (RandomGenerator._generate_date_data
                   (example_subject_config 2 1 []) example_visit_variable
                   (rng_const (1 # 2)))));
    vm_compute; reflexivity.
Defined.

(** ** The other samplers of utils/sampling.py *)

Lemma seed_if_given_bind {A} (seed : option Z) (m : Rand A) rng :
  (seed_if_given seed ;;; m) rng = m (snd (seed_if_given seed rng)).
Proof. unfold bind. rewrite seed_if_given_Ok. reflexivity. Qed.

Lemma map_m_cons_Ok {S A B} (f : A -> St S B) x xs s y s1 ys s2 :
  f x s = (Ok y, s1) -> map_m f xs s1 = (Ok ys, s2) ->
  map_m f (x :: xs) s = (Ok (y :: ys), s2).
Proof. intros H1 H2. cbn [map_m]. unfold bind. rewrite H1, H2. reflexivity. Qed.

Lemma nulls_loop (p : Q) (data : list value) :
  forall rng, exists result rng',
    map_m (fun v => u <- random_random ;;
                    ret (if Qltb u p then VNone else v)) data rng
    = (Ok result, rng')
    /\ Forall2 (fun v w => w = VNone \/ w = v) data result
    /\ ((p <= 0)%Q -> result = data)
    /\ ((1 <= p)%Q -> result = map (fun _ => VNone) data).
Proof.
  induction data as [| v data IH]; intros rng.
  - exists [], rng. repeat split; constructor.
  - set (r1 := mkRng (seeded rng) (stream rng) (Datatypes.S (cursor rng))).
    set (u := Qfrac (stream rng (cursor rng))).
    pose proof (Qfrac_range (stream rng (cursor rng))) as [U0 U1]. fold u in U0, U1.
    destruct (IH r1) as (result & rng' & E & F & Lo & Hi).
    exists ((if Qltb u p then VNone else v) :: result), rng'.
    split; [eapply map_m_cons_Ok; [reflexivity | exact E] |]. split; [| split].
    + constructor; [| exact F]. destruct (Qltb u p); auto.
    + intros L. rewrite (Lo L). f_equal.
      unfold Qltb. replace (Qle_bool p u) with true; [reflexivity |].
      symmetry. apply Qle_bool_iff. eapply Qle_trans; eassumption.
    + intros G. rewrite (Hi G). cbn [map]. f_equal.
      unfold Qltb. destruct (Qle_bool p u) eqn:B; [| reflexivity].
      apply Qle_bool_iff in B. exfalso.
      apply (Qlt_irrefl u). eapply Qlt_le_trans; [exact U1 |].
      eapply Qle_trans; eassumption.
Qed.

(** X21: [apply_missing_values] always returns; the result has the length
    of the data and each entry is [None] or the entry of the data at the
    same place; with a probability of 0 or less the data come back
    unchanged, with a probability of 1 or more every entry is [None]. *)
Theorem apply_missing_values_spec data probability seed rng :
  exists result rng',
    apply_missing_values data probability seed rng = (Ok result, rng')
    /\ List.length result = List.length data
    /\ Forall2 (fun v w => w = VNone \/ w = v) data result
    /\ ((probability <= 0)%Q -> result = data)
    /\ ((1 <= probability)%Q -> result = map (fun _ => VNone) data).
Proof.
  unfold apply_missing_values. rewrite seed_if_given_bind.
  destruct (nulls_loop probability data (snd (seed_if_given seed rng)))
    as (result & rng' & E & F & Lo & Hi).
  exists result, rng'. split; [exact E |].
  split; [symmetry; eapply Forall2_length_eq; exact F |]. auto.
Qed.

Lemma apply_missing_values_spec_witness :
  exists result rng',
    apply_missing_values [VInt 1; VNone; VStr "a"] 0 (Some 7) (rng_const 0)
    = (Ok result, rng')
    /\ List.length result = List.length [VInt 1; VNone; VStr "a"]
    /\ Forall2 (fun v w => w = VNone \/ w = v) [VInt 1; VNone; VStr "a"] result
    /\ ((0 <= 0)%Q -> result = [VInt 1; VNone; VStr "a"])
    /\ ((1 <= 0)%Q -> result = map (fun _ => VNone) [VInt 1; VNone; VStr "a"]).
Proof.
  apply (apply_missing_values_spec [VInt 1; VNone; VStr "a"] 0 (Some 7) (rng_const 0)).
Defined.

Lemma filter_present_empty (data : list value) :
  List.length (filter (fun x => negb (isna x)) data) = O
  <-> Forall (fun v => v = VNone) data.
Proof.
  induction data as [| v data IH]; cbn [filter].
  - split; [constructor | reflexivity].
  - destruct v; cbn [isna negb List.length]; split; intros H;
      try discriminate; try (inversion H; subst; discriminate).
    + constructor; [reflexivity | apply IH; exact H].
    + inversion H; subst. apply IH. assumption.
Qed.

Lemma np_random_randint_total (low high count : Z) rng :
  low < high -> 0 <= count ->
  exists l rng', np_random_randint low high count rng = (Ok l, rng')
                 /\ List.length l = Z.to_nat count
                 /\ Forall (fun i => low <= i < high) l.
Proof.
  intros Hlh Hc. unfold np_random_randint.
  destruct (high <=? low) eqn:E; [apply Z.leb_le in E; lia |].
  unfold bind at 1. unfold np_size.
  destruct (count <? 0) eqn:C; [apply Z.ltb_lt in C; lia |].
  unfold ret at 1.
  match goal with
  | |- context [repeat_m ?k ?m rng] =>
      assert (T : forall s, exists y s', m s = (Ok y, s'))
        by (intros s; eexists _, _; reflexivity);
      destruct (repeat_m_total m T k rng) as (l & r1 & R)
  end.
  exists l, r1. split; [exact R |].
  split; [eapply repeat_m_length; exact R |].
  eapply repeat_m_Forall; [| exact R].
  intros s a s' H. bind_inv H. apply ret_Ok in Hk. destruct Hk as [<- _].
  pose proof (scaled_index_range (Qfrac a0) (high - low) (Qfrac_range _)
                ltac:(lia)). lia.
Qed.

Lemma np_seed_if_given_bind {A} (seed : option Z) (m : Rand A) rng :
  np_seed_ok seed ->
  (np_seed_if_given seed ;;; m) rng = m (snd (seed_if_given seed rng)).
Proof. intros Sd. unfold bind. rewrite np_seed_if_given_Ok by exact Sd. reflexivity. Qed.

(** X22: for a seed numpy takes, [sample_from_distribution] raises
    [ValueError] when the data hold no value other than [None] (whatever
    [count] is, even 0); when they hold one, and the values present are all
    floats or all 64-bit integers (so that the array built from the samples
    holds them unchanged), it returns, for a non-negative [count], [count]
    samples, each of them an entry of the data that is not [None]. *)
Theorem sample_from_distribution_spec data count seed rng :
  np_seed_ok seed ->
  (Forall (fun v => v = VNone) data ->
   sample_from_distribution data count seed rng
   = (Raise (ValueError "No valid data points to sample from"),
      snd (seed_if_given seed rng)))
  /\ (Exists (fun v => v <> VNone) data ->
      Forall (fun v => v = VNone \/ exists q, v = VFloat q) data
      \/ Forall (fun v => v = VNone
                          \/ exists z, v = VInt z /\ - 2 ^ 63 <= z < 2 ^ 63) data ->
      0 <= count ->
      exists result rng',
        sample_from_distribution data count seed rng = (Ok result, rng')
        /\ List.length result = Z.to_nat count
        /\ Forall (fun v => In v data /\ v <> VNone) result).
Proof.
  intros Sd.
  unfold sample_from_distribution. rewrite np_seed_if_given_bind by exact Sd.
  cbv zeta.
  set (clean := filter (fun x => negb (isna x)) data).
  split.
  - intros F. apply filter_present_empty in F. fold clean in F. rewrite F.
    reflexivity.
  - intros Ex _ Hc.
    destruct (Nat.eqb (List.length clean) 0) eqn:E.
    + exfalso. apply Nat.eqb_eq in E. apply filter_present_empty in E.
      apply Exists_exists in Ex. destruct Ex as (v & I & N).
      rewrite Forall_forall in E. exact (N (E v I)).
    + apply Nat.eqb_neq in E.
      destruct (np_random_randint_total 0 (Z.of_nat (List.length clean)) count
                  (snd (seed_if_given seed rng)) ltac:(lia) Hc)
        as (l & r1 & R & Len & Rng).
      unfold bind. rewrite R. unfold ret.
      eexists _, _. split; [reflexivity |].
      split; [rewrite length_map; exact Len |].
      apply Forall_map. eapply Forall_impl; [| exact Rng].
      intros i Hi. cbv beta in Hi |- *.
      assert (I : In (nth (Z.to_nat i) clean VNone) clean)
        by (apply nth_In; lia).
      unfold clean in I at 2. apply filter_In in I. destruct I as [I P].
      split; [exact I |]. intros N. rewrite N in P. discriminate.
Qed.

Lemma sample_from_distribution_spec_witness :
  sample_from_distribution [VNone; VNone] 0 (Some 7) (rng_const 0)
  = (Raise (ValueError "No valid data points to sample from"),
     snd (seed_if_given (Some 7) (rng_const 0)))
  /\ exists result rng',
       sample_from_distribution [VNone; VFloat 30; VFloat 41] 2 (Some 7) (rng_const 0)
       = (Ok result, rng')
       /\ List.length result = Z.to_nat 2
       /\ Forall (fun v => In v [VNone; VFloat 30; VFloat 41] /\ v <> VNone) result.
Proof.
  split.
  - apply (proj1 (sample_from_distribution_spec [VNone; VNone] 0 (Some 7)
                    (rng_const 0) ltac:(simpl; lia))).
    repeat constructor.
  - apply (proj2 (sample_from_distribution_spec [VNone; VFloat 30; VFloat 41] 2
                    (Some 7) (rng_const 0) ltac:(simpl; lia))).
    + apply Exists_cons_tl. apply Exists_cons_hd. discriminate.
    + left. constructor; [left; reflexivity |].
      constructor; [right; eexists; reflexivity |].
      constructor; [right; eexists; reflexivity | constructor].
    + lia.
Defined.

(** ** Sequential identifiers *)

Lemma append_nil_r (s : string) : s ++ "" = s.
Proof. induction s as [| c s IH]; simpl; congruence. Qed.

Lemma append_inj_l (p a b : string) : p ++ a = p ++ b -> a = b.
Proof.
  induction p as [| c p IH]; simpl; intros H; [exact H |].
  injection H as H. auto.
Qed.

Lemma append_inj_r (a b s : string) : a ++ s = b ++ s -> a = b.
Proof.
  revert b. induction a as [| c a IH]; intros [| d b] H.
  - reflexivity.
  - exfalso. apply (f_equal String.length) in H.
    cbn [append String.length] in H. rewrite ?append_length in H. lia.
  - exfalso. apply (f_equal String.length) in H.
    cbn [append String.length] in H. rewrite ?append_length in H. lia.
  - simpl in H. injection H as -> H. f_equal. apply IH. exact H.
Qed.

Lemma py_zfill_nonneg (width z : Z) :
  0 <= z -> digits_value 0 (py_zfill width (str_int z)) = Some z.
Proof.
  intros Hz. pose proof (digits_value_str_int z Hz) as D.
  unfold py_zfill. cbv zeta.
  destruct (str_int z) as [| c rest] eqn:E.
  - rewrite <- (append_nil_r (zeros _)). rewrite digits_value_zeros. exact D.
  - assert (S : orb (Ascii.eqb c "+") (Ascii.eqb c "-") = false).
    { cbn [digits_value] in D. destruct (digit_of c) eqn:G; [| discriminate].
      apply orb_false_iff.
      split; apply Ascii.eqb_neq; intros ->; vm_compute in G; discriminate. }
    rewrite S, digits_value_zeros. exact D.
Qed.

Lemma py_zfill_neg (width : Z) (p : positive) :
  exists t, py_zfill width (str_int (Z.neg p)) = String "-" t
            /\ digits_value 0 t = Some (Z.pos p).
Proof.
  unfold py_zfill, str_int. cbn [Z.to_int NilZero.string_of_int]. cbv zeta.
  cbn [Ascii.eqb Bool.eqb orb andb].
  eexists. split; [reflexivity |].
  rewrite digits_value_zeros.
  exact (digits_value_str_int (Z.pos p) ltac:(lia)).
Qed.

Lemma py_zfill_inj (width a b : Z) :
  py_zfill width (str_int a) = py_zfill width (str_int b) -> a = b.
Proof.
  intros H.
  destruct (Z_lt_le_dec a 0) as [A | A]; destruct (Z_lt_le_dec b 0) as [B | B].
  - destruct a as [| pa | pa]; try lia. destruct b as [| pb | pb]; try lia.
    destruct (py_zfill_neg width pa) as (ta & Ea & Da).
    destruct (py_zfill_neg width pb) as (tb & Eb & Db).
    rewrite Ea, Eb in H. injection H as H. subst tb. congruence.
  - destruct a as [| pa | pa]; try lia.
    destruct (py_zfill_neg width pa) as (ta & Ea & Da).
    pose proof (py_zfill_nonneg width b B) as Db.
    rewrite <- H, Ea in Db. discriminate.
  - destruct b as [| pb | pb]; try lia.
    destruct (py_zfill_neg width pb) as (tb & Eb & Db).
    pose proof (py_zfill_nonneg width a A) as Da.
    rewrite H, Eb in Da. discriminate.
  - pose proof (py_zfill_nonneg width a A) as Da.
    pose proof (py_zfill_nonneg width b B) as Db.
    rewrite H in Da. congruence.
Qed.

(** X23: without a pattern [generate_id_values] draws nothing and returns
    [count] identifiers (none for a negative [count]) that are pairwise
    distinct, for every prefix, suffix, width and starting number, negative
    ones included. *)
Theorem sequential_ids_distinct count prefix suffix pattern start_num width seed rng :
  pattern = None \/ pattern = Some "" ->
  exists ids,
    generate_id_values count prefix suffix pattern start_num width seed rng
    = (Ok ids, snd (seed_if_given seed rng))
    /\ List.length ids = Z.to_nat count
    /\ NoDup ids.
Proof.
  intros Hp. unfold generate_id_values. rewrite seed_if_given_bind.
  eexists. split; [destruct Hp as [-> | ->]; reflexivity |].
  split; [rewrite length_map, length_seq; reflexivity |].
  apply Finite.Injective_map_NoDup; [| apply seq_NoDup].
  intros i j E. apply append_inj_l in E. apply append_inj_r in E.
  apply py_zfill_inj in E. lia.
Qed.

Lemma sequential_ids_distinct_witness :
  exists ids,
    generate_id_values 3 "P" "-X" None (-1) 3 None (rng_const 0)
    = (Ok ids, snd (seed_if_given None (rng_const 0)))
    /\ List.length ids = Z.to_nat 3
    /\ NoDup ids.
Proof.
  apply sequential_ids_distinct. left. reflexivity.
Defined.

(** ** Frequency tables *)

Lemma value_eqb_refl (v : value) : value_eqb v v = true.
Proof.
  destruct v; simpl; [reflexivity | apply Z.eqb_refl | | apply String.eqb_refl].
  apply Qeq_bool_iff. reflexivity.
Qed.

Lemma inject_Z_Qeq (a b : Z) : (inject_Z a == inject_Z b)%Q -> a = b.
Proof. unfold Qeq. simpl. lia. Qed.

Lemma value_eqb_sym (x y : value) : value_eqb x y = value_eqb y x.
Proof.
  destruct x, y; simpl; try reflexivity.
  - apply Z.eqb_sym.
  - apply Bool.eq_true_iff_eq. rewrite !Qeq_bool_iff. split; intros H; symmetry; exact H.
  - apply Bool.eq_true_iff_eq. rewrite !Qeq_bool_iff. split; intros H; symmetry; exact H.
  - apply Bool.eq_true_iff_eq. rewrite !Qeq_bool_iff. split; intros H; symmetry; exact H.
  - apply String.eqb_sym.
Qed.

Lemma value_eqb_trans (x y z : value) :
  value_eqb x y = true -> value_eqb y z = true -> value_eqb x z = true.
Proof.
  destruct x, y, z; simpl; try discriminate; try reflexivity;
    rewrite ?Z.eqb_eq, ?Qeq_bool_iff, ?String.eqb_eq; intros H1 H2;
    first [ congruence
          | subst; first [exact H1 | exact H2]
          | eapply Qeq_trans; eassumption
          | apply inject_Z_Qeq; eapply Qeq_trans; eassumption ].
Qed.

Lemma count_of_cons (v a : value) (l : list value) :
  count_of v (a :: l) = (if value_eqb v a then 1 else 0) + count_of v l.
Proof.
  unfold count_of. cbn [filter]. destruct (value_eqb v a); cbn [List.length]; lia.
Qed.

Lemma count_of_nonneg (v : value) (l : list value) : 0 <= count_of v l.
Proof. unfold count_of. lia. Qed.

Lemma count_of_In (v : value) (l : list value) : In v l -> 1 <= count_of v l.
Proof.
  induction l as [| a l IH]; intros I; [contradiction |].
  rewrite count_of_cons. pose proof (count_of_nonneg v l).
  destruct I as [-> | I].
  - rewrite value_eqb_refl. lia.
  - specialize (IH I). destruct (value_eqb v a); lia.
Qed.

Lemma sum_indicator_zero (a : value) (U : list value) :
  Forall (fun v => value_eqb v a = false) U ->
  fold_right Z.add 0 (map (fun v => if value_eqb v a then 1 else 0) U) = 0.
Proof.
  induction 1 as [| v U Hv _ IH]; cbn [map fold_right]; [reflexivity |].
  rewrite Hv, IH. reflexivity.
Qed.

Lemma sum_indicator_one (a : value) (U : list value) :
  ForallOrdPairs (fun u v => value_eqb u v = false) U ->
  Exists (fun u => value_eqb u a = true) U ->
  fold_right Z.add 0 (map (fun v => if value_eqb v a then 1 else 0) U) = 1.
Proof.
  induction 1 as [| u U Hu HU IH]; intros Ex; [inversion Ex |].
  cbn [map fold_right]. destruct (value_eqb u a) eqn:E.
  - rewrite sum_indicator_zero; [reflexivity |].
    eapply Forall_impl; [| exact Hu]. intros v Huv. cbv beta in Huv |- *.
    destruct (value_eqb v a) eqn:Eva; [| reflexivity].
    rewrite value_eqb_sym in Eva.
    rewrite (value_eqb_trans u a v E Eva) in Huv. discriminate.
  - inversion Ex as [? ? Hx | ? ? Hx]; subst; [congruence |].
    rewrite (IH Hx). reflexivity.
Qed.

Lemma sum_counts (U l : list value) :
  ForallOrdPairs (fun u v => value_eqb u v = false) U ->
  Forall (fun a => Exists (fun u => value_eqb u a = true) U) l ->
  fold_right Z.add 0 (map (fun v => count_of v l) U) = Z.of_nat (List.length l).
Proof.
  intros HU. induction 1 as [| a l Ha _ IH].
  - induction U as [| u U IHU]; [reflexivity |].
    cbn [map fold_right]. inversion HU; subst. rewrite IHU by assumption.
    reflexivity.
  - assert (S : fold_right Z.add 0 (map (fun v => count_of v (a :: l)) U)
              = fold_right Z.add 0 (map (fun v => if value_eqb v a then 1 else 0) U)
                + fold_right Z.add 0 (map (fun v => count_of v l) U)).
    { clear. induction U as [| u U IHU]; [reflexivity |].
      cbn [map fold_right]. rewrite IHU, count_of_cons. lia. }
    rewrite S, IH, (sum_indicator_one a U HU Ha). cbn [List.length]. lia.
Qed.

Lemma ForallOrdPairs_filter {A} (R : A -> A -> Prop) (f : A -> bool) (l : list A) :
  ForallOrdPairs R l -> ForallOrdPairs R (filter f l).
Proof.
  induction 1 as [| x l Hx _ IH]; cbn [filter]; [constructor |].
  destruct (f x); [| exact IH].
  constructor; [| exact IH].
  apply Forall_forall. intros y Hy. apply filter_In in Hy.
  rewrite Forall_forall in Hx. apply Hx. tauto.
Qed.

Lemma unique_values_pairwise (l : list value) :
  ForallOrdPairs (fun u v => value_eqb u v = false) (unique_values l).
Proof.
  induction l as [| x l IH]; cbn [unique_values]; constructor.
  - apply Forall_forall. intros y Hy. apply filter_In in Hy.
    destruct Hy as [_ Hy]. apply negb_true_iff in Hy. exact Hy.
  - apply ForallOrdPairs_filter. exact IH.
Qed.

Lemma unique_values_cover (l : list value) :
  Forall (fun a => Exists (fun u => value_eqb u a = true) (unique_values l)) l.
Proof.
  induction l as [| x l IH]; [constructor |].
  cbn [unique_values]. constructor.
  - apply Exists_cons_hd. apply value_eqb_refl.
  - eapply Forall_impl; [| exact IH]. intros a Ha. cbv beta in Ha |- *.
    apply Exists_exists in Ha. destruct Ha as (u & Iu & Eu).
    destruct (value_eqb x u) eqn:Exu.
    + apply Exists_cons_hd. eapply value_eqb_trans; eassumption.
    + apply Exists_cons_tl. apply Exists_exists. exists u.
      split; [| exact Eu]. apply filter_In. split; [exact Iu |].
      rewrite Exu. reflexivity.
Qed.

Lemma insert_by_count_sum {A} (x : A * Z) (l : list (A * Z)) :
  fold_right Z.add 0 (map snd (insert_by_count x l))
  = snd x + fold_right Z.add 0 (map snd l).
Proof.
  induction l as [| y l IH]; cbn [insert_by_count map fold_right]; [reflexivity |].
  destruct (snd y <=? snd x); cbn [map fold_right]; [reflexivity |].
  rewrite IH. lia.
Qed.

Lemma insert_by_count_In {A} (x y : A * Z) (l : list (A * Z)) :
  In y (insert_by_count x l) <-> y = x \/ In y l.
Proof.
  induction l as [| z l IH]; cbn [insert_by_count].
  - simpl. intuition.
  - destruct (snd z <=? snd x); cbn [In]; [intuition |].
    rewrite IH. intuition.
Qed.

Lemma sort_by_count_sum {A} (l : list (A * Z)) :
  fold_right Z.add 0 (map snd (sort_by_count l)) = fold_right Z.add 0 (map snd l).
Proof.
  induction l as [| x l IH]; [reflexivity |].
  unfold sort_by_count in *. cbn [fold_right map].
  rewrite insert_by_count_sum.
  change (fold_right insert_by_count [] l) with (sort_by_count l).
  unfold sort_by_count. rewrite IH. reflexivity.
Qed.

Lemma sort_by_count_In {A} (y : A * Z) (l : list (A * Z)) :
  In y (sort_by_count l) <-> In y l.
Proof.
  induction l as [| x l IH]; [reflexivity |].
  unfold sort_by_count in *. cbn [fold_right].
  rewrite insert_by_count_In, IH. simpl. intuition.
Qed.

Lemma value_counts_sum (col : list value) :
  fold_right Z.add 0 (map snd (value_counts col))
  = Z.of_nat (List.length (dropna col)).
Proof.
  unfold value_counts. rewrite sort_by_count_sum, map_map. cbn [snd].
  apply sum_counts; [apply unique_values_pairwise | apply unique_values_cover].
Qed.

Lemma value_counts_In (col : list value) (v : value) (n : Z) :
  In (v, n) (value_counts col) -> In v col /\ v <> VNone /\ 1 <= n.
Proof.
  unfold value_counts. rewrite sort_by_count_In, in_map_iff.
  intros (w & E & I). injection E as -> <-.
  apply unique_values_incl in I. pose proof (count_of_In v _ I) as C.
  unfold dropna in I. apply filter_In in I. destruct I as [I P].
  split; [exact I |]. split; [| exact C].
  intros ->. discriminate.
Qed.

Lemma Qsum_counts {A} (t : Q) (l : list (A * Z)) :
  (Qsum (map (fun vc => inject_Z (snd vc) / t) l)
   == inject_Z (fold_right Z.add 0%Z (map snd l)) / t)%Q.
Proof.
  induction l as [| x l IH]; cbn [map Qsum fold_right].
  - unfold Qdiv. rewrite Qmult_0_l. reflexivity.
  - unfold Qsum in IH. rewrite IH, inject_Z_plus. unfold Qdiv. ring.
Qed.

Lemma value_counts_normalized_spec (col : list value) :
  dropna col <> [] ->
  map fst (value_counts_normalized col) <> []
  /\ Forall (fun v => In v col /\ v <> VNone) (map fst (value_counts_normalized col))
  /\ Forall (fun p => (0 < p)%Q) (map snd (value_counts_normalized col))
  /\ (Qsum (map snd (value_counts_normalized col)) == 1)%Q.
Proof.
  intros Hne.
  assert (T : 0 < Z.of_nat (List.length (dropna col)))
    by (destruct (dropna col); [congruence | simpl; lia]).
  assert (TQ : (0 < inject_Z (Z.of_nat (List.length (dropna col))))%Q)
    by (change 0%Q with (inject_Z 0); rewrite <- Zlt_Qlt; exact T).
  unfold value_counts_normalized. rewrite !map_map. cbn [fst snd].
  split; [| split; [| split]].
  - intros E. apply map_eq_nil in E.
    pose proof (value_counts_sum col) as S. rewrite E in S. simpl in S. lia.
  - apply Forall_map. apply Forall_forall. intros [v n] I.
    apply value_counts_In in I. tauto.
  - apply Forall_map. apply Forall_forall. intros [v n] I.
    apply value_counts_In in I. destruct I as (_ & _ & N). cbn [snd].
    apply Qlt_shift_div_l; [exact TQ |]. rewrite Qmult_0_l.
    change 0%Q with (inject_Z 0). rewrite <- Zlt_Qlt. lia.
  - rewrite Qsum_counts, value_counts_sum.
    apply Qmult_inv_r. intros Z0. rewrite Z0 in TQ. apply (Qlt_irrefl 0). exact TQ.
Qed.

Lemma Qsum_nonneg (l : list Q) : Forall (fun p => (0 <= p)%Q) l -> (0 <= Qsum l)%Q.
Proof.
  induction 1 as [| p l Hp _ IH]; simpl; [apply Qle_refl |].
  rewrite <- (Qplus_0_r 0). apply Qplus_le_compat; assumption.
Qed.

Lemma Qsum_bounds_entry (l : list Q) (p : Q) :
  Forall (fun q => (0 <= q)%Q) l -> In p l -> (p <= Qsum l)%Q.
Proof.
  induction 1 as [| q l Hq F IH]; simpl; [contradiction |].
  pose proof (Qsum_nonneg l F) as S. intros [-> | I].
  - lra.
  - specialize (IH I). lra.
Qed.

Lemma value_counts_cover (col : list value) (v : value) :
  In v col -> v <> VNone ->
  value_in v (map fst (value_counts_normalized col)) = true.
Proof.
  intros I N.
  assert (Ip : In v (dropna col)).
  { unfold dropna. apply filter_In. split; [exact I |]. destruct v; try reflexivity.
    congruence. }
  pose proof (unique_values_cover (dropna col)) as C.
  rewrite Forall_forall in C. specialize (C v Ip).
  apply Exists_exists in C. destruct C as (u & Iu & E).
  unfold value_in. apply existsb_exists. exists u. split.
  - unfold value_counts_normalized. rewrite map_map. cbn [fst].
    apply in_map_iff.
    exists (u, count_of u (dropna col)). split; [reflexivity |].
    unfold value_counts. apply sort_by_count_In.
    apply in_map_iff. exists u. split; [reflexivity | exact Iu].
  - rewrite value_eqb_sym. exact E.
Qed.

(** X24: the frequency table fitted to a categorical source column with
    at least one present value lists values that occur in the column and are
    not missing; every present value of the column is in the table; and each
    value has a probability that is positive and at most 1. *)
Theorem fitted_categorical_table source_data var_name fits col :
  dict_get source_data var_name = Some col ->
  dropna col <> [] ->
  exists values probabilities,
    dict_get (_fit_categorical_distribution source_data var_name fits) var_name
    = Some (FitCategorical values probabilities)
    /\ values <> []
    /\ List.length values = List.length probabilities
    /\ Forall (fun v => In v col /\ v <> VNone) values
    /\ (forall v, In v col -> v <> VNone -> value_in v values = true)
    /\ Forall (fun p => (0 < p <= 1)%Q) probabilities.
Proof.
  intros Hcol Hne. unfold _fit_categorical_distribution. rewrite Hcol. cbn [or_else].
  rewrite dict_get_set_same. eexists _, _. split; [reflexivity |].
  destruct (value_counts_normalized_spec col Hne) as (N & F & P & S).
  split; [exact N |]. split; [rewrite !length_map; reflexivity |].
  split; [exact F |]. split; [intros v; apply value_counts_cover |].
  assert (P0 : Forall (fun q => (0 <= q)%Q) (map snd (value_counts_normalized col)))
    by (eapply Forall_impl; [| exact P]; intros q Hq; apply Qlt_le_weak; exact Hq).
  apply Forall_forall. intros p I. split.
  - rewrite Forall_forall in P. apply P, I.
  - rewrite <- S. apply Qsum_bounds_entry; assumption.
Qed.

Lemma fitted_categorical_table_witness :
  exists values probabilities,
    dict_get (_fit_categorical_distribution example_sex_source "SEX" []) "SEX"
    = Some (FitCategorical values probabilities)
    /\ values <> []
    /\ List.length values = List.length probabilities
    /\ Forall (fun v => In v [VStr "A"; VStr "A"; VStr "A"; VStr "B"] /\ v <> VNone)
              values
    /\ (forall v, In v [VStr "A"; VStr "A"; VStr "A"; VStr "B"] -> v <> VNone ->
                  value_in v values = true)
    /\ Forall (fun p => (0 < p <= 1)%Q) probabilities.
Proof.
  apply (fitted_categorical_table example_sex_source "SEX" []
           [VStr "A"; VStr "A"; VStr "A"; VStr "B"]);
    [reflexivity | discriminate].
Defined.

Lemma np_random_choice_total {A} (a : list A) (p : list Q) count default rng :
  a <> [] -> List.length a = List.length p ->
  Forall (fun x => (0 <= x)%Q) p -> (Qsum p == 1)%Q -> 0 <= count ->
  exists result rng', np_random_choice a p count default rng = (Ok result, rng').
Proof.
  intros Ha Hl Hp Hs Hc. unfold np_random_choice.
  destruct a as [| x a']; [congruence |].
  apply Nat.eqb_eq in Hl. rewrite Hl. cbn [negb].
  assert (E : existsb (fun x => Qltb x 0) p = false).
  { clear - Hp. induction Hp as [| q p Hq _ IH]; [reflexivity |].
    cbn [existsb]. rewrite IH, orb_false_r. unfold Qltb.
    apply negb_false_iff. apply Qle_bool_iff. exact Hq. }
  rewrite E. apply Qeq_bool_iff in Hs. rewrite Hs. cbn [negb].
  unfold bind at 1. unfold np_size.
  destruct (count <? 0) eqn:C; [apply Z.ltb_lt in C; lia |].
  unfold ret at 1.
  apply repeat_m_total. intros s. eexists _, _. reflexivity.
Qed.



(** ** The restricted categorical draw *)









(** ** Date columns of the statistical generator *)

Lemma strptime_strftime (dt : date) :
  valid_date (year dt) (month dt) (day dt) = true ->
  1000 <= year dt ->
  strptime (strftime dt) = Ok dt.
Proof.
  destruct dt as [y m d]. cbn [year month day].
  intros V Hy. pose proof V as V'. apply valid_date_iff in V'.
  destruct V' as (Y & M & D). pose proof (days_in_month_le y m) as D31.
  unfold strptime, strftime. cbn [year month day].
  change ("-" ++ ?x) with (String "-" x).
  cbn [append].
  rewrite (split_dash_digits _ _ 0 y) by (apply digits_value_zfill; lia).
  rewrite (split_dash_digits _ _ 0 m) by (apply digits_value_zfill; lia).
  rewrite parse_field_year by lia.
  rewrite !parse_field_two by lia.
  rewrite V. reflexivity.
Qed.

(** A column of dates written as [YYYY-MM-DD] is read as those dates. *)
Lemma parse_dates_written (col : list value) (dates : list date) :
  dropna col = map (fun d => VStr (strftime d)) dates ->
  Forall (fun d => valid_date (year d) (month d) (day d) = true
                   /\ 1000 <= year d) dates ->
  parse_dates col = Some dates.
Proof.
  unfold parse_dates. intros ->. induction 1 as [| d dates [V Y] _ IH].
  - reflexivity.
  - cbn [map fold_right]. rewrite IH. rewrite strptime_strftime by assumption.
    reflexivity.
Qed.

Lemma int_counts_spec (l : list Z) :
  l <> [] ->
  map fst (int_counts l) <> []
  /\ List.length (map fst (int_counts l)) = List.length (map snd (int_counts l))
  /\ Forall (fun z => In z l) (map fst (int_counts l))
  /\ Forall (fun p => (0 <= p)%Q) (map snd (int_counts l))
  /\ (Qsum (map snd (int_counts l)) == 1)%Q.
Proof.
  intros Hl.
  assert (D : dropna (map VInt l) = map VInt l).
  { unfold dropna. clear Hl. induction l as [| z l IH]; [reflexivity |].
    cbn [map filter isna negb]. rewrite IH. reflexivity. }
  assert (Hne : dropna (map VInt l) <> []).
  { rewrite D. destruct l; [congruence | discriminate]. }
  destruct (value_counts_normalized_spec (map VInt l) Hne) as (N & F & P & S).
  unfold int_counts.
  set (t := value_counts_normalized (map VInt l)) in *.
  assert (Es : map snd (map (fun vq : value * Q =>
                               match fst vq with
                               | VInt z => (z, snd vq)
                               | _ => (0, snd vq)
                               end) t) = map snd t).
  { rewrite map_map. apply map_ext. intros [v q]. destruct v; reflexivity. }
  rewrite Es. split; [| split; [| split; [| split]]].
  - destruct t; [exfalso; apply N; reflexivity | discriminate].
  - rewrite !length_map. reflexivity.
  - rewrite map_map. apply Forall_map. rewrite Forall_map in F.
    eapply Forall_impl; [| exact F]. intros [v q] [I _]. cbn [fst snd] in *.
    apply in_map_iff in I. destruct I as (z & <- & I). exact I.
  - eapply Forall_impl; [| exact P]. intros q Hq. apply Qlt_le_weak. exact Hq.
  - exact S.
Qed.

Lemma date_strings_repaired (draws : list (Z * Z * Z)) :
  Forall (fun ymd => 1 <= fst (fst ymd) <= 9999 /\ 1 <= snd (fst ymd) <= 12) draws ->
  date_strings draws
  = Ok (map (fun ymd => VStr (strftime (repaired_date (fst (fst ymd))
                                          (snd (fst ymd)) (snd ymd))))
            draws).
Proof.
  intros F. induction F as [| [[y' m'] d'] l [Hy' Hm'] _ IH]; simpl.
  - reflexivity.
  - simpl in Hy', Hm'. rewrite make_date_string_repaired by assumption.
    rewrite IH. reflexivity.
Qed.

Lemma zip3_spec {A B C} (P : A -> Prop) (Q : B -> Prop) (R : C -> Prop) :
  forall (a : list A) (b : list B) (c : list C) n,
    List.length a = n -> List.length b = n -> List.length c = n ->
    Forall P a -> Forall Q b -> Forall R c ->
    List.length (zip3 a b c) = n
    /\ Forall (fun t => P (fst (fst t)) /\ Q (snd (fst t)) /\ R (snd t)) (zip3 a b c).
Proof.
  induction a as [| x a IH]; intros b c n La Lb Lc Fa Fb Fc.
  - simpl in *. subst n. split; [reflexivity | constructor].
  - destruct b as [| y b]; [simpl in *; lia |].
    destruct c as [| z c]; [simpl in *; lia |].
    destruct n as [| n]; [discriminate |].
    inversion Fa; inversion Fb; inversion Fc; subst.
    destruct (IH b c n) as [L F]; try assumption;
      try (simpl in *; lia).
    split; [simpl; rewrite L; reflexivity |].
    constructor; [simpl; auto | exact F].
Qed.

(** C8: a date column of the statistical generator, fitted on a source
    column of dates written as [YYYY-MM-DD] (years 1678 to 2261, which
    pandas can hold), is generated without error for every non-negative
    [record_count]: the fit stores the marginals of year, month and day, and
    every generated entry is [None] or the date string of a year, a month
    and a day of the source dates, the day clamped to the last day of that
    month of that year.  [make_date_string], the body of the loop, raises no
    error for a year of four digits and a month of the calendar: a day from
    1 on is clamped to the last day of the month (29 for February of a leap
    year, 28 otherwise), a day that cannot be repaired becomes the 15th.  In
    the scenario, the fit of 10 February (twice) and 30 January 2024 draws
    year 2024, month 2, day 30 and yields 2024-02-29. *)
Theorem statistical_dates_repaired :
  (forall config source_data var_name fits col dates constraints rng,
     dict_get source_data var_name = Some col ->
     dropna col = map (fun d => VStr (strftime d)) dates ->
     dates <> [] ->
     Forall (fun d => valid_date (year d) (month d) (day d) = true
                      /\ 1678 <= year d <= 2261) dates ->
     0 <= record_count config ->
     exists dist result rng',
       _fit_date_distribution source_data var_name fits = dict_set fits var_name dist
       /\ _generate_date_from_distribution config dist constraints rng
          = (Ok result, rng')
       /\ List.length result = Z.to_nat (record_count config)
       /\ Forall (fun v =>
                    v = VNone
                    \/ exists y m d,
                         In y (map year dates) /\ In m (map month dates)
                         /\ In d (map day dates)
                         /\ v = VStr (strftime (mkDate y m (Z.min d (days_in_month y m)))))
                 result)
  /\ (forall y m d,
        1000 <= y <= 9999 -> 1 <= m <= 12 ->
        make_date_string y m d = Ok (strftime (repaired_date y m d))
        /\ (1 <= d -> day (repaired_date y m d) = Z.min d (days_in_month y m))
        /\ (d < 1 -> day (repaired_date y m d) = 15)
        /\ days_in_month y 2 = if is_leap y then 29 else 28)
  /\ (let fits := _fit_date_distribution example_dates_source "VISITDT" [] in
      fits = [("VISITDT", FitDate [2024] [(3 # 3)%Q] [2; 1] [2 # 3; 1 # 3]%Q
                                  [10; 30] [2 # 3; 1 # 3]%Q)]
      /\ (exists r1 r2 r3,
            np_random_choice [2024] [(3 # 3)%Q] 1 0 example_dates_rng = (Ok [2024], r1)
            /\ np_random_choice [2; 1] [2 # 3; 1 # 3]%Q 1 0 r1 = (Ok [2], r2)
            /\ np_random_choice [10; 30] [2 # 3; 1 # 3]%Q 1 0 r2 = (Ok [30], r3))
      /\ fst (_generate_date_from_distribution
                (example_subject_config 1 1 [])
                (FitDate [2024] [(3 # 3)%Q] [2; 1] [2 # 3; 1 # 3]%Q
                   [10; 30] [2 # 3; 1 # 3]%Q)
                None example_dates_rng)
         = Ok [VStr "2024-02-29"]).
Proof.
  split; [| split].
  - intros config source_data var_name fits col dates constraints rng
           Hcol Hwritten Hne Hvalid Hn.
    assert (P : parse_dates col = Some dates).
    { apply parse_dates_written; [exact Hwritten |].
      eapply Forall_impl; [| exact Hvalid]. cbv beta. intros d [V Y].
      split; [exact V | lia]. }
    unfold _fit_date_distribution. rewrite Hcol. cbn [or_else]. rewrite P.
    destruct dates as [| d0 dates']; [congruence |].
    cbv iota zeta.
    set (dates := d0 :: dates') in *.
    destruct (int_counts_spec (map year dates)) as (Ny & Ly & Fy & Py & Sy);
      [discriminate |].
    destruct (int_counts_spec (map month dates)) as (Nm & Lm & Fm & Pm & Sm);
      [discriminate |].
    destruct (int_counts_spec (map day dates)) as (Nd & Ld & Fd & Pd & Sd);
      [discriminate |].
    exists (FitDate (map fst (int_counts (map year dates)))
                    (map snd (int_counts (map year dates)))
                    (map fst (int_counts (map month dates)))
                    (map snd (int_counts (map month dates)))
                    (map fst (int_counts (map day dates)))
                    (map snd (int_counts (map day dates)))).
    destruct (np_random_choice_total _ _ (record_count config) 0 rng Ny Ly Py Sy Hn)
      as (ys & r1 & Ey).
    destruct (np_random_choice_total _ _ (record_count config) 0 r1 Nm Lm Pm Sm Hn)
      as (ms & r2 & Em).
    destruct (np_random_choice_total _ _ (record_count config) 0 r2 Nd Ld Pd Sd Hn)
      as (ds & r3 & Ed).
    pose proof (np_random_choice_Ok _ _ _ _ _ _ _ Ey) as (Iy & Lys & _).
    pose proof (np_random_choice_Ok _ _ _ _ _ _ _ Em) as (Im & Lms & _).
    pose proof (np_random_choice_Ok _ _ _ _ _ _ _ Ed) as (Id & Lds & _).
    assert (Gy : Forall (fun y => In y (map year dates)) ys).
    { rewrite Forall_forall in Iy, Fy |- *. intros y I. apply Fy, Iy, I. }
    assert (Gm : Forall (fun m => In m (map month dates)) ms).
    { rewrite Forall_forall in Im, Fm |- *. intros m I. apply Fm, Im, I. }
    assert (Gd : Forall (fun d => In d (map day dates)) ds).
    { rewrite Forall_forall in Id, Fd |- *. intros d I. apply Fd, Id, I. }
    destruct (zip3_spec _ _ _ ys ms ds _ Lys Lms Lds Gy Gm Gd) as [Lz Fz].
    assert (Vd : forall y m d,
               In y (map year dates) -> In m (map month dates) ->
               In d (map day dates) ->
               1 <= y <= 9999 /\ 1 <= m <= 12 /\ 1 <= d).
    { intros y m d Hy Hm Hd. rewrite Forall_forall in Hvalid.
      apply in_map_iff in Hy. destruct Hy as (dy & <- & Iy').
      apply in_map_iff in Hm. destruct Hm as (dm & <- & Im').
      apply in_map_iff in Hd. destruct Hd as (dd & <- & Id').
      destruct (Hvalid _ Iy') as [_ Yy].
      destruct (Hvalid _ Im') as [Vm _]. apply valid_date_iff in Vm.
      destruct (Hvalid _ Id') as [Vdd _]. apply valid_date_iff in Vdd.
      lia. }
    assert (Ds : date_strings (zip3 ys ms ds)
                 = Ok (map (fun ymd => VStr (strftime (repaired_date (fst (fst ymd))
                                                         (snd (fst ymd)) (snd ymd))))
                           (zip3 ys ms ds))).
    { apply date_strings_repaired. eapply Forall_impl; [| exact Fz].
      intros [[y m] d] (Hy & Hm & Hd). cbn [fst snd] in *.
      destruct (Vd y m d Hy Hm Hd) as (A & B & _). split; assumption. }
    set (strings := map _ (zip3 ys ms ds)) in Ds.
    assert (Fs : Forall (fun v =>
                    exists y m d,
                      In y (map year dates) /\ In m (map month dates)
                      /\ In d (map day dates)
                      /\ v = VStr (strftime (mkDate y m (Z.min d (days_in_month y m)))))
                  strings).
    { unfold strings. apply Forall_map. eapply Forall_impl; [| exact Fz].
      intros [[y m] d] (Hy & Hm & Hd). cbn [fst snd] in *.
      exists y, m, d. repeat (split; [assumption |]).
      destruct (Vd y m d Hy Hm Hd) as (_ & _ & D1). unfold repaired_date.
      replace (1 <=? d) with true by (symmetry; apply Z.leb_le; exact D1).
      reflexivity. }
    assert (Ls : List.length strings = Z.to_nat (record_count config))
      by (unfold strings; rewrite length_map; exact Lz).
    unfold _generate_date_from_distribution.
    unfold bind at 1. rewrite Ey. unfold bind at 1. rewrite Em.
    unfold bind at 1. rewrite Ed. rewrite Ds. cbn [lift_exc].
    unfold bind at 1. unfold ret at 1.
    destruct constraints as [c |].
    + destruct (apply_nulls_total c strings r3) as (result & r4 & AN).
      exists result, r4. split; [reflexivity |]. split; [exact AN |].
      split; [rewrite (apply_nulls_length _ _ _ _ _ AN); exact Ls |].
      eapply apply_nulls_Forall; eassumption.
    + exists strings, r3. split; [reflexivity |]. split; [reflexivity |].
      split; [exact Ls |].
      eapply Forall_impl; [| exact Fs]. intros v Hv. right. exact Hv.
  - intros y m d Hy Hm. split; [apply make_date_string_repaired; [lia | exact Hm] |].
    split; [| split].
    + intros D. unfold repaired_date. simpl.
      replace (1 <=? d) with true by (symmetry; apply Z.leb_le; lia). reflexivity.
    + intros D. unfold repaired_date. simpl.
      replace (1 <=? d) with false by (symmetry; apply Z.leb_gt; lia). reflexivity.
    + reflexivity.
  - cbv zeta. split; [vm_compute; reflexivity |]. split.
    + eexists _, _, _. split; [vm_compute; reflexivity |].
      split; vm_compute; reflexivity.
    + vm_compute. reflexivity.
Qed.

Lemma statistical_dates_repaired_witness :
  (exists dist result rng',
     _fit_date_distribution example_dates_source "VISITDT" []
     = dict_set [] "VISITDT" dist
     /\ _generate_date_from_distribution (example_subject_config 3 1 []) dist None
          example_dates_rng
        = (Ok result, rng')
     /\ List.length result = Z.to_nat 3
     /\ Forall (fun v =>
                  v = VNone
                  \/ exists y m d,
                       In y [2024; 2024; 2024] /\ In m [2; 2; 1] /\ In d [10; 10; 30]
                       /\ v = VStr (strftime (mkDate y m (Z.min d (days_in_month y m)))))
               result)
  /\ make_date_string 2024 2 30 = Ok "2024-02-29"
  /\ make_date_string 2023 2 30 = Ok "2023-02-28"
  /\ make_date_string 2024 4 31 = Ok "2024-04-30"
  /\ make_date_string 2024 2 0 = Ok "2024-02-15".
Proof.
  split; [| split; [| split; [| split]]].
  - apply (proj1 statistical_dates_repaired (example_subject_config 3 1 [])
             example_dates_source "VISITDT" []
             [VStr "2024-02-10"; VStr "2024-02-10"; VStr "2024-01-30"]
             [mkDate 2024 2 10; mkDate 2024 2 10; mkDate 2024 1 30] None
             example_dates_rng).
    + reflexivity.
    + reflexivity.
    + discriminate.
    + repeat constructor; simpl; lia.
    + simpl. lia.
  - exact (proj1 (proj1 (proj2 statistical_dates_repaired) 2024 2 30
                    ltac:(lia) ltac:(lia))).
  - exact (proj1 (proj1 (proj2 statistical_dates_repaired) 2023 2 30
                    ltac:(lia) ltac:(lia))).
  - exact (proj1 (proj1 (proj2 statistical_dates_repaired) 2024 4 31
                    ltac:(lia) ltac:(lia))).
  - exact (proj1 (proj1 (proj2 statistical_dates_repaired) 2024 2 0
                    ltac:(lia) ltac:(lia))).
Defined.

(** ** Numeric columns of the statistical generator *)

Lemma Qmin_cases (x y : Q) : Qmin x y = x \/ Qmin x y = y.
Proof. unfold Qmin. destruct (Qle_bool x y); auto. Qed.

Lemma Qmax_cases (x y : Q) : Qmax x y = x \/ Qmax x y = y.
Proof. unfold Qmax. destruct (Qle_bool x y); auto. Qed.

Lemma Qlist_min_spec (l : list Q) :
  forall q, In (Qlist_min q l) (q :: l)
            /\ Forall (fun x => (Qlist_min q l <= x)%Q) (q :: l).
Proof.
  unfold Qlist_min. induction l as [| x l IH]; intros q; cbn [fold_left].
  - split; [left; reflexivity |]. constructor; [apply Qle_refl | constructor].
  - destruct (IH (Qmin q x)) as [I F]. inversion F as [| ? ? F0 F1]; subst.
    pose proof (Qmin_spec q x) as [Mq Mx]. split.
    + destruct I as [E | I]; [| right; right; exact I].
      destruct (Qmin_cases q x) as [C | C]; [left | right; left]; congruence.
    + constructor; [eapply Qle_trans; eassumption |].
      constructor; [eapply Qle_trans; eassumption | exact F1].
Qed.

Lemma Qlist_max_spec (l : list Q) :
  forall q, In (Qlist_max q l) (q :: l)
            /\ Forall (fun x => (x <= Qlist_max q l)%Q) (q :: l).
Proof.
  unfold Qlist_max. induction l as [| x l IH]; intros q; cbn [fold_left].
  - split; [left; reflexivity |]. constructor; [apply Qle_refl | constructor].
  - destruct (IH (Qmax q x)) as [I F]. inversion F as [| ? ? F0 F1]; subst.
    pose proof (Qmax_spec q x) as [Mq Mx]. split.
    + destruct I as [E | I]; [| right; right; exact I].
      destruct (Qmax_cases q x) as [C | C]; [left | right; left]; congruence.
    + constructor; [eapply Qle_trans; eassumption |].
      constructor; [eapply Qle_trans; eassumption | exact F1].
Qed.

Lemma In_combine_fst {A B} (l : list A) (l' : list B) (p : A * B) :
  In p (combine l l') -> In (fst p) l.
Proof. destruct p as [a b]. apply in_combine_l. Qed.

(** X26: when a numeric source column is fitted and values are generated
    from the fit with no bound in the constraints, no generated number lies
    outside the range of the source: every entry is [None] or a number
    between the smallest and the largest number of the source column, and
    there are [record_count] entries. *)
Theorem statistical_numeric_within_source
    config source_data var_name fits col v values constraints :
  dict_get source_data var_name = Some col ->
  numbers_of (dropna col) = Some (v :: values) ->
  (forall c, constraints = Some c -> min_value c = None /\ max_value c = None) ->
  exists dist lo hi,
    _fit_numeric_distribution source_data var_name fits
    = Ok (dict_set fits var_name dist)
    /\ In lo (v :: values) /\ In hi (v :: values)
    /\ Forall (fun x => (lo <= x <= hi)%Q) (v :: values)
    /\ forall rng result rng',
         _generate_numeric_from_distribution config dist constraints rng
         = (Ok result, rng') ->
         List.length result = Z.to_nat (record_count config)
         /\ Forall (fun w => w = VNone \/
                             exists q, w = VFloat q /\ (lo <= q <= hi)%Q) result.
Proof.
  intros Hcol Hnum Hbounds.
  unfold _fit_numeric_distribution. rewrite Hcol. cbn [or_else]. rewrite Hnum.
  cbv zeta.
  destruct (Qlist_min_spec values v) as [Imin Fmin].
  destruct (Qlist_max_spec values v) as [Imax Fmax].
  set (lo := Qlist_min v values) in *. set (hi := Qlist_max v values) in *.
  assert (Hle : (lo <= hi)%Q).
  { inversion Fmin; subst. inversion Fmax; subst. eapply Qle_trans; eassumption. }
  eexists _, lo, hi. split; [reflexivity |].
  split; [exact Imin |]. split; [exact Imax |]. split.
  { rewrite Forall_forall in Fmin, Fmax |- *. intros x I. split; auto. }
  intros rng result rng'. unfold _generate_numeric_from_distribution.
  intros H. bind_inv H.
  assert (Hlen : List.length a = Z.to_nat (record_count config)).
  { destruct (existsb _ values).
    - unfold kde_resample in Hm. apply np_draws_length in Hm. tauto.
    - eapply np_random_normal_length. exact Hm. }
  clear Hm.
  assert (Hlo : forall (r : Rng) x r',
             match constraints with
             | Some c => match min_value c with
                         | Some v => lift_exc (num_of v)
                         | None => ret lo
                         end
             | None => ret lo
             end r = (Ok x, r') -> x = lo /\ r = r').
  { intros r x r'. destruct constraints as [c |].
    - destruct (Hbounds c eq_refl) as [-> _]. intros E. apply ret_Ok in E.
      destruct E; split; congruence.
    - intros E. apply ret_Ok in E. destruct E; split; congruence. }
  assert (Hhi : forall (r : Rng) x r',
             match constraints with
             | Some c => match max_value c with
                         | Some v => lift_exc (num_of v)
                         | None => ret hi
                         end
             | None => ret hi
             end r = (Ok x, r') -> x = hi /\ r = r').
  { intros r x r'. destruct constraints as [c |].
    - destruct (Hbounds c eq_refl) as [_ ->]. intros E. apply ret_Ok in E.
      destruct E; split; congruence.
    - intros E. apply ret_Ok in E. destruct E; split; congruence. }
  bind_inv Hk. apply Hlo in Hm. destruct Hm as [-> <-].
  bind_inv Hk0. apply Hhi in Hm. destruct Hm as [-> <-].
  set (clipped := map (fun v0 => VFloat (Qmin (Qmax v0 lo) hi)) a) in *.
  assert (Fc : Forall (fun w => exists q, w = VFloat q /\ (lo <= q <= hi)%Q) clipped).
  { unfold clipped. apply Forall_map. apply Forall_forall. intros x _.
    eexists. split; [reflexivity |]. apply clip_in_range. exact Hle. }
  assert (Lc : List.length clipped = Z.to_nat (record_count config))
    by (unfold clipped; rewrite length_map; exact Hlen).
  destruct constraints as [c |].
  - destruct (nullable c && Qltb 0 (null_probability c))%bool.
    + bind_inv Hk. apply ret_Ok in Hk0. destruct Hk0 as [<- _].
      apply np_draws_length in Hm. destruct Hm as [_ Lm]. split.
      * rewrite length_map, length_combine, Lc, Lm. apply Nat.min_id.
      * apply Forall_map. apply Forall_forall. intros p I.
        destruct (Qltb (snd p) (null_probability c)); [left; reflexivity |].
        right. apply In_combine_fst in I.
        rewrite Forall_forall in Fc. apply Fc. exact I.
    + apply ret_Ok in Hk. destruct Hk as [<- _]. split; [exact Lc |].
      eapply Forall_impl; [| exact Fc]. intros w Hw. right. exact Hw.
  - apply ret_Ok in Hk. destruct Hk as [<- _]. split; [exact Lc |].
    eapply Forall_impl; [| exact Fc]. intros w Hw. right. exact Hw.
Qed.

Lemma statistical_numeric_within_source_witness :
  exists dist lo hi,
    _fit_numeric_distribution example_age_table "AGE" []
    = Ok (dict_set [] "AGE" dist)
    /\ In lo [30%Q] /\ In hi [30%Q]
    /\ Forall (fun x => (lo <= x <= hi)%Q) [30%Q]
    /\ forall rng result rng',
         _generate_numeric_from_distribution (example_subject_config 2 1 []) dist
           None rng
         = (Ok result, rng') ->
         List.length result = Z.to_nat (record_count (example_subject_config 2 1 []))
         /\ Forall (fun w => w = VNone \/
                             exists q, w = VFloat q /\ (lo <= q <= hi)%Q) result.
Proof.
  apply (statistical_numeric_within_source (example_subject_config 2 1 [])
           example_age_table "AGE" [] [VNone; VNone; VNone; VFloat 30] 30%Q []
           None);
    [reflexivity | reflexivity | discriminate].
Defined.
